(** * Billing engine: usage metering, invoicing and cost projection

    A shallow embedding of [toolkit/billing_engine.py]: the SQLite-backed
    [UsageTracker], the Stripe-backed [BillingEngine] and the pure
    [CostProjector], with the properties of the specification stated
    over them, and of the conversion to cents in [main] of
    [toolkit/stripe_invoice.py].

    Python's [float] is IEEE 754 binary64; it is modelled by the Standard
    Library's executable specification of binary floating point
    ([SpecFloat]), so every arithmetic step below rounds the way the
    interpreter does. *)

From Stdlib Require Import ZArith List String Ascii Bool Lia QArith.
From Stdlib Require Import Sorting.Sorted Sorting.Permutation.
From Stdlib Require Import Floats.SpecFloat.
Import ListNotations.

Open Scope string_scope.
Open Scope Z_scope.

(** ** Exceptions and results *)

(** The exceptions the modelled code can raise.  [StripeError] is the only
    one the engine catches. *)
Inductive exn : Type :=
| ZeroDivisionError
| OverflowError
| ValueError
| TypeError
| IntegrityError
| StripeError (msg : string).

Inductive result (A : Type) : Type :=
| Ok (a : A)
| Raise (e : exn).

Arguments Ok {A} a.
Arguments Raise {A} e.

Definition rbind {A B : Type} (r : result A) (k : A -> result B) : result B :=
  match r with
  | Ok a => k a
  | Raise e => Raise e
  end.

Declare Scope result_scope.
Delimit Scope result_scope with result.
Notation "x <- r ;; k" := (rbind r (fun x => k))
  (at level 61, r at next level, right associativity) : result_scope.

(** ** Python numbers *)

Module Py.

Definition float : Type := spec_float.

(** binary64: 53 bits of precision, infinities at exponent 1024. *)
Definition prec : Z := 53.
Definition emax : Z := 1024.

Definition fmul : float -> float -> float := SFmul prec emax.
Definition fadd : float -> float -> float := SFadd prec emax.
Definition fsub : float -> float -> float := SFsub prec emax.
Definition fdiv : float -> float -> float := SFdiv prec emax.

Definition is_nan (x : float) : bool :=
  match x with S754_nan => true | _ => false end.

Definition is_inf (x : float) : bool :=
  match x with S754_infinity _ => true | _ => false end.

Definition is_zero (x : float) : bool :=
  match x with S754_zero _ => true | _ => false end.

Definition is_finite (x : float) : bool :=
  match x with S754_zero _ | S754_finite _ _ _ => true | _ => false end.

Definition sign (x : float) : bool :=
  match x with
  | S754_zero s | S754_infinity s | S754_finite s _ _ => s
  | S754_nan => false
  end.

(** The double nearest to [n / d] (ties to even), for [0 <= n] and [0 < d],
    with sign [s]: how a decimal literal is read, how [int / int] is
    computed and how [round] converts its decimal result back. *)
Definition round_ratio (s : bool) (n d : Z) : float :=
  match n with
  | Z0 => S754_zero s
  | _ =>
      let '(mz, ez, lz) := SFdiv_core_binary prec emax n 0 d 0 in
      binary_round_aux prec emax s mz ez lz
  end.

(** The literal [m]e-[k], e.g. [lit 2 3] is [0.002] and [lit 5 0] is [5.0]. *)
Definition lit (m : Z) (k : Z) : float :=
  round_ratio (m <? 0) (Z.abs m) (10 ^ k).

(** The exact value of a float, as a rational; 0 for what has none. *)
Definition value (x : float) : Q :=
  match x with
  | S754_finite s m e =>
      let n := if s then Z.neg m else Z.pos m in
      match e with
      | Zneg p => Qmake n (2 ^ p)%positive
      | _ => inject_Z (n * 2 ^ e)
      end
  | _ => 0%Q
  end.

(** [float(z)] for an int: correctly rounded, [OverflowError] when [z] is
    beyond the largest double. *)
Definition float_of_int (z : Z) : result float :=
  match binary_normalize prec emax z 0 false with
  | S754_infinity _ => Raise OverflowError
  | f => Ok f
  end.

(** [int(x)]: truncation toward zero; [ValueError] on NaN, [OverflowError]
    on an infinity. *)
Definition int_of_float (x : float) : result Z :=
  match x with
  | S754_nan => Raise ValueError
  | S754_infinity _ => Raise OverflowError
  | S754_zero _ => Ok 0
  | S754_finite s m e =>
      let a := match e with
               | Zneg p => Z.pos m / 2 ^ Z.pos p
               | _ => Z.pos m * 2 ^ e
               end in
      Ok (if s then - a else a)
  end.

(** Nearest integer to [n / d] for [0 <= n], [0 < d], ties to even. *)
Definition div_half_even (n d : Z) : Z :=
  let q := n / d in
  let r := n mod d in
  match 2 * r ?= d with
  | Lt => q
  | Gt => q + 1
  | Eq => if Z.even q then q else q + 1
  end.

(** [round(x, ndigits)] on a float, [0 <= ndigits]: the exact value is
    rounded to [ndigits] decimals (ties to even) and the decimal result is
    converted back to the nearest double; NaN, infinities and zeros are
    returned as they are. *)
Definition round_float (x : float) (ndigits : Z) : float :=
  match x with
  | S754_finite s m e =>
      let k := match e with
               | Zneg p => div_half_even (Z.pos m * 10 ^ ndigits) (2 ^ Z.pos p)
               | _ => Z.pos m * 2 ^ e * 10 ^ ndigits
               end in
      round_ratio s k (10 ^ ndigits)
  | _ => x
  end.

(** A Python number: an unbounded [int] or a [float]. *)
Inductive number : Type :=
| PyInt (z : Z)
| PyFloat (f : float).

Definition to_float (a : number) : result float :=
  match a with
  | PyInt z => float_of_int z
  | PyFloat f => Ok f
  end.

Open Scope result_scope.

(** [a * b] *)
Definition mul (a b : number) : result number :=
  match a, b with
  | PyInt x, PyInt y => Ok (PyInt (x * y))
  | _, _ =>
      x <- to_float a ;;
      y <- to_float b ;;
      Ok (PyFloat (fmul x y))
  end.

(** [a - b] *)
Definition sub (a b : number) : result number :=
  match a, b with
  | PyInt x, PyInt y => Ok (PyInt (x - y))
  | _, _ =>
      x <- to_float a ;;
      y <- to_float b ;;
      Ok (PyFloat (fsub x y))
  end.

(** [a / b]: true division.  Two ints give the correctly rounded quotient. *)
Definition truediv (a b : number) : result number :=
  match a, b with
  | PyInt x, PyInt y =>
      if y =? 0 then Raise ZeroDivisionError
      else
        match round_ratio (xorb (x <? 0) (y <? 0)) (Z.abs x) (Z.abs y) with
        | S754_infinity _ => Raise OverflowError
        | f => Ok (PyFloat f)
        end
  | _, _ =>
      x <- to_float a ;;
      y <- to_float b ;;
      if is_zero y then Raise ZeroDivisionError
      else Ok (PyFloat (fdiv x y))
  end.

(** Exact comparison of a float with an int, as the interpreter does it;
    [None] when the float is NaN. *)
Definition compare_float_int (x : float) (z : Z) : option comparison :=
  match x with
  | S754_nan => None
  | S754_infinity s => Some (if s then Lt else Gt)
  | S754_zero _ => Some (0 ?= z)
  | S754_finite s m e =>
      let n := if s then Z.neg m else Z.pos m in
      match e with
      | Zneg p => Some (n ?= z * 2 ^ Z.pos p)
      | _ => Some (n * 2 ^ e ?= z)
      end
  end.

Definition compare (a b : number) : option comparison :=
  match a, b with
  | PyInt x, PyInt y => Some (x ?= y)
  | PyFloat x, PyFloat y => SFcompare x y
  | PyFloat x, PyInt y => compare_float_int x y
  | PyInt x, PyFloat y => option_map CompOpp (compare_float_int y x)
  end.

(** [a > b] *)
Definition gt (a b : number) : bool :=
  match compare a b with Some Gt => true | _ => false end.

(** [a >= b] *)
Definition ge (a b : number) : bool :=
  match compare a b with Some (Gt | Eq) => true | _ => false end.

(** [round(a, ndigits)] for [0 <= ndigits]: an int is returned unchanged. *)
Definition round (a : number) (ndigits : Z) : number :=
  match a with
  | PyInt z => PyInt z
  | PyFloat f => PyFloat (round_float f ndigits)
  end.

Close Scope result_scope.

End Py.

(** ** CostProjector *)

Module CostProjector.

Import Py.
Open Scope result_scope.

(** The dict both projections return; [volume] is [calls_per_month] or
    [hours_per_month]. *)
Record projection : Type := {
  volume : number;
  monthly_cost : number;
  monthly_revenue : number;
  monthly_profit : number;
  margin_percent : number;
  recommendation : string
}.

Definition viable_threshold_api : Z := 50.
Definition viable_threshold_compute : Z := 60.

(** The local [margin_percent] of both functions, before it is rounded for
    the report: guarded against a revenue that is not positive. *)
Definition margin (monthly_profit monthly_revenue : number) : result number :=
  if gt monthly_revenue (PyInt 0) then
    q <- truediv monthly_profit monthly_revenue ;;
    mul q (PyInt 100)
  else Ok (PyInt 0).

Definition project_api_service
    (expected_calls_per_month api_cost_per_call proposed_price_per_1k : number)
    : result projection :=
  monthly_cost <- mul expected_calls_per_month api_cost_per_call ;;
  thousands <- truediv expected_calls_per_month (PyInt 1000) ;;
  monthly_revenue <- mul thousands proposed_price_per_1k ;;
  monthly_profit <- sub monthly_revenue monthly_cost ;;
  margin_percent <- margin monthly_profit monthly_revenue ;;
  Ok {| volume := expected_calls_per_month;
        monthly_cost := round monthly_cost 2;
        monthly_revenue := round monthly_revenue 2;
        monthly_profit := round monthly_profit 2;
        margin_percent := round margin_percent 1;
        recommendation :=
          if ge margin_percent (PyInt viable_threshold_api) then "Viable"
          else "Thin margins - increase price or reduce costs" |}.

Definition project_compute_service
    (hours_per_month compute_cost_per_hour hourly_rate : number)
    : result projection :=
  monthly_cost <- mul hours_per_month compute_cost_per_hour ;;
  monthly_revenue <- mul hours_per_month hourly_rate ;;
  monthly_profit <- sub monthly_revenue monthly_cost ;;
  margin_percent <- margin monthly_profit monthly_revenue ;;
  Ok {| volume := hours_per_month;
        monthly_cost := round monthly_cost 2;
        monthly_revenue := round monthly_revenue 2;
        monthly_profit := round monthly_profit 2;
        margin_percent := round margin_percent 1;
        recommendation :=
          if ge margin_percent (PyInt viable_threshold_compute) then "Viable"
          else "Increase hourly rate or optimize compute" |}.

(** The values the two functions work with before rounding, for stating
    what the report is computed from. *)
Definition api_margin
    (expected_calls_per_month api_cost_per_call proposed_price_per_1k : number)
    : result number :=
  monthly_cost <- mul expected_calls_per_month api_cost_per_call ;;
  thousands <- truediv expected_calls_per_month (PyInt 1000) ;;
  monthly_revenue <- mul thousands proposed_price_per_1k ;;
  monthly_profit <- sub monthly_revenue monthly_cost ;;
  margin monthly_profit monthly_revenue.

Definition api_revenue
    (expected_calls_per_month proposed_price_per_1k : number) : result number :=
  thousands <- truediv expected_calls_per_month (PyInt 1000) ;;
  mul thousands proposed_price_per_1k.

Definition compute_margin
    (hours_per_month compute_cost_per_hour hourly_rate : number)
    : result number :=
  monthly_cost <- mul hours_per_month compute_cost_per_hour ;;
  monthly_revenue <- mul hours_per_month hourly_rate ;;
  monthly_profit <- sub monthly_revenue monthly_cost ;;
  margin monthly_profit monthly_revenue.

Close Scope result_scope.

End CostProjector.

(** ** Dates and their text forms *)

Module DateTime.

(** A naive [datetime]: the proleptic Gregorian ordinal of its date (day 1
    is 0001-01-01, as [date.toordinal] counts) and its time of day. *)
Record datetime : Type := {
  ordinal : Z;
  hour : Z;
  minute : Z;
  second : Z;
  microsecond : Z
}.

Definition max_ordinal : Z := 3652059.   (* 9999-12-31 *)

Definition is_leap (y : Z) : bool :=
  (y mod 4 =? 0) && (negb (y mod 100 =? 0) || (y mod 400 =? 0)).

Definition days_in_month (y m : Z) : Z :=
  if m =? 2 then (if is_leap y then 29 else 28)
  else if (m =? 4) || (m =? 6) || (m =? 9) || (m =? 11) then 30
  else 31.

(** Month and day of the [n]-th day (from 0) of year [y], searching from
    month [m]. *)
Fixpoint month_day (fuel : nat) (y m n : Z) : Z * Z :=
  match fuel with
  | O => (m, n + 1)
  | S fuel' =>
      if n <? days_in_month y m then (m, n + 1)
      else month_day fuel' y (m + 1) (n - days_in_month y m)
  end.

(** Year, month and day of an ordinal, by 400-, 100-, 4- and 1-year
    cycles. *)
Definition ymd (ord : Z) : Z * Z * Z :=
  let n := ord - 1 in
  let n400 := n / 146097 in
  let n := n mod 146097 in
  let n100 := n / 36524 in
  let n := n mod 36524 in
  let n4 := n / 1461 in
  let n := n mod 1461 in
  let n1 := n / 365 in
  let n := n mod 365 in
  let y := n400 * 400 + n100 * 100 + n4 * 4 + n1 + 1 in
  if (n1 =? 4) || (n100 =? 4) then (y - 1, 12, 31)
  else let '(m, d) := month_day 11 y 1 n in (y, m, d).

(** The ordinal of a calendar date. *)
Definition days_before_year (y : Z) : Z :=
  let p := y - 1 in p * 365 + p / 4 - p / 100 + p / 400.

Fixpoint days_before_month (fuel : nat) (y m : Z) : Z :=
  match fuel with
  | O => 0
  | S fuel' =>
      if m <=? 1 then 0
      else days_in_month y (m - 1) + days_before_month fuel' y (m - 1)
  end.

Definition to_ordinal (y m d : Z) : Z :=
  days_before_year y + days_before_month 12 y m + d.

(** [datetime(y, m, d, hh, mm, ss)] *)
Definition make (y m d hh mm ss : Z) : datetime :=
  {| ordinal := to_ordinal y m d; hour := hh; minute := mm; second := ss;
     microsecond := 0 |}.

Definition digit (n : Z) : ascii :=
  ascii_of_N (48 + Z.to_N (n mod 10)).

(** [n] in decimal, zero-padded to [width] digits. *)
Fixpoint pad (width : nat) (n : Z) (acc : string) : string :=
  match width with
  | O => acc
  | S w => pad w (n / 10) (String (digit n) acc)
  end.

Definition date_text (dt : datetime) : string :=
  let '(y, m, d) := ymd (ordinal dt) in
  pad 4 y ("-" ++ pad 2 m ("-" ++ pad 2 d "")).

Definition time_text (dt : datetime) : string :=
  pad 2 (hour dt) (":" ++ pad 2 (minute dt) (":" ++ pad 2 (second dt) "")).

(** [dt.isoformat()]: [YYYY-MM-DDTHH:MM:SS], followed by [.ffffff] when the
    microseconds are not zero. *)
Definition isoformat (dt : datetime) : string :=
  date_text dt ++ "T" ++ time_text dt ++
  (if microsecond dt =? 0 then "" else "." ++ pad 6 (microsecond dt) "").

(** What SQLite's [CURRENT_TIMESTAMP] stores at the instant [dt]:
    [YYYY-MM-DD HH:MM:SS]. *)
Definition current_timestamp (dt : datetime) : string :=
  date_text dt ++ " " ++ time_text dt.

(** [dt - timedelta(days=n)]: [OverflowError] when the [timedelta] or the
    resulting date is out of range. *)
Definition sub_days (dt : datetime) (n : Z) : result datetime :=
  if (Z.abs n <=? 999999999) && (1 <=? ordinal dt - n) && (ordinal dt - n <=? max_ordinal)
  then Ok {| ordinal := ordinal dt - n; hour := hour dt; minute := minute dt;
             second := second dt; microsecond := microsecond dt |}
  else Raise OverflowError.

(** The instant as a count of microseconds, for saying which of two
    instants is the earlier. *)
Definition instant (dt : datetime) : Z :=
  (((ordinal dt * 24 + hour dt) * 60 + minute dt) * 60 + second dt) * 1000000
  + microsecond dt.

End DateTime.

(** ** The SQLite store *)

(** Numbers on their way into a table. *)
Module Sqlite.

(** What the [sqlite3] module binds an [int] or a [float] parameter to. *)
Inductive value : Type :=
| Null
| Integer (z : Z)
| Real (f : Py.float).

Definition min_int64 : Z := - 2 ^ 63.
Definition max_int64 : Z := 2 ^ 63 - 1.

(** Binding a parameter: an int must fit in 64 bits ("Python int too
    large to convert to SQLite INTEGER", an [OverflowError]); a float is
    bound as it is, except a NaN, which is bound as NULL. *)
Definition bind_number (a : Py.number) : result value :=
  match a with
  | Py.PyInt z =>
      if (min_int64 <=? z) && (z <=? max_int64) then Ok (Integer z)
      else Raise OverflowError
  | Py.PyFloat f => Ok (if Py.is_nan f then Null else Real f)
  end.

(** The C conversion of a 64-bit integer to a double: to nearest, ties to
    even, as [float(z)] rounds. *)
Definition real_of_integer (z : Z) : Py.float :=
  binary_normalize Py.prec Py.emax z 0 false.

(** What a [REAL NOT NULL] column gives back for a value stored in it: a
    NULL is refused by the constraint ([IntegrityError]); an integer comes
    back as the double nearest to it; a double comes back as it was,
    except that a zero comes back positive (a double that is a whole number
    is kept as an integer in the file and converted when read). *)
Definition real_not_null (v : value) : result Py.float :=
  match v with
  | Null => Raise IntegrityError
  | Integer z => Ok (real_of_integer z)
  | Real (S754_zero _) => Ok (S754_zero false)
  | Real f => Ok f
  end.

End Sqlite.

(** The [metadata] argument of [track_event], told by what the two things
    done to it make of it: the test [if metadata] and the call
    [json.dumps(metadata)]. *)
Module Metadata.
Inductive t : Type :=
| Empty                    (* [None] or [{}]: false in [if metadata] *)
| Dumps (text : string)    (* true, and [json.dumps] returns [text] *)
| Refused (e : exn).       (* true, and [json.dumps] raises [e]: a
                              [TypeError] for a value or a key that has no
                              JSON form, a [ValueError] for a dict that
                              contains itself *)
End Metadata.

(** A row of [usage_events]. *)
Module UsageEvent.
Record t : Type := {
  id : Z;
  customer_id : string;
  service : string;
  quantity : Py.float;
  unit : string;
  unit_price : Py.float;
  (** the JSON text of the dict; [None] is NULL *)
  metadata : option string;
  created_at : string
}.
End UsageEvent.

(** A row of [invoices]. *)
Module InvoiceRow.
Record t : Type := {
  id : Z;
  customer_id : string;
  stripe_invoice_id : string;
  amount_cents : Z;
  status : string;
  period_start : string;
  period_end : string;
  created_at : string;
  paid_at : option string
}.
End InvoiceRow.

Module Store.

(** The two tables [_init_db] creates, each with its AUTOINCREMENT
    counter (the largest id handed out so far). *)
Record db : Type := {
  usage_events : list UsageEvent.t;
  usage_events_seq : Z;
  invoices : list InvoiceRow.t;
  invoices_seq : Z
}.

(** [_init_db] on a fresh file. *)
Definition _init_db : db :=
  {| usage_events := []; usage_events_seq := 0;
     invoices := []; invoices_seq := 0 |}.

(** The database with its [invoices] table replaced. *)
Definition set_invoices (d : db) (rows : list InvoiceRow.t) (seq : Z) : db :=
  {| usage_events := usage_events d;
     usage_events_seq := usage_events_seq d;
     invoices := rows;
     invoices_seq := seq |}.

(** Comparison of two TEXT values: bytewise, as the BINARY collation does. *)
Definition text_leb (a b : string) : bool :=
  match String.compare a b with
  | Gt => false
  | _ => true
  end.

Definition text_ltb (a b : string) : bool :=
  match String.compare a b with
  | Lt => true
  | _ => false
  end.

(** [ORDER BY created_at]: rows are sorted on that column alone; rows with
    equal keys keep the order in which the scan produced them (the engine's
    sorter merges stably). *)
Fixpoint insert_by_created_at (r : UsageEvent.t) (l : list UsageEvent.t)
    : list UsageEvent.t :=
  match l with
  | [] => [r]
  | x :: l' =>
      if text_leb (UsageEvent.created_at r) (UsageEvent.created_at x)
      then r :: l
      else x :: insert_by_created_at r l'
  end.

Fixpoint order_by_created_at (l : list UsageEvent.t) : list UsageEvent.t :=
  match l with
  | [] => []
  | r :: l' => insert_by_created_at r (order_by_created_at l')
  end.

(** The order ORDER BY asks for. *)
Definition created_le (a b : UsageEvent.t) : Prop :=
  text_leb (UsageEvent.created_at a) (UsageEvent.created_at b) = true.

(** The order "by created_at, then by id". *)
Definition row_before (a b : UsageEvent.t) : Prop :=
  text_ltb (UsageEvent.created_at a) (UsageEvent.created_at b) = true \/
  (UsageEvent.created_at a = UsageEvent.created_at b /\
   UsageEvent.id a < UsageEvent.id b).

(** The shape AUTOINCREMENT gives [usage_events]: ids ascend along the
    table and none is beyond the counter. *)
Definition ids_ascending (d : db) : Prop :=
  StronglySorted (fun a b => UsageEvent.id a < UsageEvent.id b)
                 (usage_events d) /\
  Forall (fun r => UsageEvent.id r <= usage_events_seq d) (usage_events d).

End Store.

(** ** UsageTracker *)

(** The dict [get_unbilled_usage] builds for each row. *)
Module Event.
Record t : Type := {
  id : Z;
  service : string;
  quantity : Py.float;
  unit : string;
  unit_price : Py.float;
  created_at : string;
  line_total : Py.float
}.
End Event.

Module UsageTracker.

Import Store.

(** [json.dumps(metadata) if metadata else None] *)
Definition metadata_text (metadata : Metadata.t) : result (option string) :=
  match metadata with
  | Metadata.Empty => Ok None
  | Metadata.Dumps text => Ok (Some text)
  | Metadata.Refused e => Raise e
  end.

(** [track_event]: one INSERT, committed before the call returns.  [now]
    is the clock reading [CURRENT_TIMESTAMP] takes.  The parameter tuple
    is built first, so [json.dumps] raises before anything else happens;
    then the parameters are bound, [quantity] before [unit_price]; then
    the statement runs and the NOT NULL columns refuse a NULL.  The
    quantity and the unit price are ints or floats, as [float] in a
    signature admits both. *)
Definition track_event (d : db) (now : DateTime.datetime)
    (customer_id service : string) (quantity : Py.number) (unit : string)
    (unit_price : Py.number) (metadata : Metadata.t)
    : result db :=
  (text <- metadata_text metadata ;;
   bound_quantity <- Sqlite.bind_number quantity ;;
   bound_unit_price <- Sqlite.bind_number unit_price ;;
   stored_quantity <- Sqlite.real_not_null bound_quantity ;;
   stored_unit_price <- Sqlite.real_not_null bound_unit_price ;;
   Ok {| usage_events :=
           (usage_events d ++
            [{| UsageEvent.id := usage_events_seq d + 1;
                UsageEvent.customer_id := customer_id;
                UsageEvent.service := service;
                UsageEvent.quantity := stored_quantity;
                UsageEvent.unit := unit;
                UsageEvent.unit_price := stored_unit_price;
                UsageEvent.metadata := text;
                UsageEvent.created_at := DateTime.current_timestamp now |}])%list;
         usage_events_seq := usage_events_seq d + 1;
         invoices := invoices d;
         invoices_seq := invoices_seq d |})%result.

(** The WHERE clause of the two queries. *)
Definition selected (customer_id : string)
    (start_date : option DateTime.datetime) (r : UsageEvent.t) : bool :=
  String.eqb (UsageEvent.customer_id r) customer_id &&
  match start_date with
  | Some s => text_leb (DateTime.isoformat s) (UsageEvent.created_at r)
  | None => true
  end.

Definition event_of_row (r : UsageEvent.t) : Event.t :=
  {| Event.id := UsageEvent.id r;
     Event.service := UsageEvent.service r;
     Event.quantity := UsageEvent.quantity r;
     Event.unit := UsageEvent.unit r;
     Event.unit_price := UsageEvent.unit_price r;
     Event.created_at := UsageEvent.created_at r;
     Event.line_total :=
       Py.fmul (UsageEvent.quantity r) (UsageEvent.unit_price r) |}.

(** Events in created_at order. *)
Definition in_created_order (events : list Event.t) : Prop :=
  StronglySorted
    (fun a b => text_leb (Event.created_at a) (Event.created_at b) = true)
    events.

Definition get_unbilled_usage (d : db) (customer_id : string)
    (start_date : option DateTime.datetime) : list Event.t :=
  map event_of_row
      (order_by_created_at
         (filter (selected customer_id start_date) (usage_events d))).

(** [sum(e["line_total"] for e in events)]: the sum starts from the int 0,
    which the first addition turns into the float 0.0. *)
Definition calculate_total (d : db) (customer_id : string)
    (start_date : option DateTime.datetime) : Py.number :=
  match get_unbilled_usage d customer_id start_date with
  | [] => Py.PyInt 0
  | events =>
      Py.PyFloat
        (fold_left (fun acc e => Py.fadd acc (Event.line_total e)) events
                   (S754_zero false))
  end.

End UsageTracker.

(** What [track_event] makes of its numbers, in the terms of its caller. *)
Module TrackerLaws.

(** An int beyond 64 bits, which cannot be bound. *)
Definition too_large (a : Py.number) : Prop :=
  match a with
  | Py.PyInt z => z < - 2 ^ 63 \/ 2 ^ 63 <= z
  | Py.PyFloat _ => False
  end.

(** A float NaN. *)
Definition nan (a : Py.number) : Prop :=
  match a with
  | Py.PyInt _ => False
  | Py.PyFloat f => Py.is_nan f = true
  end.

(** The float read back for a number that was recorded: [float(z)] for an
    int, a positive zero for either zero, the float itself otherwise. *)
Definition read_back (a : Py.number) (x : Py.float) : Prop :=
  match a with
  | Py.PyInt z => Py.float_of_int z = Ok x
  | Py.PyFloat f => if Py.is_zero f then x = S754_zero false else x = f
  end.

(** What [json.dumps(metadata) if metadata else None] evaluates to. *)
Definition json_text (metadata : Metadata.t) (text : option string) : Prop :=
  match metadata with
  | Metadata.Empty => text = None
  | Metadata.Dumps t => text = Some t
  | Metadata.Refused _ => False
  end.

(** The row a call records in the database [d]. *)
Definition row (d : Store.db) (now : DateTime.datetime)
    (customer_id service : string) (quantity : Py.float) (unit : string)
    (unit_price : Py.float) (text : option string) : UsageEvent.t :=
  {| UsageEvent.id := Store.usage_events_seq d + 1;
     UsageEvent.customer_id := customer_id;
     UsageEvent.service := service;
     UsageEvent.quantity := quantity;
     UsageEvent.unit := unit;
     UsageEvent.unit_price := unit_price;
     UsageEvent.metadata := text;
     UsageEvent.created_at := DateTime.current_timestamp now |}.

End TrackerLaws.

(** ** The payment gateway *)

Module Stripe.

(** What a gateway call comes back with: the object, or a [StripeError]
    with its message. *)
Inductive reply (A : Type) : Type :=
| Done (a : A)
| Failed (msg : string).

Arguments Done {A} a.
Arguments Failed {A} msg.

Record Customer : Type := { customer_id : string }.

Record Invoice : Type := {
  id : string;
  amount_due : Z;
  amount_paid : Z;
  status : string;
  hosted_invoice_url : string;
  due_date : Z
}.

(** The pieces the description of an invoice item is formatted from:
    service, quantity, unit and unit price. *)
Definition description : Type := (string * Py.float * string * Py.float)%type.

(** The calls the engine makes, over a gateway state [G] that is not the
    engine's to inspect. *)
Record api (G : Type) : Type := {
  customer_list : string -> G -> G * reply (list Customer);
  customer_create : string -> string -> G -> G * reply Customer;
  invoice_create : string -> Z -> G -> G * reply Invoice;
  invoiceitem_create :
    string -> string -> Z -> string -> description -> G -> G * reply Datatypes.unit;
  finalize_invoice : string -> G -> G * reply Invoice;
  send_invoice : string -> G -> G * reply Invoice;
  invoice_retrieve : string -> G -> G * reply Invoice
}.

Arguments customer_list {G} _ _ _.
Arguments customer_create {G} _ _ _ _.
Arguments invoice_create {G} _ _ _ _.
Arguments invoiceitem_create {G} _ _ _ _ _ _ _.
Arguments finalize_invoice {G} _ _ _.
Arguments send_invoice {G} _ _ _.
Arguments invoice_retrieve {G} _ _ _.

End Stripe.

(** ** BillingEngine *)

(** An entry of the [line_items] dict. *)
Module LineItem.
Record t : Type := {
  quantity : Py.float;
  unit : string;
  unit_price : Py.float;
  total : Py.float
}.
End LineItem.

Module BillingEngine.

Import Store.

(** The [line_items] dict, in insertion order. *)
Definition line_items : Type := list (string * LineItem.t).

Fixpoint contains (items : line_items) (service : string) : bool :=
  match items with
  | [] => false
  | (s, _) :: rest => String.eqb s service || contains rest service
  end.

Fixpoint get (items : line_items) (service : string) : option LineItem.t :=
  match items with
  | [] => None
  | (s, item) :: rest =>
      if String.eqb s service then Some item else get rest service
  end.

(** An entry after [item["quantity"] += q; item["total"] += t]. *)
Definition added (item : LineItem.t) (q t : Py.float) : LineItem.t :=
  {| LineItem.quantity := Py.fadd (LineItem.quantity item) q;
     LineItem.unit := LineItem.unit item;
     LineItem.unit_price := LineItem.unit_price item;
     LineItem.total := Py.fadd (LineItem.total item) t |}.

(** [line_items[service]["quantity"] += q; line_items[service]["total"] += t] *)
Fixpoint accumulate (items : line_items) (service : string)
    (q t : Py.float) : line_items :=
  match items with
  | [] => []
  | (s, item) :: rest =>
      if String.eqb s service then (s, added item q t) :: rest
      else (s, item) :: accumulate rest service q t
  end.

(** The entry a service gets when first seen.  Its [quantity] and [total]
    start at the int 0, which the [+=] that follows at once turns into a
    float: [0 + x] is [0.0 + x]. *)
Definition fresh (e : Event.t) : LineItem.t :=
  {| LineItem.quantity := S754_zero false;
     LineItem.unit := Event.unit e;
     LineItem.unit_price := Event.unit_price e;
     LineItem.total := S754_zero false |}.

(** One turn of the aggregation loop. *)
Definition add_event (items : line_items) (e : Event.t) : line_items :=
  let items' :=
    if contains items (Event.service e) then items
    else (items ++ [(Event.service e, fresh e)])%list in
  accumulate items' (Event.service e) (Event.quantity e) (Event.line_total e).

(** "Aggregate by service". *)
Definition aggregate (events : list Event.t) : line_items :=
  fold_left add_event events [].

(** The events of one service, in the order of the list. *)
Definition of_service (service : string) (events : list Event.t)
    : list Event.t :=
  filter (fun e => String.eqb (Event.service e) service) events.

(** [0 + x1 + x2 + ...], left to right. *)
Definition sum_floats (xs : list Py.float) : Py.float :=
  fold_left Py.fadd xs (S754_zero false).

(** An entry after the loop has gone over [events], all of its service. *)
Definition after_events (item : LineItem.t) (events : list Event.t)
    : LineItem.t :=
  fold_left (fun i e => added i (Event.quantity e) (Event.line_total e))
            events item.

(** [int(item["total"] * 100)] *)
Definition amount_cents (item : LineItem.t) : result Z :=
  Py.int_of_float (Py.fmul (LineItem.total item) (Py.lit 100 0)).

(** What [generate_invoice] returns: the error dict or the invoice dict. *)
Inductive invoice_result : Type :=
| Error (msg : string)
| Invoice (invoice_id : string) (amount_cents : Z) (items : line_items)
          (payment_url : string) (due_date : Z).

(** What [check_payment_status] returns. *)
Inductive status_result : Type :=
| StatusError (msg : string)
| Status (invoice_id : string) (status : string) (amount_paid amount_due : Z).

Section Engine.

Context {G : Type} (stripe : Stripe.api G).

(** The engine's world: its database and the gateway. *)
Definition world : Type := (db * G)%type.

(** Computations that change the world and may raise; what was done before
    an exception stays done. *)
Definition M (A : Type) : Type := world -> world * result A.

Definition ret {A : Type} (a : A) : M A := fun w => (w, Ok a).

Definition bind {A B : Type} (m : M A) (k : A -> M B) : M B :=
  fun w =>
    match m w with
    | (w', Ok a) => k a w'
    | (w', Raise e) => (w', Raise e)
    end.

Definition lift {A : Type} (r : result A) : M A := fun w => (w, r).

(** A gateway call; a failure is raised as [StripeError]. *)
Definition call {A : Type} (op : G -> G * Stripe.reply A) : M A :=
  fun w =>
    match op (snd w) with
    | (g', Stripe.Done a) => ((fst w, g'), Ok a)
    | (g', Stripe.Failed msg) => ((fst w, g'), Raise (StripeError msg))
    end.

(** [try: ... except stripe.error.StripeError as e: return handler(str(e))] *)
Definition try_stripe {A : Type} (m : M A) (handler : string -> A) : M A :=
  fun w =>
    match m w with
    | (w', Raise (StripeError msg)) => (w', Ok (handler msg))
    | r => r
    end.

Declare Scope engine_scope.
Delimit Scope engine_scope with engine.
Notation "x <- m ;; k" := (bind m (fun x => k))
  (at level 61, m at next level, right associativity) : engine_scope.
Open Scope engine_scope.

(** "Get or create customer" *)
Definition get_or_create_customer (customer_email customer_id : string)
    : M Stripe.Customer :=
  customers <- call (Stripe.customer_list stripe customer_email) ;;
  match customers with
  | c :: _ => ret c
  | [] => call (Stripe.customer_create stripe customer_email customer_id)
  end.

(** "Add line items": one [InvoiceItem.create] per entry of the dict, in
    its order. *)
Fixpoint add_line_items (customer invoice : string) (items : line_items)
    : M Datatypes.unit :=
  match items with
  | [] => ret tt
  | (service, item) :: rest =>
      amount <- lift (amount_cents item) ;;
      _ <- call (Stripe.invoiceitem_create stripe customer invoice amount "usd"
                   (service, LineItem.quantity item, LineItem.unit item,
                    LineItem.unit_price item)) ;;
      add_line_items customer invoice rest
  end.

(** "Record in local DB"; [db_now] is the clock reading
    [CURRENT_TIMESTAMP] takes. *)
Definition record_invoice (customer_id : string) (invoice : Stripe.Invoice)
    (period_start period_end db_now : DateTime.datetime) : M Datatypes.unit :=
  fun w =>
    let d := fst w in
    let row :=
      {| InvoiceRow.id := invoices_seq d + 1;
         InvoiceRow.customer_id := customer_id;
         InvoiceRow.stripe_invoice_id := Stripe.id invoice;
         InvoiceRow.amount_cents := Stripe.amount_due invoice;
         InvoiceRow.status := Stripe.status invoice;
         InvoiceRow.period_start := DateTime.isoformat period_start;
         InvoiceRow.period_end := DateTime.isoformat period_end;
         InvoiceRow.created_at := DateTime.current_timestamp db_now;
         InvoiceRow.paid_at := None |} in
    ((set_invoices d (invoices d ++ [row])%list (invoices_seq d + 1), snd w),
     Ok tt).

(** The first half of [generate_invoice]: the billing period and the
    usage read for it. *)
Definition read_usage (customer_id : string) (billing_period_days : Z)
    (now : DateTime.datetime) : M (DateTime.datetime * list Event.t) :=
  period_start <- lift (DateTime.sub_days now billing_period_days) ;;
  fun w =>
    (w, Ok (period_start,
            UsageTracker.get_unbilled_usage (fst w) customer_id
                                            (Some period_start))).

(** The body of the [try]: "Create Stripe invoice" down to the [return]. *)
Definition create_invoice (customer_id customer_email : string)
    (period_start period_end db_now : DateTime.datetime) (items : line_items)
    : M invoice_result :=
  stripe_customer <- get_or_create_customer customer_email customer_id ;;
  invoice <- call (Stripe.invoice_create stripe
                     (Stripe.customer_id stripe_customer) 14) ;;
  _ <- add_line_items (Stripe.customer_id stripe_customer)
                      (Stripe.id invoice) items ;;
  invoice <- call (Stripe.finalize_invoice stripe (Stripe.id invoice)) ;;
  invoice <- call (Stripe.send_invoice stripe (Stripe.id invoice)) ;;
  _ <- record_invoice customer_id invoice period_start period_end db_now ;;
  ret (Invoice (Stripe.id invoice) (Stripe.amount_due invoice) items
               (Stripe.hosted_invoice_url invoice)
               (Stripe.due_date invoice)).

(** The second half: the empty check, the aggregation and the guarded
    invoice creation. *)
Definition bill_usage (customer_id customer_email : string)
    (now db_now : DateTime.datetime)
    (usage : DateTime.datetime * list Event.t) : M invoice_result :=
  match snd usage with
  | [] => ret (Error "No unbilled usage found")
  | _ =>
      try_stripe
        (create_invoice customer_id customer_email (fst usage) now db_now
                        (aggregate (snd usage)))
        Error
  end.

(** [generate_invoice]; [now] is what [datetime.now()] reads. *)
Definition generate_invoice (customer_id customer_email : string)
    (billing_period_days : Z) (now db_now : DateTime.datetime)
    : M invoice_result :=
  usage <- read_usage customer_id billing_period_days now ;;
  bill_usage customer_id customer_email now db_now usage.

(** [UPDATE invoices SET status = 'paid', paid_at = ? WHERE
    stripe_invoice_id = ?] *)
Definition mark_paid (invoice_id : string) (now : DateTime.datetime)
    (r : InvoiceRow.t) : InvoiceRow.t :=
  if String.eqb (InvoiceRow.stripe_invoice_id r) invoice_id then
    {| InvoiceRow.id := InvoiceRow.id r;
       InvoiceRow.customer_id := InvoiceRow.customer_id r;
       InvoiceRow.stripe_invoice_id := InvoiceRow.stripe_invoice_id r;
       InvoiceRow.amount_cents := InvoiceRow.amount_cents r;
       InvoiceRow.status := "paid";
       InvoiceRow.period_start := InvoiceRow.period_start r;
       InvoiceRow.period_end := InvoiceRow.period_end r;
       InvoiceRow.created_at := InvoiceRow.created_at r;
       InvoiceRow.paid_at := Some (DateTime.isoformat now) |}
  else r.

Definition update_paid (invoice_id : string) (now : DateTime.datetime)
    : M Datatypes.unit :=
  fun w =>
    let d := fst w in
    ((set_invoices d (map (mark_paid invoice_id now) (invoices d))
                   (invoices_seq d), snd w),
     Ok tt).

Definition check_payment_status (invoice_id : string)
    (now : DateTime.datetime) : M status_result :=
  try_stripe
    (invoice <- call (Stripe.invoice_retrieve stripe invoice_id) ;;
     _ <- (if String.eqb (Stripe.status invoice) "paid"
           then update_paid invoice_id now
           else ret tt) ;;
     ret (Status (Stripe.id invoice) (Stripe.status invoice)
                 (Stripe.amount_paid invoice) (Stripe.amount_due invoice)))
    StatusError.

(** [holds I m Q]: run from a database where [I] holds, [m] leaves a
    database where [I] holds, whether it returns or raises, and what it
    returns satisfies [Q]. *)
Definition holds {A : Type} (I : db -> Prop) (m : M A) (Q : A -> Prop) : Prop :=
  forall w w' r,
    I (fst w) -> m w = (w', r) ->
    I (fst w') /\ forall a, r = Ok a -> Q a.

(** [I] survives what the engine does to the database: the insertion of
    an invoice whose status is [status_ok], and the marking of invoices
    as paid. *)
Definition stable (I : db -> Prop) (status_ok : string -> Prop) : Prop :=
  (forall d row,
      I d -> status_ok (InvoiceRow.status row) ->
      I (set_invoices d (invoices d ++ [row])%list (invoices_seq d + 1))) /\
  (forall d invoice_id now,
      I d ->
      I (set_invoices d (map (mark_paid invoice_id now) (invoices d))
                      (invoices_seq d))).

(** The databases the tracker and the engine can build from a fresh one,
    whatever state the gateway is in at each call. *)
Inductive reachable : db -> Prop :=
| reach_init : reachable _init_db
| reach_track d now c s q u p m d' :
    reachable d ->
    UsageTracker.track_event d now c s q u p m = Ok d' ->
    reachable d'
| reach_invoice d g c email days now db_now d' g' r :
    reachable d ->
    generate_invoice c email days now db_now (d, g) = ((d', g'), r) ->
    reachable d'
| reach_check d g invoice_id now d' g' r :
    reachable d ->
    check_payment_status invoice_id now (d, g) = ((d', g'), r) ->
    reachable d'.

Close Scope engine_scope.

End Engine.

End BillingEngine.

(** ** Calls in flight together

    Two [generate_invoice] calls against the same database and gateway,
    interleaved at the one point where a call has read its usage and has
    not yet gone to the gateway. *)

Module Concurrent.

Import BillingEngine.

Record request : Type := {
  customer_id : string;
  customer_email : string;
  billing_period_days : Z;
  now : DateTime.datetime;
  db_now : DateTime.datetime
}.

Inductive task : Type :=
| Waiting
| Holding (usage : DateTime.datetime * list Event.t)
| Finished (events : list Event.t) (r : result invoice_result).

Section Calls.

Context {G : Type} (stripe : Stripe.api G).

(** One call advances by one half of [generate_invoice]. *)
Definition step (q : request) (t : task) (w : @world G) : @world G * task :=
  match t with
  | Waiting =>
      match read_usage (customer_id q) (billing_period_days q) (now q) w with
      | (w', Ok usage) => (w', Holding usage)
      | (w', Raise e) => (w', Finished [] (Raise e))
      end
  | Holding usage =>
      let '(w', r) :=
        bill_usage stripe (customer_id q) (customer_email q) (now q)
                   (db_now q) usage w in
      (w', Finished (snd usage) r)
  | Finished _ _ => (w, t)
  end.

(** A schedule names, turn by turn, the call that advances: [true] the
    first, [false] the second. *)
Fixpoint run (qa qb : request) (schedule : list bool)
    (w : @world G) (ta tb : task) : @world G * task * task :=
  match schedule with
  | [] => (w, ta, tb)
  | true :: rest =>
      let '(w', ta') := step qa ta w in run qa qb rest w' ta' tb
  | false :: rest =>
      let '(w', tb') := step qb tb w in run qa qb rest w' ta tb'
  end.

(** Where a call stands, told from the database [d0] the two calls
    started from: a call that holds usage read it for its own period from
    the usage table as it was at the start; a call that finished without
    usage ended on the period computation or on "No unbilled usage found";
    a call that finished with usage returned an invoice of that usage
    aggregated, or the message of a gateway failure, or raised something
    other than a gateway failure. *)
Definition settled (q : request) (d0 : Store.db) (t : task) : Prop :=
  match t with
  | Waiting => True
  | Holding usage =>
      DateTime.sub_days (now q) (billing_period_days q) = Ok (fst usage) /\
      snd usage =
      UsageTracker.get_unbilled_usage d0 (customer_id q) (Some (fst usage))
  | Finished [] r =>
      r = Raise OverflowError \/ r = Ok (Error "No unbilled usage found")
  | Finished events r =>
      (exists period_start,
          DateTime.sub_days (now q) (billing_period_days q) = Ok period_start /\
          events =
          UsageTracker.get_unbilled_usage d0 (customer_id q)
                                          (Some period_start)) /\
      match r with
      | Ok (Invoice _ _ items _ _) => items = aggregate events
      | Ok (Error msg) =>
          exists period_start w w',
            create_invoice stripe (customer_id q) (customer_email q)
                           period_start (now q) (db_now q)
                           (aggregate events) w
            = (w', Raise (StripeError msg))
      | Raise e => forall msg, e <> StripeError msg
      end
  end.

(** The usage a call is about, read from the database [d0]: that of its
    customer in its period, and none when the period cannot be
    computed. *)
Definition usage_of (q : request) (d0 : Store.db) : list Event.t :=
  match DateTime.sub_days (now q) (billing_period_days q) with
  | Ok period_start =>
      UsageTracker.get_unbilled_usage d0 (customer_id q) (Some period_start)
  | Raise _ => []
  end.


End Calls.

(** The events a finished call put on an invoice. *)
Definition invoiced (t : task) : list Event.t :=
  match t with
  | Finished events (Ok (Invoice _ _ _ _ _)) => events
  | _ => []
  end.

(** No event is on the invoices of both calls. *)
Definition exclusive (ta tb : task) : Prop :=
  forall ea eb, In ea (invoiced ta) -> In eb (invoiced tb) ->
                Event.id ea <> Event.id eb.

End Concurrent.

(** ** The rounding policy of the specification

    Line-item subtotals as the specification words them: the exact sum of
    quantity times unit price over a service's events, in minor units,
    rounded to the nearest integer with ties to even.  Kept apart from the
    engine's [amount_cents], to compare the two. *)

Module RoundingPolicy.

(** Nearest integer to a rational, ties to even. *)
Definition round_half_even (q : Q) : Z :=
  let d := Z.pos (Qden q) in
  match Qnum q with
  | Zneg n => - Py.div_half_even (Z.pos n) d
  | n => Py.div_half_even n d
  end.

(** The exact subtotal of a service, in minor units. *)
Definition exact_cents (events : list Event.t) (service : string) : Q :=
  fold_right
    (fun e acc =>
       if String.eqb (Event.service e) service
       then (Py.value (Event.quantity e) * Py.value (Event.unit_price e)
               * inject_Z 100 + acc)%Q
       else acc)
    0%Q events.

Definition subtotal (events : list Event.t) (service : string) : Z :=
  round_half_even (exact_cents events service).

End RoundingPolicy.

(** ** A simulated gateway

    An in-memory stand-in for the gateway, for running the engine on
    concrete inputs: an invoice is a draft until finalized, open from then
    on, and paid once the customer has paid; its amount due is the sum of
    its items. *)

Module SimStripe.

Record sim_invoice : Type := {
  id : string;
  customer : string;
  items : list Z;
  days_until_due : Z;
  status : string
}.

Record state : Type := {
  customers : list (string * string);   (* id, email *)
  invoices : list sim_invoice;
  outage : option string                (* the error every call fails with *)
}.

Definition empty : state :=
  {| customers := []; invoices := []; outage := None |}.

Definition down (msg : string) (g : state) : state :=
  {| customers := customers g; invoices := invoices g; outage := Some msg |}.

Definition new_id (prefix : string) (n : nat) : string :=
  prefix ++ DateTime.pad 4 (Z.of_nat n + 1) "".

Definition view (i : sim_invoice) : Stripe.Invoice :=
  let total := fold_right Z.add 0 (items i) in
  {| Stripe.id := id i;
     Stripe.amount_due := total;
     Stripe.amount_paid := if String.eqb (status i) "paid" then total else 0;
     Stripe.status := status i;
     Stripe.hosted_invoice_url :=
       if String.eqb (status i) "draft" then ""
       else "https://invoice.stripe.com/i/" ++ id i;
     Stripe.due_date := days_until_due i * 86400 |}.

Definition find (invoice : string) (g : state) : option sim_invoice :=
  List.find (fun i => String.eqb (id i) invoice) (invoices g).

(** Replace the invoice named [invoice] by [f] of it. *)
Definition change (invoice : string) (f : sim_invoice -> sim_invoice)
    (g : state) : state :=
  {| customers := customers g;
     invoices := map (fun i => if String.eqb (id i) invoice then f i else i)
                     (invoices g);
     outage := outage g |}.

Definition with_status (s : string) (i : sim_invoice) : sim_invoice :=
  {| id := id i; customer := customer i; items := items i;
     days_until_due := days_until_due i; status := s |}.

Definition with_item (amount : Z) (i : sim_invoice) : sim_invoice :=
  {| id := id i; customer := customer i; items := (items i ++ [amount])%list;
     days_until_due := days_until_due i; status := status i |}.

Definition guarded {A : Type} (g : state)
    (k : state * Stripe.reply A) : state * Stripe.reply A :=
  match outage g with
  | Some msg => (g, Stripe.Failed msg)
  | None => k
  end.

Definition customer_list (email : string) (g : state)
    : state * Stripe.reply (list Stripe.Customer) :=
  guarded g
    (g, Stripe.Done
          (firstn 1
             (map (fun c => {| Stripe.customer_id := fst c |})
                  (filter (fun c => String.eqb (snd c) email) (customers g))))).

Definition customer_create (email agent_customer_id : string) (g : state)
    : state * Stripe.reply Stripe.Customer :=
  guarded g
    (let c := new_id "cus_" (List.length (customers g)) in
     ({| customers := (customers g ++ [(c, email)])%list;
         invoices := invoices g; outage := outage g |},
      Stripe.Done {| Stripe.customer_id := c |})).

Definition invoice_create (cust : string) (days : Z) (g : state)
    : state * Stripe.reply Stripe.Invoice :=
  guarded g
    (let i := {| id := new_id "in_" (List.length (invoices g)); customer := cust;
                 items := []; days_until_due := days; status := "draft" |} in
     ({| customers := customers g; invoices := (invoices g ++ [i])%list;
         outage := outage g |},
      Stripe.Done (view i))).

Definition invoiceitem_create (cust invoice : string) (amount : Z)
    (currency : string) (d : Stripe.description) (g : state)
    : state * Stripe.reply Datatypes.unit :=
  guarded g
    match find invoice g with
    | Some i =>
        if String.eqb (status i) "draft"
        then (change invoice (with_item amount) g, Stripe.Done tt)
        else (g, Stripe.Failed "Invoice is not a draft")
    | None => (g, Stripe.Failed "No such invoice")
    end.

(** Move an invoice from the status [from] to the status [to]. *)
Definition advance (from to : string) (invoice : string) (g : state)
    : state * Stripe.reply Stripe.Invoice :=
  guarded g
    match find invoice g with
    | Some i =>
        if String.eqb (status i) from
        then (change invoice (with_status to) g,
              Stripe.Done (view (with_status to i)))
        else (g, Stripe.Failed "Invoice is not in the expected status")
    | None => (g, Stripe.Failed "No such invoice")
    end.

Definition invoice_retrieve (invoice : string) (g : state)
    : state * Stripe.reply Stripe.Invoice :=
  guarded g
    match find invoice g with
    | Some i => (g, Stripe.Done (view i))
    | None => (g, Stripe.Failed "No such invoice")
    end.

Definition api : Stripe.api state :=
  {| Stripe.customer_list := customer_list;
     Stripe.customer_create := customer_create;
     Stripe.invoice_create := invoice_create;
     Stripe.invoiceitem_create := invoiceitem_create;
     Stripe.finalize_invoice := advance "draft" "open";
     Stripe.send_invoice := advance "open" "open";
     Stripe.invoice_retrieve := invoice_retrieve |}.

(** The customer pays an open invoice. *)
Definition pay (invoice : string) (g : state) : state :=
  change invoice
    (fun i => if String.eqb (status i) "open" then with_status "paid" i else i)
    g.

End SimStripe.

(** ** A gateway that keeps what it is sent

    A second stand-in for the gateway, for seeing what [generate_invoice]
    posts: its state is the list of the amounts of the invoice items it
    was given, in order, and the amount due it reports is their sum. *)

Module Ledger.

Definition state : Type := list Z.

Definition invoice (status : string) (g : state) : Stripe.Invoice :=
  {| Stripe.id := "in_1";
     Stripe.amount_due := fold_right Z.add 0 g;
     Stripe.amount_paid := 0;
     Stripe.status := status;
     Stripe.hosted_invoice_url := "https://invoice.stripe.com/i/in_1";
     Stripe.due_date := 1209600 |}.

Definition api : Stripe.api state :=
  {| Stripe.customer_list := fun _ g => (g, Stripe.Done []);
     Stripe.customer_create :=
       fun _ _ g => (g, Stripe.Done {| Stripe.customer_id := "cus_1" |});
     Stripe.invoice_create :=
       fun _ _ g => (g, Stripe.Done (invoice "draft" g));
     Stripe.invoiceitem_create :=
       fun _ _ amount _ _ g => ((g ++ [amount])%list, Stripe.Done tt);
     Stripe.finalize_invoice := fun _ g => (g, Stripe.Done (invoice "open" g));
     Stripe.send_invoice := fun _ g => (g, Stripe.Done (invoice "open" g));
     Stripe.invoice_retrieve :=
       fun _ g => (g, Stripe.Done (invoice "open" g)) |}.

(** [int(item["total"] * 100)] of every entry of the dict, in its order. *)
Fixpoint amounts (items : BillingEngine.line_items) : result (list Z) :=
  match items with
  | [] => Ok []
  | (_, item) :: rest =>
      (a <- BillingEngine.amount_cents item ;;
       l <- amounts rest ;;
       Ok (a :: l))%result
  end.

End Ledger.

(** ** Concrete runs *)

Module Scenario.

Import Store.

(** One event, recorded at ten in the morning of 2024-01-01. *)
Definition morning : DateTime.datetime := DateTime.make 2024 1 1 10 0 0.
Definition midnight : DateTime.datetime := DateTime.make 2024 1 1 0 0 0.

Definition one_event : result db :=
  UsageTracker.track_event _init_db morning "c1" "api_calls"
                           (Py.PyInt 1000) "calls" (Py.PyFloat (Py.lit 1 2))
                           Metadata.Empty.

Definition the_event : Event.t :=
  {| Event.id := 1;
     Event.service := "api_calls";
     Event.quantity := Py.lit 1000 0;
     Event.unit := "calls";
     Event.unit_price := Py.lit 1 2;
     Event.created_at := "2024-01-01 10:00:00";
     Event.line_total := Py.lit 10 0 |}.

(** Two later moments at which invoices are asked for. *)
Definition noon_20 : DateTime.datetime := DateTime.make 2024 1 20 12 0 0.
Definition noon_21 : DateTime.datetime := DateTime.make 2024 1 21 12 0 0.

(** 1000 calls at 0.01 and 2.5 GB at 5.00, a second apart. *)
Definition two_events : result db :=
  (d <- UsageTracker.track_event _init_db (DateTime.make 2024 1 15 10 0 0)
          "c1" "api_calls" (Py.PyInt 1000) "calls" (Py.PyFloat (Py.lit 1 2))
          Metadata.Empty ;;
   UsageTracker.track_event d (DateTime.make 2024 1 15 10 0 1)
          "c1" "data_gb" (Py.PyFloat (Py.lit 25 1)) "GB"
          (Py.PyFloat (Py.lit 5 0)) Metadata.Empty)%result.


(** The same request, made twice. *)
Definition request_20 : Concurrent.request :=
  {| Concurrent.customer_id := "c1";
     Concurrent.customer_email := "c1@example.com";
     Concurrent.billing_period_days := 30;
     Concurrent.now := noon_20;
     Concurrent.db_now := noon_20 |}.

(** The one event invoiced through the simulated gateway on the 20th. *)
Definition invoiced_once
    : @BillingEngine.world SimStripe.state * result BillingEngine.invoice_result :=
  match one_event with
  | Ok d =>
      BillingEngine.generate_invoice SimStripe.api "c1" "c1@example.com" 30
                                     noon_20 noon_20 (d, SimStripe.empty)
  | Raise e => ((_init_db, SimStripe.empty), Raise e)
  end.

(** The customer pays, and the payment status is checked on the 21st. *)
Definition paid_once
    : @BillingEngine.world SimStripe.state * result BillingEngine.status_result :=
  BillingEngine.check_payment_status SimStripe.api "in_0001" noon_21
    (fst (fst invoiced_once),
     SimStripe.pay "in_0001" (snd (fst invoiced_once))).

(** The database [one_event] leaves. *)
Definition recorded : db :=
  {| usage_events :=
       [{| UsageEvent.id := 1;
           UsageEvent.customer_id := "c1";
           UsageEvent.service := "api_calls";
           UsageEvent.quantity := Py.lit 1000 0;
           UsageEvent.unit := "calls";
           UsageEvent.unit_price := Py.lit 1 2;
           UsageEvent.metadata := None;
           UsageEvent.created_at := "2024-01-01 10:00:00" |}];
     usage_events_seq := 1;
     invoices := [];
     invoices_seq := 0 |}.

(** Two calls for the same customer and period, each reading before
    either bills. *)
Definition interleaved
    : @BillingEngine.world SimStripe.state * Concurrent.task * Concurrent.task :=
  Concurrent.run SimStripe.api request_20 request_20
                 [true; false; true; false]
                 (recorded, SimStripe.empty)
                 Concurrent.Waiting Concurrent.Waiting.

(** Usage recorded with an infinite quantity. *)
Definition infinite_usage : db :=
  {| usage_events :=
       [{| UsageEvent.id := 1;
           UsageEvent.customer_id := "c1";
           UsageEvent.service := "api_calls";
           UsageEvent.quantity := S754_infinity false;
           UsageEvent.unit := "calls";
           UsageEvent.unit_price := Py.lit 1 2;
           UsageEvent.metadata := None;
           UsageEvent.created_at := "2024-01-01 10:00:00" |}];
     usage_events_seq := 1;
     invoices := [];
     invoices_seq := 0 |}.

(** After that invoice, usage of another customer and more usage of the
    first, the last with metadata. *)
Definition job_metadata : string :=
  "{" ++ String (ascii_of_nat 34) "job" ++ String (ascii_of_nat 34) ": 7}".

Definition later_events : result db :=
  (d <- UsageTracker.track_event (fst (fst invoiced_once)) noon_21
          "c2" "data_gb" (Py.PyFloat (Py.lit 25 1)) "GB" (Py.PyInt 5)
          Metadata.Empty ;;
   UsageTracker.track_event d (DateTime.make 2024 1 22 12 0 0)
          "c1" "api_calls" (Py.PyInt 500) "calls" (Py.PyFloat (Py.lit 2 2))
          (Metadata.Dumps job_metadata))%result.

(** One unit of each of three services, at 0.019 apiece: 1.9 minor units
    each, 5.7 in all. *)
Definition small_charges : result db :=
  (d <- UsageTracker.track_event _init_db (DateTime.make 2024 1 15 10 0 0)
          "c1" "api_calls" (Py.PyInt 1) "calls" (Py.PyFloat (Py.lit 19 3))
          Metadata.Empty ;;
   d <- UsageTracker.track_event d (DateTime.make 2024 1 15 10 0 1)
          "c1" "data_gb" (Py.PyInt 1) "GB" (Py.PyFloat (Py.lit 19 3))
          Metadata.Empty ;;
   UsageTracker.track_event d (DateTime.make 2024 1 15 10 0 2)
          "c1" "compute_time" (Py.PyInt 1) "hours" (Py.PyFloat (Py.lit 19 3))
          Metadata.Empty)%result.

(** The customer is invoiced a second time on the 21st, after the first
    invoice was paid and checked: one local invoice paid, one open. *)
Definition two_invoices
    : @BillingEngine.world SimStripe.state * result BillingEngine.invoice_result :=
  BillingEngine.generate_invoice SimStripe.api "c1" "c1@example.com" 30
                                 noon_21 noon_21 (fst paid_once).

(** The customer pays the second invoice, and its status is checked on
    the 22nd. *)
Definition second_paid
    : @BillingEngine.world SimStripe.state * result BillingEngine.status_result :=
  BillingEngine.check_payment_status SimStripe.api "in_0002"
    (DateTime.make 2024 1 22 12 0 0)
    (fst (fst two_invoices),
     SimStripe.pay "in_0002" (snd (fst two_invoices))).

(** A gateway that replies to [send_invoice] with a void invoice and to a
    later [invoice_retrieve] with the same invoice paid. *)
Definition contrary_invoice (status : string) : Stripe.Invoice :=
  {| Stripe.id := "in_1";
     Stripe.amount_due := 1000;
     Stripe.amount_paid := if String.eqb status "paid" then 1000 else 0;
     Stripe.status := status;
     Stripe.hosted_invoice_url := "https://invoice.stripe.com/i/in_1";
     Stripe.due_date := 1209600 |}.

Definition contrary : Stripe.api Datatypes.unit :=
  {| Stripe.customer_list := fun _ g => (g, Stripe.Done []);
     Stripe.customer_create :=
       fun _ _ g => (g, Stripe.Done {| Stripe.customer_id := "cus_1" |});
     Stripe.invoice_create :=
       fun _ _ g => (g, Stripe.Done (contrary_invoice "draft"));
     Stripe.invoiceitem_create := fun _ _ _ _ _ g => (g, Stripe.Done tt);
     Stripe.finalize_invoice :=
       fun _ g => (g, Stripe.Done (contrary_invoice "open"));
     Stripe.send_invoice :=
       fun _ g => (g, Stripe.Done (contrary_invoice "void"));
     Stripe.invoice_retrieve :=
       fun _ g => (g, Stripe.Done (contrary_invoice "paid")) |}.

(** The one event invoiced through that gateway, and the payment status
    checked the day after. *)
Definition voided
    : @BillingEngine.world Datatypes.unit * result BillingEngine.invoice_result :=
  BillingEngine.generate_invoice contrary "c1" "c1@example.com" 30
                                 noon_20 noon_20 (recorded, tt).

Definition void_checked
    : @BillingEngine.world Datatypes.unit * result BillingEngine.status_result :=
  BillingEngine.check_payment_status contrary "in_1" noon_21 (fst voided).

End Scenario.

(** ** What engine computations do and do not do *)

Module EngineLaws.

Import Store BillingEngine.

(** The row "Record in local DB" inserts into the database [d]. *)
Definition invoice_row (d : db) (customer_id : string)
    (invoice : Stripe.Invoice)
    (period_start period_end db_now : DateTime.datetime) : InvoiceRow.t :=
  {| InvoiceRow.id := invoices_seq d + 1;
     InvoiceRow.customer_id := customer_id;
     InvoiceRow.stripe_invoice_id := Stripe.id invoice;
     InvoiceRow.amount_cents := Stripe.amount_due invoice;
     InvoiceRow.status := Stripe.status invoice;
     InvoiceRow.period_start := DateTime.isoformat period_start;
     InvoiceRow.period_end := DateTime.isoformat period_end;
     InvoiceRow.created_at := DateTime.current_timestamp db_now;
     InvoiceRow.paid_at := None |}.

(** The gateway, asked in the state [g], reports the invoice paid. *)
Definition reported_paid {G : Type} (stripe : Stripe.api G)
    (invoice_id : string) (g : G) : Prop :=
  exists g1 reply,
    Stripe.invoice_retrieve stripe invoice_id g = (g1, Stripe.Done reply) /\
    Stripe.status reply = "paid".

(** A float that [int()] refuses, with the exception it raises. *)
Definition int_refuses (x : Py.float) (e : exn) : Prop :=
  (Py.is_nan x = true /\ e = ValueError) \/
  (Py.is_inf x = true /\ e = OverflowError).

(** The integer [a] is the exact value [v] with its fraction dropped. *)
Definition truncates (a : Z) (v : Q) : Prop :=
  ((0 <= v)%Q -> (inject_Z a <= v)%Q /\ (v < inject_Z a + 1)%Q) /\
  ((v <= 0)%Q -> (inject_Z a - 1 < v)%Q /\ (v <= inject_Z a)%Q).

(** What [int()] makes of a float: [ValueError] of a NaN, [OverflowError]
    of an infinity, and of anything else its value with the fraction
    dropped. *)
Definition converts (x : Py.float) (r : result Z) : Prop :=
  match x with
  | S754_nan => r = Raise ValueError
  | S754_infinity _ => r = Raise OverflowError
  | _ => exists a, r = Ok a /\ truncates a (Py.value x)
  end.

End EngineLaws.

(** ** The command line of [stripe_invoice.py] *)

Module AgentInvoice.

(** [main]: [amount_cents = int(amount_usd * 100)], for the amount in
    dollars read off the command line. *)
Definition amount_cents (amount_usd : Py.float) : result Z :=
  Py.int_of_float (Py.fmul amount_usd (Py.lit 100 0)).

(** The whole numbers of cents below [k], as lists run. *)
Fixpoint cents_below (k : nat) : list Z :=
  match k with
  | O => []
  | S k' => Z.of_nat k' :: cents_below k'
  end.

(** The amounts of whole cents from 0.00 to 99.99, in cents. *)
Definition under_100_dollars : list Z := cents_below (Z.to_nat 10000).

(** [main] on an amount of [n] cents written with two decimals gives [n]
    cents or one cent less. *)
Definition keeps_or_loses_a_cent (n : Z) : bool :=
  match amount_cents (Py.lit n 2) with
  | Ok c => (c =? n) || (c =? n - 1)
  | Raise _ => false
  end.

End AgentInvoice.

(** * Properties *)

(** ** Results *)

Lemma rbind_ok {A B : Type} (r : result A) (k : A -> result B) (b : B) :
  rbind r k = Ok b -> exists a, r = Ok a /\ k a = Ok b.
Proof.
  destruct r as [a | e]; simpl; intros H.
  - exists a. split; [reflexivity | exact H].
  - discriminate H.
Qed.

Lemma rbind_raise {A B : Type} (r : result A) (k : A -> result B) (e : exn) :
  rbind r k = Raise e ->
  r = Raise e \/ exists a, r = Ok a /\ k a = Raise e.
Proof.
  destruct r as [a | e']; simpl; intros H.
  - right. exists a. split; [reflexivity | exact H].
  - left. injection H as ->. reflexivity.
Qed.

(** Break a hypothesis about a chain of binds into its steps. *)
Ltac unbind H :=
  let a := fresh "a" in
  let Ha := fresh "Ha" in
  first
    [ apply rbind_ok in H; destruct H as (a & Ha & H)
    | apply rbind_raise in H; destruct H as [H | (a & Ha & H)] ].

(** ** Rounding to a double *)

Module RoundingFacts.

Import Py.

Lemma shr_1_m (r : shr_record) :
  0 <= shr_m r -> shr_m (shr_1 r) = shr_m r / 2.
Proof.
  destruct r as [m b s]. simpl. intros H.
  destruct m as [| p | p]; [reflexivity | | lia].
  destruct p as [p | p |]; simpl.
  - change (Z.pos p~1) with (2 * Z.pos p + 1).
    apply Z.div_unique with (r := 1); lia.
  - change (Z.pos p~0) with (2 * Z.pos p).
    apply Z.div_unique with (r := 0); lia.
  - reflexivity.
Qed.

Lemma iter_shr_1_m (k : positive) :
  forall r, 0 <= shr_m r ->
            shr_m (iter_pos shr_1 k r) = shr_m r / 2 ^ Z.pos k.
Proof.
  induction k as [k IH | k IH |]; intros r H; simpl iter_pos.
  - assert (H1 : 0 <= shr_m (shr_1 r))
      by (rewrite shr_1_m by exact H; apply Z.div_pos; lia).
    assert (H2 : 0 <= shr_m (iter_pos shr_1 k (shr_1 r)))
      by (rewrite IH by exact H1; apply Z.div_pos; [exact H1 | apply Z.pow_pos_nonneg; lia]).
    rewrite (IH _ H2), (IH _ H1), (shr_1_m _ H).
    rewrite !Z.div_div by (try apply Z.pow_pos_nonneg; lia).
    f_equal. change (Z.pos k~1) with (2 * Z.pos k + 1).
    replace (2 * Z.pos k + 1) with (1 + Z.pos k + Z.pos k) by lia.
    rewrite !Z.pow_add_r by lia. rewrite Z.pow_1_r. ring.
  - assert (H2 : 0 <= shr_m (iter_pos shr_1 k r))
      by (rewrite IH by exact H; apply Z.div_pos; [exact H | apply Z.pow_pos_nonneg; lia]).
    rewrite (IH _ H2), (IH _ H).
    rewrite !Z.div_div by (try apply Z.pow_pos_nonneg; lia).
    f_equal. change (Z.pos k~0) with (2 * Z.pos k).
    replace (2 * Z.pos k) with (Z.pos k + Z.pos k) by lia.
    rewrite !Z.pow_add_r by lia. ring.
  - rewrite (shr_1_m _ H). reflexivity.
Qed.

Lemma digits2_pos_bounds (p : positive) :
  2 ^ (Z.pos (digits2_pos p) - 1) <= Z.pos p < 2 ^ Z.pos (digits2_pos p).
Proof.
  induction p as [p IH | p IH |]; simpl digits2_pos.
  - rewrite Pos2Z.inj_succ. change (Z.pos p~1) with (2 * Z.pos p + 1).
    replace (Z.succ (Z.pos (digits2_pos p)) - 1)
      with (1 + (Z.pos (digits2_pos p) - 1)) by lia.
    rewrite Z.pow_add_r by lia. rewrite Z.pow_succ_r by lia.
    rewrite Z.pow_1_r. lia.
  - rewrite Pos2Z.inj_succ. change (Z.pos p~0) with (2 * Z.pos p).
    replace (Z.succ (Z.pos (digits2_pos p)) - 1)
      with (1 + (Z.pos (digits2_pos p) - 1)) by lia.
    rewrite Z.pow_add_r by lia. rewrite Z.pow_succ_r by lia.
    rewrite Z.pow_1_r. lia.
  - simpl. lia.
Qed.

Lemma Zdigits2_bounds (m : Z) :
  0 < m -> 0 < Zdigits2 m /\ 2 ^ (Zdigits2 m - 1) <= m < 2 ^ Zdigits2 m.
Proof.
  destruct m as [| p | p]; try lia. intros _. simpl.
  split; [lia | apply digits2_pos_bounds].
Qed.

(** Fewer digits than [n] when below [2 ^ n]. *)
Lemma Zdigits2_le (m n : Z) : 0 < m -> m < 2 ^ n -> Zdigits2 m <= n.
Proof.
  intros Hm Hn. destruct (Zdigits2_bounds m Hm) as [Hd [Hlo _]].
  destruct (Z_le_gt_dec (Zdigits2 m) n) as [H | H]; [exact H |].
  exfalso. assert (0 <= n \/ n < 0) as [Hn0 | Hn0] by lia.
  - assert (2 ^ n <= 2 ^ (Zdigits2 m - 1)) by (apply Z.pow_le_mono_r; lia). lia.
  - rewrite Z.pow_neg_r in Hn by lia. lia.
Qed.

Lemma shr_record_of_loc_m (m : Z) (l : location) :
  shr_m (shr_record_of_loc m l) = m.
Proof. destruct l as [| []]; reflexivity. Qed.

(** What the shift to the format's exponent leaves of a positive mantissa. *)
Lemma shr_fexp_pos (m e : Z) (l : location) :
  0 < m -> emin prec emax <= e ->
  let e' := snd (shr_fexp prec emax m e l) in
  let q := shr_m (fst (shr_fexp prec emax m e l)) in
  e' = Z.max e (fexp prec emax (Zdigits2 m + e)) /\
  0 < q /\ q < 2 ^ (Zdigits2 m - (e' - e)) /\ q <= m.
Proof.
  intros Hm He. destruct (Zdigits2_bounds m Hm) as [Hd [Hlo Hhi]].
  unfold shr_fexp, shr.
  assert (Hf : fexp prec emax (Zdigits2 m + e) < Zdigits2 m + e).
  { unfold fexp, emin, prec, emax in *. apply Z.max_lub_lt; lia. }
  destruct (fexp prec emax (Zdigits2 m + e) - e) as [| k | k] eqn:E; simpl.
  - rewrite shr_record_of_loc_m. replace (Z.max e _) with e by lia.
    replace (Zdigits2 m - (e - e)) with (Zdigits2 m) by lia. lia.
  - rewrite iter_shr_1_m by (rewrite shr_record_of_loc_m; lia).
    rewrite shr_record_of_loc_m.
    replace (Z.max e _) with (e + Z.pos k) by lia.
    split; [reflexivity |].
    assert (Hk : Z.pos k <= Zdigits2 m - 1) by lia.
    assert (Hp : 0 < 2 ^ Z.pos k) by (apply Z.pow_pos_nonneg; lia).
    split; [| split].
    + apply Z.div_str_pos. split; [exact Hp |].
      apply Z.le_trans with (2 ^ (Zdigits2 m - 1)); [| exact Hlo].
      apply Z.pow_le_mono_r; lia.
    + apply Z.div_lt_upper_bound; [exact Hp |].
      rewrite <- Z.pow_add_r by lia.
      replace (Z.pos k + (Zdigits2 m - (e + Z.pos k - e))) with (Zdigits2 m) by lia.
      exact Hhi.
    + apply Z.div_le_upper_bound; [exact Hp |]. nia.
  - rewrite shr_record_of_loc_m. replace (Z.max e _) with e by lia.
    replace (Zdigits2 m - (e - e)) with (Zdigits2 m) by lia. lia.
Qed.

Lemma round_nearest_even_bounds (q : Z) (l : location) :
  q <= round_nearest_even q l <= q + 1.
Proof.
  destruct l as [| []]; simpl; try lia. destruct (Z.even q); lia.
Qed.

(** Rounding a positive mantissa gives a finite float or an infinity, and a
    finite one when the exponent stays within the format. *)
Lemma binary_round_aux_pos (s : bool) (m e : Z) (l : location) :
  0 < m -> emin prec emax <= e ->
  match binary_round_aux prec emax s m e l with
  | S754_finite _ _ _ => True
  | S754_infinity _ =>
      emax - prec < Z.max e (Zdigits2 m + e - prec + 1)
  | _ => False
  end.
Proof.
  intros Hm He. unfold binary_round_aux.
  pose proof (shr_fexp_pos m e l Hm He) as H1. cbv zeta in H1.
  destruct (shr_fexp prec emax m e l) as [mrs1 e1]. simpl in H1.
  destruct H1 as (He1 & Hq0 & Hq1 & _).
  pose proof (round_nearest_even_bounds (shr_m mrs1) (loc_of_shr_record mrs1))
    as Hr.
  set (m1 := round_nearest_even (shr_m mrs1) (loc_of_shr_record mrs1)) in *.
  assert (Hm1 : 0 < m1) by lia.
  assert (He1' : emin prec emax <= e1) by lia.
  pose proof (shr_fexp_pos m1 e1 loc_Exact Hm1 He1') as H2. cbv zeta in H2.
  destruct (shr_fexp prec emax m1 e1 loc_Exact) as [mrs2 e2]. simpl in H2.
  destruct H2 as (He2 & Hq2 & _ & _).
  destruct (shr_m mrs2) as [| p | p]; try lia.
  destruct (e2 <=? emax - prec) eqn:E; [exact Logic.I |].
  apply Z.leb_gt in E.
  assert (Hd1 : Zdigits2 m1 <= Zdigits2 m - (e1 - e) + 1).
  { apply Zdigits2_le; [exact Hm1 |].
    assert (0 <= Zdigits2 m - (e1 - e)).
    { destruct (Z_le_gt_dec 0 (Zdigits2 m - (e1 - e))) as [H | H]; [exact H |].
      rewrite Z.pow_neg_r in Hq1 by lia. lia. }
    rewrite Z.pow_add_r by lia. rewrite Z.pow_1_r. lia. }
  unfold fexp in He1, He2. unfold emin, prec, emax in *. lia.
Qed.

Lemma digits2_pos_iter_xO (p k : positive) :
  Z.pos (digits2_pos (Pos.iter xO p k)) = Z.pos (digits2_pos p) + Z.pos k.
Proof.
  induction k as [| k IH] using Pos.peano_ind.
  - simpl. lia.
  - rewrite Pos.iter_succ. simpl digits2_pos. lia.
Qed.

(** The double nearest a nonzero integer is finite and not a zero, unless
    the integer is beyond the doubles. *)
Lemma binary_normalize_int (z : Z) :
  z <> 0 ->
  match binary_normalize prec emax z 0 false with
  | S754_finite _ _ _ => True
  | S754_infinity _ => 2 ^ 1023 <= Z.abs z
  | _ => False
  end.
Proof.
  intros Hz.
  assert (H : forall s p,
             match binary_round prec emax s p 0 with
             | S754_finite _ _ _ => True
             | S754_infinity _ => 2 ^ 1023 <= Z.pos p
             | _ => False
             end).
  { intros s p. unfold binary_round.
    destruct (digits2_pos_bounds p) as [Hlo _].
    assert (Hal : forall mz ez,
               shl_align p 0 (fexp prec emax (Z.pos (digits2_pos p) + 0))
               = (mz, ez) ->
               emin prec emax <= ez <= 0 /\
               Zdigits2 (Z.pos mz) + ez = Z.pos (digits2_pos p)).
    { intros mz ez. unfold shl_align.
      destruct (fexp prec emax (Z.pos (digits2_pos p) + 0) - 0)
        as [| k | k] eqn:E; intros H; injection H as <- <-.
      - unfold emin, prec, emax. simpl. lia.
      - unfold emin, prec, emax. simpl. lia.
      - simpl Zdigits2. rewrite digits2_pos_iter_xO.
        unfold fexp, emin, prec, emax in *. lia. }
    destruct (shl_align p 0 (fexp prec emax (Z.pos (digits2_pos p) + 0)))
      as [mz ez].
    destruct (Hal mz ez eq_refl) as [He Hd].
    pose proof (binary_round_aux_pos s (Z.pos mz) ez loc_Exact
                  ltac:(lia) (proj1 He)) as Hr.
    destruct (binary_round_aux prec emax s (Z.pos mz) ez loc_Exact);
      try exact Hr.
    unfold prec, emax in Hr.
    assert (Hdig : 1024 <= Z.pos (digits2_pos p)) by lia.
    apply Z.le_trans with (2 ^ (Z.pos (digits2_pos p) - 1)); [| exact Hlo].
    apply Z.pow_le_mono_r; lia. }
  destruct z as [| p | p]; [contradiction Hz; reflexivity | |]; simpl.
  - apply H.
  - apply H.
Qed.

(** [float(z)] of a nonzero int is not a zero. *)
Lemma float_of_int_nonzero (z : Z) (f : float) :
  z <> 0 -> float_of_int z = Ok f -> is_zero f = false.
Proof.
  intros Hz. unfold float_of_int.
  pose proof (binary_normalize_int z Hz) as H.
  destruct (binary_normalize prec emax z 0 false); try contradiction;
    intros E; try discriminate E.
  injection E as <-. reflexivity.
Qed.

(** [float(z)] returns for every int below [2 ^ 1023] in size, and what it
    returns is the conversion SQLite makes. *)
Lemma float_of_int_returns (z : Z) :
  Z.abs z < 2 ^ 1023 ->
  float_of_int z = Ok (Sqlite.real_of_integer z).
Proof.
  intros Hz. unfold float_of_int, Sqlite.real_of_integer.
  destruct (Z.eq_dec z 0) as [-> | Hnz]; [reflexivity |].
  pose proof (binary_normalize_int z Hnz) as H.
  destruct (binary_normalize prec emax z 0 false); try reflexivity.
  lia.
Qed.

End RoundingFacts.

(** ** Python numbers *)

Module PyFacts.

Import Py.

Lemma float_of_int_raise (z : Z) (e : exn) :
  float_of_int z = Raise e -> e = OverflowError.
Proof.
  unfold float_of_int.
  destruct (binary_normalize prec emax z 0 false); intros H;
    try discriminate H.
  injection H as <-. reflexivity.
Qed.

Lemma to_float_raise (a : number) (e : exn) :
  to_float a = Raise e -> e = OverflowError /\ exists z, a = PyInt z.
Proof.
  destruct a as [z | f]; simpl; intros H.
  - split; [exact (float_of_int_raise z e H) | exists z; reflexivity].
  - discriminate H.
Qed.

Lemma mul_raise (a b : number) (e : exn) :
  mul a b = Raise e -> e = OverflowError.
Proof.
  destruct a as [x | x], b as [y | y]; simpl; intros H;
    try discriminate H;
    repeat (unbind H; try discriminate H);
    try (apply float_of_int_raise in H; exact H);
    try (apply float_of_int_raise in Ha; exact Ha).
Qed.

Lemma sub_raise (a b : number) (e : exn) :
  sub a b = Raise e -> e = OverflowError.
Proof.
  destruct a as [x | x], b as [y | y]; simpl; intros H;
    try discriminate H;
    repeat (unbind H; try discriminate H);
    try (apply float_of_int_raise in H; exact H);
    try (apply float_of_int_raise in Ha; exact Ha).
Qed.

Lemma mul_floats (x y : float) :
  mul (PyFloat x) (PyFloat y) = Ok (PyFloat (fmul x y)).
Proof. reflexivity. Qed.

Lemma sub_floats (x y : float) :
  sub (PyFloat x) (PyFloat y) = Ok (PyFloat (fsub x y)).
Proof. reflexivity. Qed.

(** A float above the int 0 is not a zero. *)
Lemma gt_zero_not_zero (x : float) :
  gt (PyFloat x) (PyInt 0) = true -> is_zero x = false.
Proof.
  destruct x as [s | s | | s m e]; simpl; try reflexivity.
  unfold gt. simpl. intros H. discriminate H.
Qed.

(** An int above the int 0 is positive, and its float is not a zero. *)
Lemma gt_int_zero (z : Z) : gt (PyInt z) (PyInt 0) = true -> 0 < z.
Proof.
  unfold gt, compare. destruct (z ?= 0) eqn:E; try discriminate.
  intros _. apply Z.compare_gt_iff in E. exact E.
Qed.

(** Dividing by a number above 0 never divides by zero. *)
Lemma truediv_raise (a b : number) (e : exn) :
  gt b (PyInt 0) = true -> truediv a b = Raise e -> e = OverflowError.
Proof.
  intros Hgt H. destruct a as [x | x], b as [y | y];
    cbn -[float_of_int round_ratio] in H.
  - apply gt_int_zero in Hgt.
    assert (E : (y =? 0) = false) by (apply Z.eqb_neq; lia).
    rewrite E in H.
    destruct (round_ratio _ _ _); try discriminate H.
    injection H as <-. reflexivity.
  - apply gt_zero_not_zero in Hgt.
    unbind H; [exact (float_of_int_raise _ _ H) |].
    rewrite Hgt in H. discriminate H.
  - apply gt_int_zero in Hgt.
    unbind H; [exact (float_of_int_raise _ _ H) |].
    rewrite (RoundingFacts.float_of_int_nonzero y a) in H;
      [discriminate H | lia | exact Ha].
  - apply gt_zero_not_zero in Hgt. rewrite Hgt in H. discriminate H.
Qed.

(** Nothing that is not above 0 reaches a threshold above 0. *)
Lemma ge_int_zero (z : Z) : 0 < z -> ge (PyInt 0) (PyInt z) = false.
Proof.
  intros H. unfold ge, compare.
  apply Z.compare_lt_iff in H. rewrite H. reflexivity.
Qed.

End PyFacts.

(** ** CostProjector *)

Module CostProjectorFacts.

Import Py CostProjector PyFacts.

Lemma margin_guard (profit revenue : number) :
  gt revenue (PyInt 0) = false -> margin profit revenue = Ok (PyInt 0).
Proof.
  intros H. unfold margin. rewrite H. reflexivity.
Qed.

Lemma margin_positive (profit revenue : number) :
  gt revenue (PyInt 0) = true ->
  margin profit revenue =
  rbind (truediv profit revenue) (fun q => mul q (PyInt 100)).
Proof.
  intros H. unfold margin. rewrite H. reflexivity.
Qed.

(** Against a float revenue the margin is always computed. *)
Lemma margin_of_floats (profit revenue : float) :
  exists m, margin (PyFloat profit) (PyFloat revenue) = Ok m.
Proof.
  unfold margin.
  destruct (gt (PyFloat revenue) (PyInt 0)) eqn:Hgt.
  - apply gt_zero_not_zero in Hgt. simpl. rewrite Hgt. simpl.
    eexists. reflexivity.
  - eexists. reflexivity.
Qed.

(** The margin never divides by zero: it raises nothing but
    [OverflowError], whatever the numbers. *)
Lemma margin_raise (profit revenue : number) (e : exn) :
  margin profit revenue = Raise e -> e = OverflowError.
Proof.
  unfold margin.
  destruct (gt revenue (PyInt 0)) eqn:Hgt; [| discriminate].
  intros H. unbind H.
  - exact (truediv_raise _ _ _ Hgt H).
  - exact (mul_raise _ _ _ H).
Qed.

(** A margin that comes from the guard is below every positive
    threshold. *)
Lemma guarded_margin_not_viable (profit revenue m : number) (t : Z) :
  0 < t ->
  gt revenue (PyInt 0) = false ->
  margin profit revenue = Ok m ->
  m = PyInt 0 /\ ge m (PyInt t) = false.
Proof.
  intros Ht Hgt Hm. rewrite (margin_guard _ _ Hgt) in Hm.
  injection Hm as <-. split; [reflexivity | exact (ge_int_zero t Ht)].
Qed.

Lemma api_recommendation (m : number) :
  (if ge m (PyInt viable_threshold_api) then "Viable"
   else "Thin margins - increase price or reduce costs") = "Viable"
  <-> ge m (PyInt 50) = true.
Proof.
  change viable_threshold_api with 50.
  destruct (ge m (PyInt 50)); split; intros H;
    try reflexivity; discriminate H.
Qed.

Lemma compute_recommendation (m : number) :
  (if ge m (PyInt viable_threshold_compute) then "Viable"
   else "Increase hourly rate or optimize compute") = "Viable"
  <-> ge m (PyInt 60) = true.
Proof.
  change viable_threshold_compute with 60.
  destruct (ge m (PyInt 60)); split; intros H;
    try reflexivity; discriminate H.
Qed.

(** What a returned API projection was computed from. *)
Lemma project_api_service_ok (calls cost price : number) (r : projection) :
  project_api_service calls cost price = Ok r ->
  exists revenue m,
    api_revenue calls price = Ok revenue /\
    api_margin calls cost price = Ok m /\
    monthly_revenue r = round revenue 2 /\
    margin_percent r = round m 1 /\
    (recommendation r = "Viable" <-> ge m (PyInt 50) = true) /\
    (gt revenue (PyInt 0) = false -> m = PyInt 0).
Proof.
  unfold project_api_service, api_revenue, api_margin. intros H.
  unbind H. unbind H. unbind H. unbind H. unbind H.
  injection H as <-. simpl.
  rewrite Ha, Ha0. simpl. rewrite Ha1. simpl. rewrite Ha2. simpl.
  exists a1, a3. repeat split; try assumption; try reflexivity.
  - apply api_recommendation.
  - apply api_recommendation.
  - intros Hgt. rewrite (margin_guard _ _ Hgt) in Ha3.
    injection Ha3 as <-. reflexivity.
Qed.

Lemma project_compute_service_ok (hours cost rate : number) (r : projection) :
  project_compute_service hours cost rate = Ok r ->
  exists revenue m,
    mul hours rate = Ok revenue /\
    compute_margin hours cost rate = Ok m /\
    monthly_revenue r = round revenue 2 /\
    margin_percent r = round m 1 /\
    (recommendation r = "Viable" <-> ge m (PyInt 60) = true) /\
    (gt revenue (PyInt 0) = false -> m = PyInt 0).
Proof.
  unfold project_compute_service, compute_margin. intros H.
  unbind H. unbind H. unbind H. unbind H.
  injection H as <-. simpl.
  rewrite Ha, Ha0. simpl. rewrite Ha1. simpl.
  exists a0, a2. repeat split; try assumption; try reflexivity.
  - apply compute_recommendation.
  - apply compute_recommendation.
  - intros Hgt. rewrite (margin_guard _ _ Hgt) in Ha2.
    injection Ha2 as <-. reflexivity.
Qed.

Lemma float_of_int_1000 :
  float_of_int 1000 = Ok (S754_finite false 8796093022208000 (-43)).
Proof. vm_compute. reflexivity. Qed.

(** Dividing by the int 1000 can only overflow. *)
Lemma truediv_1000_raise (a : number) (e : exn) :
  truediv a (PyInt 1000) = Raise e -> e = OverflowError.
Proof.
  destruct a as [x | x]; cbn -[float_of_int round_ratio]; intros H.
  - destruct (round_ratio _ _ _); try discriminate H.
    injection H as <-. reflexivity.
  - rewrite float_of_int_1000 in H. discriminate H.
Qed.

Lemma truediv_1000_of_float (x : float) :
  exists f, truediv (PyFloat x) (PyInt 1000) = Ok (PyFloat f).
Proof.
  cbn -[float_of_int]. rewrite float_of_int_1000. eexists; reflexivity.
Qed.

(** With float arguments the API projection always returns. *)
Lemma project_api_service_total (calls cost price : float) :
  exists r,
    project_api_service (PyFloat calls) (PyFloat cost) (PyFloat price) = Ok r.
Proof.
  unfold project_api_service.
  rewrite mul_floats. cbn [rbind].
  destruct (truediv_1000_of_float calls) as (t & ->). cbn [rbind].
  rewrite mul_floats. cbn [rbind]. rewrite sub_floats. cbn [rbind].
  destruct (margin_of_floats (fsub (fmul t price) (fmul calls cost))
                             (fmul t price)) as (m & ->).
  cbn [rbind]. eexists; reflexivity.
Qed.

Lemma project_compute_service_total (hours cost rate : float) :
  exists r,
    project_compute_service (PyFloat hours) (PyFloat cost) (PyFloat rate)
    = Ok r.
Proof.
  unfold project_compute_service.
  rewrite !mul_floats. cbn [rbind]. rewrite sub_floats. cbn [rbind].
  destruct (margin_of_floats (fsub (fmul hours rate) (fmul hours cost))
                             (fmul hours rate)) as (m & ->).
  cbn [rbind]. eexists; reflexivity.
Qed.

(** Whatever its arguments, the API projection raises nothing but
    [OverflowError]. *)
Lemma project_api_service_raise (calls cost price : number) (e : exn) :
  project_api_service calls cost price = Raise e -> e = OverflowError.
Proof.
  unfold project_api_service. intros H.
  unbind H; [exact (mul_raise _ _ _ H) |].
  unbind H; [exact (truediv_1000_raise _ _ H) |].
  unbind H; [exact (mul_raise _ _ _ H) |].
  unbind H; [exact (sub_raise _ _ _ H) |].
  unbind H; [exact (margin_raise _ _ _ H) |].
  discriminate H.
Qed.

(** So does the compute projection. *)
Lemma project_compute_service_raise (hours cost rate : number) (e : exn) :
  project_compute_service hours cost rate = Raise e ->
  e = OverflowError.
Proof.
  unfold project_compute_service. intros H.
  unbind H; [exact (mul_raise _ _ _ H) |].
  unbind H; [exact (mul_raise _ _ _ H) |].
  unbind H; [exact (sub_raise _ _ _ H) |].
  unbind H; [exact (margin_raise _ _ _ H) |].
  discriminate H.
Qed.

End CostProjectorFacts.

(** *** The margin projection *)

Section ProjectionClaims.

Import Py CostProjector PyFacts CostProjectorFacts.

(** At 1000 calls costing 0.0005003 each and priced 1.0 per 1000 the
    margin is 49.97: the report rounds it to 50.0, which reaches the
    threshold of 50, and yet the recommendation is not "Viable". *)
Lemma reported_margin_at_threshold_not_viable :
  exists r,
    project_api_service (PyInt 1000) (PyFloat (lit 5003 7)) (PyFloat (lit 1 0))
    = Ok r /\
    margin_percent r = PyFloat (lit 500 1) /\
    ge (margin_percent r) (PyInt 50) = true /\
    recommendation r <> "Viable".
Proof.
  eexists. split; [vm_compute; reflexivity |].
  split; [reflexivity |]. split; [reflexivity |].
  intros H. discriminate H.
Qed.

(** C7, amended.  [project_api_service] is a function of its arguments
    alone.  Its recommendation is "Viable" exactly when the margin percent
    it computed, before rounding, is at least 50 (the threshold is fixed);
    the margin it reports is that value rounded to one decimal.  For 50000
    calls costing 0.002 each and priced 5.0 per 1000 it reports a cost of
    100.0, a revenue of 250.0, a profit of 150.0, a margin of 60.0 and
    "Viable". *)
Theorem project_api_service_viable :
  (forall calls cost price r,
      project_api_service calls cost price = Ok r ->
      exists m,
        api_margin calls cost price = Ok m /\
        margin_percent r = round m 1 /\
        (recommendation r = "Viable" <-> ge m (PyInt 50) = true)) /\
  project_api_service (PyInt 50000) (PyFloat (lit 2 3)) (PyFloat (lit 5 0))
  = Ok {| volume := PyInt 50000;
          monthly_cost := PyFloat (lit 100 0);
          monthly_revenue := PyFloat (lit 250 0);
          monthly_profit := PyFloat (lit 150 0);
          margin_percent := PyFloat (lit 60 0);
          recommendation := "Viable" |}.
Proof.
  split.
  - intros calls cost price r H.
    destruct (project_api_service_ok _ _ _ _ H)
      as (revenue & m & _ & Hm & _ & Hr & Hv & _).
    exists m. repeat split; try assumption; apply Hv.
  - vm_compute. reflexivity.
Qed.

Lemma project_api_service_viable_witness :
  project_api_service (PyInt 100000) (PyFloat (lit 2 3)) (PyFloat (lit 10 0))
  = Ok {| volume := PyInt 100000;
          monthly_cost := PyFloat (lit 200 0);
          monthly_revenue := PyFloat (lit 1000 0);
          monthly_profit := PyFloat (lit 800 0);
          margin_percent := PyFloat (lit 80 0);
          recommendation := "Viable" |} /\
  exists m,
    api_margin (PyInt 100000) (PyFloat (lit 2 3)) (PyFloat (lit 10 0)) = Ok m /\
    PyFloat (lit 80 0) = round m 1 /\
    ("Viable" = "Viable" <-> ge m (PyInt 50) = true).
Proof.
  split.
  - vm_compute. reflexivity.
  - apply (proj1 project_api_service_viable
                 (PyInt 100000) (PyFloat (lit 2 3)) (PyFloat (lit 10 0))
                 {| volume := PyInt 100000;
                    monthly_cost := PyFloat (lit 200 0);
                    monthly_revenue := PyFloat (lit 1000 0);
                    monthly_profit := PyFloat (lit 800 0);
                    margin_percent := PyFloat (lit 80 0);
                    recommendation := "Viable" |}).
    vm_compute. reflexivity.
Defined.

(** An int volume too large for a float makes both projections raise. *)
Lemma projections_overflow :
  project_api_service (PyInt (2 ^ 1024)) (PyFloat (lit 2 3)) (PyFloat (lit 5 0))
  = Raise OverflowError /\
  project_compute_service (PyInt (2 ^ 1024)) (PyFloat (lit 2 0))
                          (PyFloat (lit 5 0))
  = Raise OverflowError.
Proof.
  split; vm_compute; reflexivity.
Qed.

(** C10, amended.  Neither projection ever divides by zero: whatever
    ints or floats they are given, they return or raise [OverflowError],
    and nothing else.  [OverflowError] is what an int too large for a float
    raises; with float arguments both always return.  When the revenue
    they computed is not positive, the reported margin is the int 0 and
    the recommendation is not "Viable". *)
Theorem projections_guarded :
  (forall calls cost price : float,
      exists r, project_api_service (PyFloat calls) (PyFloat cost)
                                    (PyFloat price) = Ok r) /\
  (forall hours cost rate : float,
      exists r, project_compute_service (PyFloat hours) (PyFloat cost)
                                        (PyFloat rate) = Ok r) /\
  (forall calls cost price e,
      project_api_service calls cost price = Raise e -> e = OverflowError) /\
  (forall hours cost rate e,
      project_compute_service hours cost rate = Raise e ->
      e = OverflowError) /\
  (forall calls cost price r,
      project_api_service calls cost price = Ok r ->
      exists revenue,
        api_revenue calls price = Ok revenue /\
        (gt revenue (PyInt 0) = false ->
         margin_percent r = PyInt 0 /\ recommendation r <> "Viable")) /\
  (forall hours cost rate r,
      project_compute_service hours cost rate = Ok r ->
      exists revenue,
        mul hours rate = Ok revenue /\
        (gt revenue (PyInt 0) = false ->
         margin_percent r = PyInt 0 /\ recommendation r <> "Viable")).
Proof.
  split; [exact project_api_service_total |].
  split; [exact project_compute_service_total |].
  split; [exact project_api_service_raise |].
  split; [exact project_compute_service_raise |].
  split.
  - intros calls cost price r H.
    destruct (project_api_service_ok _ _ _ _ H)
      as (revenue & m & Hrev & _ & _ & Hr & Hv & Hg).
    exists revenue. split; [exact Hrev |].
    intros Hgt. rewrite (Hg Hgt) in Hr, Hv. split; [exact Hr |].
    intros Hviable. apply Hv in Hviable. discriminate Hviable.
  - intros hours cost rate r H.
    destruct (project_compute_service_ok _ _ _ _ H)
      as (revenue & m & Hrev & _ & _ & Hr & Hv & Hg).
    exists revenue. split; [exact Hrev |].
    intros Hgt. rewrite (Hg Hgt) in Hr, Hv. split; [exact Hr |].
    intros Hviable. apply Hv in Hviable. discriminate Hviable.
Qed.

Lemma projections_guarded_witness :
  project_api_service (PyInt 0) (PyFloat (lit 2 3)) (PyFloat (lit 5 0))
  = Ok {| volume := PyInt 0;
          monthly_cost := PyFloat (S754_zero false);
          monthly_revenue := PyFloat (S754_zero false);
          monthly_profit := PyFloat (S754_zero false);
          margin_percent := PyInt 0;
          recommendation := "Thin margins - increase price or reduce costs" |}
  /\
  (exists r,
      project_compute_service (PyInt 160) (PyFloat (lit 125 1)) (PyInt 50)
      = Ok r /\
      monthly_revenue r = PyInt 8000 /\
      margin_percent r = PyFloat (lit 75 0) /\
      recommendation r = "Viable") /\
  (exists r,
      project_compute_service (PyInt 0) (PyFloat (lit 125 1)) (PyInt 50)
      = Ok r /\
      monthly_revenue r = PyInt 0 /\
      margin_percent r = PyInt 0 /\
      recommendation r = "Increase hourly rate or optimize compute") /\
  exists revenue,
    api_revenue (PyInt 0) (PyFloat (lit 5 0)) = Ok revenue /\
    (gt revenue (PyInt 0) = false ->
     PyInt 0 = PyInt 0 /\
     "Thin margins - increase price or reduce costs" <> "Viable").
Proof.
  split; [vm_compute; reflexivity |].
  split; [eexists; split; [vm_compute; reflexivity |];
          repeat split; vm_compute; reflexivity |].
  split; [eexists; split; [vm_compute; reflexivity |];
          repeat split; vm_compute; reflexivity |].
  apply (proj1 (proj2 (proj2 (proj2 (proj2 projections_guarded))))
               (PyInt 0) (PyFloat (lit 2 3)) (PyFloat (lit 5 0))
               {| volume := PyInt 0;
                  monthly_cost := PyFloat (S754_zero false);
                  monthly_revenue := PyFloat (S754_zero false);
                  monthly_profit := PyFloat (S754_zero false);
                  margin_percent := PyInt 0;
                  recommendation :=
                    "Thin margins - increase price or reduce costs" |}).
  vm_compute. reflexivity.
Defined.

End ProjectionClaims.

(** ** The store: text comparison and ORDER BY *)

Module StoreFacts.

Import Store.

Lemma ascii_compare_refl (a : ascii) : Ascii.compare a a = Eq.
Proof. unfold Ascii.compare. apply N.compare_refl. Qed.

Lemma ascii_compare_lt_trans (a b c : ascii) :
  Ascii.compare a b = Lt -> Ascii.compare b c = Lt -> Ascii.compare a c = Lt.
Proof.
  unfold Ascii.compare. rewrite !N.compare_lt_iff.
  intros H1 H2. exact (N.lt_trans _ _ _ H1 H2).
Qed.

Lemma compare_refl (s : string) : String.compare s s = Eq.
Proof.
  induction s as [| a s IH]; simpl; [reflexivity |].
  rewrite ascii_compare_refl. exact IH.
Qed.

(** [String.compare] orders strings: what is not above and not below
    composes. *)
Lemma compare_not_gt_trans (a b c : string) :
  String.compare a b <> Gt -> String.compare b c <> Gt ->
  String.compare a c <> Gt.
Proof.
  revert b c.
  induction a as [| x a IH]; intros [| y b] [| z c]; simpl;
    try congruence.
  destruct (Ascii.compare x y) eqn:Hxy; try congruence;
    destruct (Ascii.compare y z) eqn:Hyz; try congruence; intros H1 H2.
  - apply Ascii.compare_eq_iff in Hxy, Hyz. subst.
    rewrite ascii_compare_refl. exact (IH _ _ H1 H2).
  - apply Ascii.compare_eq_iff in Hxy. subst. rewrite Hyz. discriminate.
  - apply Ascii.compare_eq_iff in Hyz. subst. rewrite Hxy. discriminate.
  - rewrite (ascii_compare_lt_trans _ _ _ Hxy Hyz). discriminate.
Qed.

Lemma text_leb_refl (a : string) : text_leb a a = true.
Proof. unfold text_leb. rewrite compare_refl. reflexivity. Qed.

Lemma text_leb_trans (a b c : string) :
  text_leb a b = true -> text_leb b c = true -> text_leb a c = true.
Proof.
  unfold text_leb. intros H1 H2.
  assert (Hab : String.compare a b <> Gt)
    by (destruct (String.compare a b); congruence).
  assert (Hbc : String.compare b c <> Gt)
    by (destruct (String.compare b c); congruence).
  pose proof (compare_not_gt_trans _ _ _ Hab Hbc) as Hac.
  destruct (String.compare a c); congruence.
Qed.

(** What is not at or below is strictly above. *)
Lemma text_leb_false (a b : string) :
  text_leb a b = false -> text_ltb b a = true.
Proof.
  unfold text_leb, text_ltb. rewrite (String.compare_antisym a b).
  destruct (String.compare b a); simpl; congruence.
Qed.

Lemma text_ltb_leb (a b : string) :
  text_ltb a b = true -> text_leb a b = true.
Proof.
  unfold text_leb, text_ltb. destruct (String.compare a b); congruence.
Qed.

Lemma text_leb_antisym (a b : string) :
  text_leb a b = true -> text_leb b a = true -> a = b.
Proof.
  unfold text_leb. rewrite (String.compare_antisym b a).
  destruct (String.compare a b) eqn:E; simpl; try congruence.
  intros _ _. apply String.compare_eq_iff. exact E.
Qed.

Lemma insert_perm (r : UsageEvent.t) (l : list UsageEvent.t) :
  Permutation (r :: l) (insert_by_created_at r l).
Proof.
  induction l as [| x l IH]; simpl; [apply Permutation_refl |].
  destruct (text_leb _ _); [apply Permutation_refl |].
  eapply Permutation_trans; [apply perm_swap |].
  apply perm_skip. exact IH.
Qed.

Lemma order_by_created_at_perm (l : list UsageEvent.t) :
  Permutation l (order_by_created_at l).
Proof.
  induction l as [| r l IH]; simpl; [apply Permutation_refl |].
  eapply Permutation_trans; [| apply insert_perm].
  apply perm_skip. exact IH.
Qed.

Lemma order_by_created_at_in (l : list UsageEvent.t) (r : UsageEvent.t) :
  In r (order_by_created_at l) <-> In r l.
Proof.
  split; intros H.
  - eapply Permutation_in; [apply Permutation_sym, order_by_created_at_perm | exact H].
  - eapply Permutation_in; [apply order_by_created_at_perm | exact H].
Qed.

(** Inserting a row whose id is below every id of a list in that order
    keeps the order. *)
Lemma insert_sorted (r : UsageEvent.t) (l : list UsageEvent.t) :
  StronglySorted row_before l ->
  Forall (fun x => UsageEvent.id r < UsageEvent.id x) l ->
  StronglySorted row_before (insert_by_created_at r l).
Proof.
  intros Hs Hid. induction l as [| x l IH]; simpl.
  - constructor; constructor.
  - inversion Hs as [| ? ? Hs' Hx]; subst.
    inversion Hid as [| ? ? Hrx Hid']; subst.
    destruct (text_leb (UsageEvent.created_at r) (UsageEvent.created_at x))
      eqn:Hle.
    + constructor; [exact Hs |].
      assert (Hrx' : row_before r x).
      { unfold row_before.
        destruct (text_leb (UsageEvent.created_at x) (UsageEvent.created_at r))
          eqn:Hle'.
        - right. split; [exact (text_leb_antisym _ _ Hle Hle') | exact Hrx].
        - left. exact (text_leb_false _ _ Hle'). }
      constructor; [exact Hrx' |].
      rewrite Forall_forall in Hx, Hid' |- *. intros y Hy.
      specialize (Hx y Hy). specialize (Hid' y Hy).
      assert (Hxy : text_leb (UsageEvent.created_at x) (UsageEvent.created_at y)
                    = true).
      { destruct Hx as [Hlt | [Heq _]];
          [exact (text_ltb_leb _ _ Hlt) | rewrite Heq; apply text_leb_refl]. }
      pose proof (text_leb_trans _ _ _ Hle Hxy) as Hry.
      unfold row_before.
      destruct (text_leb (UsageEvent.created_at y) (UsageEvent.created_at r))
        eqn:Hyr.
      * right. split; [exact (text_leb_antisym _ _ Hry Hyr) | exact Hid'].
      * left. exact (text_leb_false _ _ Hyr).
    + constructor; [exact (IH Hs' Hid') |].
      rewrite Forall_forall in Hx |- *. intros y Hy.
      apply (Permutation_in _ (Permutation_sym (insert_perm r l))) in Hy.
      destruct Hy as [<- | Hy]; [| exact (Hx y Hy)].
      left. exact (text_leb_false _ _ Hle).
Qed.

(** A scan in ascending id order comes out of ORDER BY in created_at
    order, ids ascending among equal created_at. *)
Lemma order_by_created_at_sorted (l : list UsageEvent.t) :
  StronglySorted (fun a b => UsageEvent.id a < UsageEvent.id b) l ->
  StronglySorted row_before (order_by_created_at l).
Proof.
  induction l as [| r l IH]; simpl; intros Hs; [constructor |].
  inversion Hs as [| ? ? Hs' Hr]; subst.
  apply insert_sorted; [exact (IH Hs') |].
  rewrite Forall_forall in Hr |- *. intros x Hx.
  apply Hr. apply order_by_created_at_in. exact Hx.
Qed.

Lemma insert_created_le (r : UsageEvent.t) (l : list UsageEvent.t) :
  StronglySorted created_le l ->
  StronglySorted created_le (insert_by_created_at r l).
Proof.
  intros Hs. induction l as [| x l IH]; simpl.
  - constructor; constructor.
  - inversion Hs as [| ? ? Hs' Hx]; subst.
    destruct (text_leb (UsageEvent.created_at r) (UsageEvent.created_at x))
      eqn:Hle.
    + constructor; [exact Hs |]. constructor; [exact Hle |].
      rewrite Forall_forall in Hx |- *. intros y Hy.
      exact (text_leb_trans _ _ _ Hle (Hx y Hy)).
    + constructor; [exact (IH Hs') |].
      rewrite Forall_forall in Hx |- *. intros y Hy.
      apply (Permutation_in _ (Permutation_sym (insert_perm r l))) in Hy.
      destruct Hy as [<- | Hy]; [| exact (Hx y Hy)].
      apply text_ltb_leb. exact (text_leb_false _ _ Hle).
Qed.

(** Whatever the scan, ORDER BY returns it in created_at order. *)
Lemma order_by_created_at_created_le (l : list UsageEvent.t) :
  StronglySorted created_le (order_by_created_at l).
Proof.
  induction l as [| r l IH]; simpl; [constructor |].
  apply insert_created_le. exact IH.
Qed.

End StoreFacts.

(** ** UsageTracker *)

Module UsageTrackerFacts.

Import Store UsageTracker StoreFacts TrackerLaws.

(** What is bound and stored for a number, in the caller's terms. *)
Lemma bind_number_int (z : Z) :
  (- 2 ^ 63 <= z < 2 ^ 63 /\
   Sqlite.bind_number (Py.PyInt z) = Ok (Sqlite.Integer z)) \/
  ((z < - 2 ^ 63 \/ 2 ^ 63 <= z) /\
   Sqlite.bind_number (Py.PyInt z) = Raise OverflowError).
Proof.
  unfold Sqlite.bind_number.
  destruct (Sqlite.min_int64 <=? z) eqn:E1;
    destruct (z <=? Sqlite.max_int64) eqn:E2; cbn [andb];
    try apply Z.leb_le in E1; try apply Z.leb_le in E2;
    try apply Z.leb_gt in E1; try apply Z.leb_gt in E2;
    unfold Sqlite.min_int64, Sqlite.max_int64 in E1, E2;
    [left | right | right | right]; (split; [lia | reflexivity]).
Qed.

Lemma bind_number_ok (a : Py.number) (v : Sqlite.value) :
  Sqlite.bind_number a = Ok v -> ~ too_large a.
Proof.
  destruct a as [z | f]; [| intros _ []].
  destruct (bind_number_int z) as [[Hz ->] | [Hz ->]]; [| discriminate].
  intros _ [H | H]; lia.
Qed.

Lemma bind_number_raise (a : Py.number) (e : exn) :
  Sqlite.bind_number a = Raise e -> too_large a /\ e = OverflowError.
Proof.
  destruct a as [z | f]; [| discriminate].
  destruct (bind_number_int z) as [[Hz ->] | [Hz ->]]; [discriminate |].
  intros H. injection H as <-. split; [exact Hz | reflexivity].
Qed.

Lemma bind_number_fits (a : Py.number) :
  ~ too_large a -> exists v, Sqlite.bind_number a = Ok v.
Proof.
  intros H. destruct (Sqlite.bind_number a) as [v | e] eqn:E.
  - exists v. reflexivity.
  - destruct (bind_number_raise a e E) as [Hl _]. contradiction.
Qed.

Lemma real_not_null_ok (a : Py.number) (v : Sqlite.value) (x : Py.float) :
  Sqlite.bind_number a = Ok v ->
  Sqlite.real_not_null v = Ok x ->
  read_back a x /\ ~ nan a.
Proof.
  destruct a as [z | f].
  - destruct (bind_number_int z) as [[Hz ->] | [Hz ->]]; [| discriminate].
    intros H. injection H as <-. cbn [Sqlite.real_not_null].
    intros H. injection H as <-.
    split; [| intros []]. cbn [read_back].
    apply RoundingFacts.float_of_int_returns.
    assert (2 ^ 63 < 2 ^ 1023) by (apply Z.pow_lt_mono_r; lia). lia.
  - cbn [Sqlite.bind_number]. intros H. injection H as <-.
    destruct f as [sg | sg | | sg m e]; simpl; intros H;
      try discriminate H; injection H as <-;
      (split; [reflexivity | intros N; discriminate N]).
Qed.

Lemma real_not_null_raise (a : Py.number) (v : Sqlite.value) (e : exn) :
  Sqlite.bind_number a = Ok v ->
  Sqlite.real_not_null v = Raise e ->
  nan a /\ e = IntegrityError.
Proof.
  destruct a as [z | f].
  - destruct (bind_number_int z) as [[Hz ->] | [Hz ->]]; [| discriminate].
    intros H. injection H as <-. discriminate.
  - cbn [Sqlite.bind_number]. intros H. injection H as <-.
    destruct f as [sg | sg | | sg m ex]; simpl; intros H;
      try discriminate H.
    injection H as <-. split; reflexivity.
Qed.

Lemma real_not_null_returns (a : Py.number) (v : Sqlite.value) :
  Sqlite.bind_number a = Ok v -> ~ nan a ->
  exists x, Sqlite.real_not_null v = Ok x.
Proof.
  intros Hb Hn. destruct (Sqlite.real_not_null v) as [x | e] eqn:E.
  - exists x. reflexivity.
  - destruct (real_not_null_raise a v e Hb E) as [H _]. contradiction.
Qed.

Lemma metadata_text_ok (metadata : Metadata.t) (text : option string) :
  metadata_text metadata = Ok text <-> json_text metadata text.
Proof.
  destruct metadata as [| t | e]; simpl; split; intros H;
    try congruence; try contradiction; discriminate H.
Qed.

(** A call that returns has appended one row, which carries the arguments
    as they read back, and has touched nothing else. *)
Lemma track_event_ok d now customer_id service quantity unit unit_price
    metadata d' :
  track_event d now customer_id service quantity unit unit_price metadata
  = Ok d' ->
  exists text x y,
    json_text metadata text /\
    read_back quantity x /\ read_back unit_price y /\
    ~ too_large quantity /\ ~ too_large unit_price /\
    ~ nan quantity /\ ~ nan unit_price /\
    d' = {| usage_events :=
              (usage_events d ++
               [row d now customer_id service x unit y text])%list;
            usage_events_seq := usage_events_seq d + 1;
            invoices := invoices d;
            invoices_seq := invoices_seq d |}.
Proof.
  unfold track_event. intros H.
  apply rbind_ok in H. destruct H as (text & Ht & H).
  apply rbind_ok in H. destruct H as (vq & Hvq & H).
  apply rbind_ok in H. destruct H as (vp & Hvp & H).
  apply rbind_ok in H. destruct H as (x & Hx & H).
  apply rbind_ok in H. destruct H as (y & Hy & H).
  injection H as <-.
  destruct (real_not_null_ok _ _ _ Hvq Hx) as [Rx Nx].
  destruct (real_not_null_ok _ _ _ Hvp Hy) as [Ry Ny].
  exists text, x, y.
  split; [apply metadata_text_ok; exact Ht |].
  split; [exact Rx |]. split; [exact Ry |].
  split; [exact (bind_number_ok _ _ Hvq) |].
  split; [exact (bind_number_ok _ _ Hvp) |].
  split; [exact Nx |]. split; [exact Ny |]. reflexivity.
Qed.

(** A call returns whenever its metadata has a JSON text, its ints fit in
    64 bits and its floats are not NaN. *)
Lemma track_event_returns d now customer_id service quantity unit unit_price
    metadata text :
  json_text metadata text ->
  ~ too_large quantity -> ~ too_large unit_price ->
  ~ nan quantity -> ~ nan unit_price ->
  exists d',
    track_event d now customer_id service quantity unit unit_price metadata
    = Ok d'.
Proof.
  intros Ht Lq Lp Nq Np. unfold track_event.
  apply metadata_text_ok in Ht. rewrite Ht. cbn [rbind].
  destruct (bind_number_fits _ Lq) as (vq & Hvq).
  destruct (bind_number_fits _ Lp) as (vp & Hvp).
  rewrite Hvq, Hvp. cbn [rbind].
  destruct (real_not_null_returns _ _ Hvq Nq) as (x & Hx).
  destruct (real_not_null_returns _ _ Hvp Np) as (y & Hy).
  rewrite Hx, Hy. cbn [rbind]. eexists. reflexivity.
Qed.

(** What a call that raises has raised, and why. *)
Lemma track_event_raise d now customer_id service quantity unit unit_price
    metadata e :
  track_event d now customer_id service quantity unit unit_price metadata
  = Raise e ->
  metadata = Metadata.Refused e \/
  ((exists text, json_text metadata text) /\
   ((too_large quantity \/ too_large unit_price) /\ e = OverflowError \/
    ~ too_large quantity /\ ~ too_large unit_price /\
    (nan quantity \/ nan unit_price) /\ e = IntegrityError)).
Proof.
  unfold track_event. intros H.
  apply rbind_raise in H. destruct H as [H | (text & Ht & H)].
  { left. destruct metadata; simpl in H; try discriminate H.
    injection H as ->. reflexivity. }
  right. split; [exists text; apply metadata_text_ok; exact Ht |].
  apply rbind_raise in H. destruct H as [H | (vq & Hvq & H)].
  { left. destruct (bind_number_raise _ _ H) as [Hl ->].
    split; [left; exact Hl | reflexivity]. }
  apply rbind_raise in H. destruct H as [H | (vp & Hvp & H)].
  { left. destruct (bind_number_raise _ _ H) as [Hl ->].
    split; [right; exact Hl | reflexivity]. }
  right.
  split; [exact (bind_number_ok _ _ Hvq) |].
  split; [exact (bind_number_ok _ _ Hvp) |].
  apply rbind_raise in H. destruct H as [H | (x & Hx & H)].
  { destruct (real_not_null_raise _ _ _ Hvq H) as [Hn ->].
    split; [left; exact Hn | reflexivity]. }
  apply rbind_raise in H. destruct H as [H | (y & Hy & H)].
  { destruct (real_not_null_raise _ _ _ Hvp H) as [Hn ->].
    split; [right; exact Hn | reflexivity]. }
  discriminate H.
Qed.

Lemma sorted_snoc {A : Type} (R : A -> A -> Prop) (l : list A) (x : A) :
  StronglySorted R l -> Forall (fun y => R y x) l ->
  StronglySorted R (l ++ [x]).
Proof.
  induction l as [| a l IH]; simpl; intros Hs Hx.
  - constructor; constructor.
  - inversion Hs as [| ? ? Hs' Ha]; subst.
    inversion Hx as [| ? ? Hax Hx']; subst.
    constructor; [exact (IH Hs' Hx') |].
    apply Forall_app. split; [exact Ha | constructor; [exact Hax | constructor]].
Qed.

Lemma sorted_filter {A : Type} (R : A -> A -> Prop) (f : A -> bool) (l : list A) :
  StronglySorted R l -> StronglySorted R (filter f l).
Proof.
  induction l as [| a l IH]; simpl; intros Hs; [constructor |].
  inversion Hs as [| ? ? Hs' Ha]; subst.
  destruct (f a); [| exact (IH Hs')].
  constructor; [exact (IH Hs') |].
  rewrite Forall_forall in Ha |- *. intros y Hy.
  apply filter_In in Hy. exact (Ha y (proj1 Hy)).
Qed.

(** Recording keeps the ids ascending. *)
Lemma track_event_ids d now customer_id service quantity unit unit_price metadata d' :
  ids_ascending d ->
  track_event d now customer_id service quantity unit unit_price metadata
  = Ok d' ->
  ids_ascending d'.
Proof.
  intros [Hs Hb] H.
  destruct (track_event_ok _ _ _ _ _ _ _ _ _ H)
    as (text & x & y & _ & _ & _ & _ & _ & _ & _ & ->).
  unfold ids_ascending. simpl. split.
  - apply sorted_snoc; [exact Hs |].
    rewrite Forall_forall in Hb |- *. intros r Hr. simpl.
    specialize (Hb r Hr). lia.
  - apply Forall_app. split.
    + rewrite Forall_forall in Hb |- *. intros r Hr.
      specialize (Hb r Hr). lia.
    + constructor; [simpl; lia | constructor].
Qed.

Lemma init_db_ids : ids_ascending _init_db.
Proof. split; constructor. Qed.

(** Without a start date, the result is the customer's rows, all of them
    and each once, by created_at and then by id. *)
Lemma get_unbilled_usage_all (d : db) (customer_id : string) :
  ids_ascending d ->
  exists rows,
    get_unbilled_usage d customer_id None = map event_of_row rows /\
    Permutation
      (filter (fun r => String.eqb (UsageEvent.customer_id r) customer_id)
              (usage_events d))
      rows /\
    StronglySorted row_before rows.
Proof.
  intros [Hs _].
  exists (order_by_created_at
            (filter (selected customer_id None) (usage_events d))).
  split; [reflexivity |]. split.
  - replace (filter (selected customer_id None) (usage_events d))
      with (filter (fun r => String.eqb (UsageEvent.customer_id r) customer_id)
                   (usage_events d)).
    + apply order_by_created_at_perm.
    + apply filter_ext. intros r. unfold selected.
      rewrite andb_true_r. reflexivity.
  - apply order_by_created_at_sorted. apply sorted_filter. exact Hs.
Qed.

(** With a start date, a row is returned exactly when it is the
    customer's and its created_at text is not below the ISO text of the
    start date. *)
Lemma get_unbilled_usage_since (d : db) (customer_id : string)
    (start : DateTime.datetime) (e : Event.t) :
  In e (get_unbilled_usage d customer_id (Some start)) <->
  exists r,
    In r (usage_events d) /\ e = event_of_row r /\
    UsageEvent.customer_id r = customer_id /\
    text_leb (DateTime.isoformat start) (UsageEvent.created_at r) = true.
Proof.
  unfold get_unbilled_usage. rewrite in_map_iff. split.
  - intros (r & <- & Hr). apply (proj1 (order_by_created_at_in _ _)) in Hr.
    apply filter_In in Hr. destruct Hr as [Hin Hsel].
    unfold selected in Hsel. apply andb_true_iff in Hsel.
    destruct Hsel as [Hc Ht]. apply String.eqb_eq in Hc.
    exists r. repeat split; assumption.
  - intros (r & Hin & -> & Hc & Ht). exists r. split; [reflexivity |].
    apply order_by_created_at_in. apply filter_In. split; [exact Hin |].
    unfold selected. apply andb_true_iff. split; [| exact Ht].
    apply String.eqb_eq. exact Hc.
Qed.

Lemma sorted_map {A B : Type} (R : A -> A -> Prop) (S : B -> B -> Prop)
    (f : A -> B) (l : list A) :
  (forall a b, R a b -> S (f a) (f b)) ->
  StronglySorted R l -> StronglySorted S (map f l).
Proof.
  intros Hf. induction l as [| a l IH]; simpl; intros Hs; [constructor |].
  inversion Hs as [| ? ? Hs' Ha]; subst.
  constructor; [exact (IH Hs') |].
  rewrite Forall_forall in Ha |- *. intros y Hy.
  apply in_map_iff in Hy. destruct Hy as (x & <- & Hx).
  apply Hf. exact (Ha x Hx).
Qed.

(** What [get_unbilled_usage] returns is in created_at order. *)
Lemma get_unbilled_usage_created_order (d : db) (customer_id : string)
    (start : option DateTime.datetime) :
  in_created_order (get_unbilled_usage d customer_id start).
Proof.
  unfold in_created_order, get_unbilled_usage.
  apply (sorted_map created_le).
  - intros a b H. exact H.
  - apply order_by_created_at_created_le.
Qed.

End UsageTrackerFacts.

(** *** Recording and reading usage *)

Section TrackerClaims.

Import Store UsageTracker UsageTrackerFacts TrackerLaws Scenario.

(** A negative quantity and an infinite unit price are recorded like any
    other. *)
Lemma track_event_records_negative_and_infinite :
  SFltb (Py.lit (-5) 0) (S754_zero false) = true /\
  Py.is_inf (S754_infinity false) = true /\
  exists row,
    track_event _init_db morning "c1" "api_calls"
                (Py.PyFloat (Py.lit (-5) 0)) "calls"
                (Py.PyFloat (S754_infinity false)) Metadata.Empty
    = Ok {| usage_events := [row]; usage_events_seq := 1;
            invoices := []; invoices_seq := 0 |} /\
    UsageEvent.quantity row = Py.lit (-5) 0 /\
    UsageEvent.unit_price row = S754_infinity false.
Proof.
  split; [vm_compute; reflexivity |]. split; [reflexivity |].
  eexists. split; [vm_compute; reflexivity |].
  split; vm_compute; reflexivity.
Qed.

Lemma read_back_unique (a : Py.number) (x x' : Py.float) :
  read_back a x -> read_back a x' -> x = x'.
Proof.
  destruct a as [z | f]; simpl.
  - intros H H'. congruence.
  - destruct (Py.is_zero f); congruence.
Qed.

Lemma json_text_unique (metadata : Metadata.t) (t t' : option string) :
  json_text metadata t -> json_text metadata t' -> t = t'.
Proof.
  destruct metadata; simpl; try congruence. intros [].
Qed.

(** C5, amended.  [track_event] validates neither quantity nor unit price.
    A call returns exactly when its metadata has a JSON text (or is
    empty), its int arguments fit in 64 bits and its float arguments are
    not NaN; negative and infinite numbers are recorded like any other.
    It has then appended one row and changed nothing else: the row has the
    next id, the customer, service and unit given, the time of the call,
    the JSON text, and as quantity and unit price the arguments as a REAL
    column reads them back ([float(z)] for an int, a positive zero for a
    negative one, the float itself otherwise).  A call that does not
    return has recorded nothing, and has raised what [json.dumps] raised,
    or [OverflowError] for an int beyond 64 bits, or, when neither, the
    [IntegrityError] of the NOT NULL constraint for a NaN. *)
Theorem track_event_records_what_it_is_given :
  forall d now customer_id service quantity unit unit_price metadata,
    (forall d',
        track_event d now customer_id service quantity unit unit_price metadata
        = Ok d' <->
        exists text x y,
          json_text metadata text /\
          ~ too_large quantity /\ ~ too_large unit_price /\
          ~ nan quantity /\ ~ nan unit_price /\
          read_back quantity x /\ read_back unit_price y /\
          d' = {| usage_events :=
                    (usage_events d ++
                     [row d now customer_id service x unit y text])%list;
                  usage_events_seq := usage_events_seq d + 1;
                  invoices := invoices d;
                  invoices_seq := invoices_seq d |}) /\
    (forall e,
        track_event d now customer_id service quantity unit unit_price metadata
        = Raise e <->
        metadata = Metadata.Refused e \/
        ((exists text, json_text metadata text) /\
         ((too_large quantity \/ too_large unit_price) /\ e = OverflowError \/
          ~ too_large quantity /\ ~ too_large unit_price /\
          (nan quantity \/ nan unit_price) /\ e = IntegrityError))).
Proof.
  intros d now customer_id service quantity unit unit_price metadata.
  split.
  - intros d'. split.
    + intros H.
      destruct (track_event_ok _ _ _ _ _ _ _ _ _ H)
        as (text & x & y & Ht & Rx & Ry & Lq & Lp & Nq & Np & E).
      exists text, x, y. repeat split; assumption.
    + intros (text & x & y & Ht & Lq & Lp & Nq & Np & Rx & Ry & ->).
      destruct (track_event_returns d now customer_id service quantity unit
                  unit_price metadata text Ht Lq Lp Nq Np) as (d'' & H).
      rewrite H. f_equal.
      destruct (track_event_ok _ _ _ _ _ _ _ _ _ H)
        as (text' & x' & y' & Ht' & Rx' & Ry' & _ & _ & _ & _ & ->).
      rewrite (json_text_unique _ _ _ Ht Ht'),
        (read_back_unique _ _ _ Rx Rx'), (read_back_unique _ _ _ Ry Ry').
      reflexivity.
  - intros e. split; [apply track_event_raise |].
    intros Hc.
    destruct (track_event d now customer_id service quantity unit unit_price
                          metadata) as [d' | e'] eqn:H.
    + exfalso.
      destruct (track_event_ok _ _ _ _ _ _ _ _ _ H)
        as (text & x & y & Ht & _ & _ & Lq & Lp & Nq & Np & _).
      destruct Hc as [-> | [_ [[[L | L] _] | (_ & _ & [N | N] & _)]]];
        try contradiction.
    + f_equal. apply track_event_raise in H.
      destruct Hc as [-> | [(text & Ht) Hc]];
        destruct H as [H | [(text' & Ht') H]].
      * injection H as ->. reflexivity.
      * destruct Ht'.
      * rewrite H in Ht. destruct Ht.
      * destruct Hc as [[L ->] | (Lq & Lp & N & ->)];
          destruct H as [[L' ->] | (Lq' & Lp' & N' & ->)];
          try reflexivity; exfalso; tauto.
Qed.

(** C3: an event recorded at 10:00 on 2024-01-01 is stored with the
    created_at text "2024-01-01 10:00:00"; asked for the usage since 00:00
    of that day, ten hours earlier, [get_unbilled_usage] compares that text
    with "2024-01-01T00:00:00", finds it below (a space sorts before "T")
    and leaves the event out, while without a start date it returns it. *)
Theorem start_date_misses_same_day_event :
  exists d,
    one_event = Ok d /\
    DateTime.instant midnight <= DateTime.instant morning /\
    text_leb (DateTime.isoformat midnight) "2024-01-01 10:00:00" = false /\
    get_unbilled_usage d "c1" (Some midnight) = [] /\
    get_unbilled_usage d "c1" None = [the_event].
Proof.
  eexists. split; [vm_compute; reflexivity |].
  split; [vm_compute; discriminate |].
  repeat split; vm_compute; reflexivity.
Qed.

End TrackerClaims.

(** ** Aggregation *)

Module AggregateFacts.

Import BillingEngine.

Lemma contains_get (items : line_items) (service : string) :
  contains items service = true <-> get items service <> None.
Proof.
  induction items as [| [s item] rest IH]; simpl.
  - split; [discriminate | congruence].
  - destruct (String.eqb s service); simpl.
    + split; [discriminate | reflexivity].
    + exact IH.
Qed.

Lemma contains_false_get (items : line_items) (service : string) :
  contains items service = false <-> get items service = None.
Proof.
  pose proof (contains_get items service) as H.
  destruct (contains items service), (get items service);
    split; intros E; try reflexivity; try discriminate E.
  - exfalso. apply (proj1 H eq_refl). reflexivity.
  - assert (F : false = true) by (apply H; discriminate). discriminate F.
Qed.

Lemma get_app_fresh (items : line_items) (s service : string)
    (item : LineItem.t) :
  get (items ++ [(s, item)])%list service =
  match get items service with
  | Some i => Some i
  | None => if String.eqb s service then Some item else None
  end.
Proof.
  induction items as [| [s' i] rest IH]; simpl; [reflexivity |].
  destruct (String.eqb s' service); [reflexivity | exact IH].
Qed.

Lemma get_accumulate_same (items : line_items) (service : string)
    (q t : Py.float) :
  get (accumulate items service q t) service =
  option_map (fun i => added i q t) (get items service).
Proof.
  induction items as [| [s i] rest IH]; simpl; [reflexivity |].
  destruct (String.eqb s service) eqn:E; simpl; rewrite E;
    [reflexivity | exact IH].
Qed.

Lemma get_accumulate_other (items : line_items) (s service : string)
    (q t : Py.float) :
  s <> service ->
  get (accumulate items s q t) service = get items service.
Proof.
  intros Hne.
  induction items as [| [s' i] rest IH]; simpl; [reflexivity |].
  destruct (String.eqb s' s) eqn:E; simpl.
  - apply String.eqb_eq in E. subst s'.
    apply String.eqb_neq in Hne. rewrite Hne. reflexivity.
  - destruct (String.eqb s' service); [reflexivity | exact IH].
Qed.

Lemma keys_accumulate (items : line_items) (s : string) (q t : Py.float) :
  map fst (accumulate items s q t) = map fst items.
Proof.
  induction items as [| [s' i] rest IH]; simpl; [reflexivity |].
  destruct (String.eqb s' s); simpl; [reflexivity |].
  rewrite IH. reflexivity.
Qed.

Lemma contains_keys (items : line_items) (service : string) :
  contains items service = true <-> In service (map fst items).
Proof.
  induction items as [| [s i] rest IH]; simpl.
  - split; [discriminate | tauto].
  - rewrite orb_true_iff, String.eqb_eq, IH. reflexivity.
Qed.

(** One turn of the loop, seen from one service. *)
Lemma get_add_event_same (items : line_items) (e : Event.t) :
  get (add_event items e) (Event.service e) =
  Some (added match get items (Event.service e) with
              | Some i => i
              | None => fresh e
              end
              (Event.quantity e) (Event.line_total e)).
Proof.
  unfold add_event. rewrite get_accumulate_same.
  destruct (contains items (Event.service e)) eqn:C.
  - apply contains_get in C.
    destruct (get items (Event.service e)); [reflexivity | congruence].
  - rewrite get_app_fresh. apply contains_false_get in C. rewrite C.
    rewrite String.eqb_refl. reflexivity.
Qed.

Lemma get_add_event_other (items : line_items) (e : Event.t)
    (service : string) :
  Event.service e <> service ->
  get (add_event items e) service = get items service.
Proof.
  intros Hne. unfold add_event.
  rewrite (get_accumulate_other _ _ _ _ _ Hne).
  destruct (contains items (Event.service e)); [reflexivity |].
  rewrite get_app_fresh. destruct (get items service); [reflexivity |].
  apply String.eqb_neq in Hne. rewrite Hne. reflexivity.
Qed.

Lemma keys_add_event (items : line_items) (e : Event.t) :
  map fst (add_event items e) =
  if contains items (Event.service e) then map fst items
  else (map fst items ++ [Event.service e])%list.
Proof.
  unfold add_event. rewrite keys_accumulate.
  destruct (contains items (Event.service e)); [reflexivity |].
  rewrite map_app. reflexivity.
Qed.

Lemma after_events_fields (events : list Event.t) (item : LineItem.t) :
  LineItem.unit (after_events item events) = LineItem.unit item /\
  LineItem.unit_price (after_events item events) = LineItem.unit_price item /\
  LineItem.quantity (after_events item events) =
    fold_left Py.fadd (map Event.quantity events) (LineItem.quantity item) /\
  LineItem.total (after_events item events) =
    fold_left Py.fadd (map Event.line_total events) (LineItem.total item).
Proof.
  revert item. induction events as [| e es IH]; intros item; simpl.
  - repeat split; reflexivity.
  - destruct (IH (added item (Event.quantity e) (Event.line_total e)))
      as (Hu & Hp & Hq & Ht).
    unfold after_events in *. simpl in *.
    rewrite Hu, Hp, Hq, Ht. repeat split; reflexivity.
Qed.

(** The loop, seen from one service: an entry already there goes through
    the service's events; an entry not yet there is created by the first
    of them. *)
Lemma get_fold_add_event (events : list Event.t) (items : line_items)
    (service : string) :
  get (fold_left add_event events items) service =
  match get items service with
  | Some i => Some (after_events i (of_service service events))
  | None =>
      match of_service service events with
      | [] => None
      | first :: later => Some (after_events (fresh first) (first :: later))
      end
  end.
Proof.
  revert items. induction events as [| e es IH]; intros items; simpl.
  - destruct (get items service); reflexivity.
  - rewrite IH. destruct (String.eqb (Event.service e) service) eqn:E.
    + apply String.eqb_eq in E. subst service.
      rewrite get_add_event_same.
      destruct (get items (Event.service e)); reflexivity.
    + apply String.eqb_neq in E. rewrite (get_add_event_other _ _ _ E).
      reflexivity.
Qed.

Lemma nodup_snoc {A : Type} (l : list A) (x : A) :
  NoDup l -> ~ In x l -> NoDup (l ++ [x]).
Proof.
  induction l as [| a l IH]; simpl; intros Hnd Hx.
  - constructor; [intros [] | constructor].
  - inversion Hnd as [| ? ? Ha Hl]; subst. constructor.
    + rewrite in_app_iff. simpl. intros [H | [H | []]]; [tauto |].
      apply Hx. left. symmetry. exact H.
    + apply IH; [exact Hl | tauto].
Qed.

(** The keys of the dict are the services of the events, each once. *)
Lemma keys_fold_add_event (events : list Event.t) (items : line_items) :
  NoDup (map fst items) ->
  NoDup (map fst (fold_left add_event events items)) /\
  forall s, In s (map fst (fold_left add_event events items)) <->
            In s (map fst items) \/
            exists e, In e events /\ Event.service e = s.
Proof.
  revert items. induction events as [| e es IH]; intros items Hnd; simpl.
  - split; [exact Hnd |]. intros s. split; [tauto |].
    intros [H | (e & [] & _)]. exact H.
  - assert (Hnd' : NoDup (map fst (add_event items e))).
    { rewrite keys_add_event.
      destruct (contains items (Event.service e)) eqn:C; [exact Hnd |].
      apply nodup_snoc; [exact Hnd |].
      intros Hin. apply contains_keys in Hin. congruence. }
    destruct (IH _ Hnd') as [Hnd'' Hin]. split; [exact Hnd'' |].
    intros s. rewrite Hin, keys_add_event.
    destruct (contains items (Event.service e)) eqn:C.
    + apply contains_keys in C. split.
      * intros [H | (e' & He' & Hs)]; [tauto |].
        right. exists e'. tauto.
      * intros [H | (e' & [<- | He'] & Hs)];
          [tauto | subst s; tauto | right; exists e'; tauto].
    + rewrite in_app_iff. simpl. split.
      * intros [[H | [H | []]] | (e' & He' & Hs)];
          [tauto | right; exists e; tauto | right; exists e'; tauto].
      * intros [H | (e' & [<- | He'] & Hs)];
          [tauto | subst s; tauto | right; exists e'; tauto].
Qed.

End AggregateFacts.

(** ** BillingEngine *)

Module EngineFacts.

Import Store BillingEngine.

Section Rules.

Context {G : Type} (stripe : Stripe.api G).

Lemma holds_ret {A : Type} (I : db -> Prop) (a : A) (Q : A -> Prop) :
  Q a -> holds I (ret a : @M G A) Q.
Proof.
  intros HQ w w' r HI H. unfold ret in H. injection H as <- <-.
  split; [exact HI |]. intros a' E. injection E as <-. exact HQ.
Qed.

Lemma holds_lift {A : Type} (I : db -> Prop) (x : result A) (Q : A -> Prop) :
  (forall a, x = Ok a -> Q a) -> holds I (lift x : @M G A) Q.
Proof.
  intros HQ w w' r HI H. unfold lift in H. injection H as <- <-.
  split; [exact HI | exact HQ].
Qed.

Lemma holds_call {A : Type} (I : db -> Prop) (op : G -> G * Stripe.reply A)
    (Q : A -> Prop) :
  (forall g g' a, op g = (g', Stripe.Done a) -> Q a) ->
  holds I (call op) Q.
Proof.
  intros HQ w w' r HI H. unfold call in H.
  destruct (op (snd w)) as [g' [a | msg]] eqn:E; injection H as <- <-; simpl.
  - split; [exact HI |]. intros a' E'. injection E' as <-.
    exact (HQ _ _ _ E).
  - split; [exact HI |]. intros a' E'. discriminate E'.
Qed.

Lemma holds_bind {A B : Type} (I : db -> Prop) (m : @M G A) (k : A -> @M G B)
    (Q : A -> Prop) (Q' : B -> Prop) :
  holds I m Q ->
  (forall a, Q a -> holds I (k a) Q') ->
  holds I (bind m k) Q'.
Proof.
  intros Hm Hk w w' r HI H. unfold bind in H.
  destruct (m w) as [w1 [a | e]] eqn:E.
  - destruct (Hm _ _ _ HI E) as [HI1 HQ].
    exact (Hk a (HQ a eq_refl) _ _ _ HI1 H).
  - injection H as <- <-. destruct (Hm _ _ _ HI E) as [HI1 _].
    split; [exact HI1 |]. intros a E'. discriminate E'.
Qed.

Lemma holds_try {A : Type} (I : db -> Prop) (m : @M G A) (handler : string -> A)
    (Q : A -> Prop) :
  holds I m Q ->
  (forall msg, Q (handler msg)) ->
  holds I (try_stripe m handler) Q.
Proof.
  intros Hm Hh w w' r HI H. unfold try_stripe in H.
  destruct (m w) as [w1 [a | e]] eqn:E.
  - injection H as <- <-. exact (Hm _ _ _ HI E).
  - destruct (Hm _ _ _ HI E) as [HI1 _].
    destruct e; injection H as <- <-;
      (split; [exact HI1 |]); intros a E'; try discriminate E'.
    injection E' as <-. apply Hh.
Qed.

Lemma holds_weaken {A : Type} (I : db -> Prop) (m : @M G A) (Q Q' : A -> Prop) :
  holds I m Q -> (forall a, Q a -> Q' a) -> holds I m Q'.
Proof.
  intros Hm HQ w w' r HI H. destruct (Hm _ _ _ HI H) as [HI' Ha].
  split; [exact HI' |]. intros a E. exact (HQ a (Ha a E)).
Qed.

End Rules.

Section Operations.

Context {G : Type} (stripe : Stripe.api G).
Context (I : db -> Prop) (status_ok : string -> Prop).
Hypothesis I_stable : stable I status_ok.
Hypothesis sent_status_ok :
  forall invoice g g' reply,
    Stripe.send_invoice stripe invoice g = (g', Stripe.Done reply) ->
    status_ok (Stripe.status reply).

Let anything {A : Type} (_ : A) : Prop := True.

Lemma holds_call_any {A : Type} (op : G -> G * Stripe.reply A) :
  holds I (call op) anything.
Proof. apply holds_call. intros; exact Logic.I. Qed.

Lemma holds_get_or_create_customer (customer_email customer_id : string) :
  holds I (get_or_create_customer stripe customer_email customer_id) anything.
Proof.
  unfold get_or_create_customer.
  eapply holds_bind; [apply holds_call_any |].
  intros [| c cs] _; [apply holds_call_any |].
  apply holds_ret. exact Logic.I.
Qed.

Lemma holds_add_line_items (customer invoice : string) (items : line_items) :
  holds I (add_line_items stripe customer invoice items) anything.
Proof.
  induction items as [| [service item] rest IH]; simpl.
  - apply holds_ret. exact Logic.I.
  - eapply holds_bind; [apply (holds_lift I _ anything); intros; exact Logic.I |].
    intros amount _. eapply holds_bind; [apply holds_call_any |].
    intros _ _. exact IH.
Qed.

Lemma holds_record_invoice (customer_id : string) (invoice : Stripe.Invoice)
    (period_start period_end db_now : DateTime.datetime) :
  status_ok (Stripe.status invoice) ->
  holds I (record_invoice customer_id invoice period_start period_end db_now
           : @M G Datatypes.unit)
        anything.
Proof.
  intros Hok w w' r HI H. unfold record_invoice in H.
  injection H as <- <-. simpl. split; [| intros; exact Logic.I].
  apply (proj1 I_stable); [exact HI | exact Hok].
Qed.

Lemma holds_create_invoice (customer_id customer_email : string)
    (period_start period_end db_now : DateTime.datetime) (items : line_items) :
  holds I (create_invoice stripe customer_id customer_email period_start
                          period_end db_now items)
        anything.
Proof.
  unfold create_invoice.
  eapply holds_bind; [apply holds_get_or_create_customer |].
  intros c _. eapply holds_bind; [apply holds_call_any |].
  intros inv _. eapply holds_bind; [apply holds_add_line_items |].
  intros _ _. eapply holds_bind; [apply holds_call_any |].
  intros inv1 _.
  eapply holds_bind;
    [apply (holds_call I _ (fun reply => status_ok (Stripe.status reply)));
     intros g g' a; apply sent_status_ok |].
  intros inv2 Hok.
  eapply holds_bind; [apply holds_record_invoice; exact Hok |].
  intros _ _. apply holds_ret. exact Logic.I.
Qed.

Lemma holds_read_usage (customer_id : string) (days : Z)
    (now : DateTime.datetime) :
  holds I (read_usage customer_id days now
           : @M G (DateTime.datetime * list Event.t))
        anything.
Proof.
  unfold read_usage.
  eapply holds_bind; [apply (holds_lift I _ anything); intros; exact Logic.I |].
  intros period_start _ w w' r HI H. injection H as <- <-.
  split; [exact HI | intros; exact Logic.I].
Qed.

Lemma holds_bill_usage (customer_id customer_email : string)
    (now db_now : DateTime.datetime)
    (usage : DateTime.datetime * list Event.t) :
  holds I (bill_usage stripe customer_id customer_email now db_now usage)
        anything.
Proof.
  unfold bill_usage. destruct (snd usage).
  - apply holds_ret. exact Logic.I.
  - apply holds_try; [apply holds_create_invoice | intros; exact Logic.I].
Qed.

(** Whatever the gateway does, [generate_invoice] keeps [I]. *)
Lemma holds_generate_invoice (customer_id customer_email : string)
    (days : Z) (now db_now : DateTime.datetime) :
  holds I (generate_invoice stripe customer_id customer_email days now db_now)
        anything.
Proof.
  unfold generate_invoice.
  eapply holds_bind; [apply holds_read_usage |].
  intros usage _. apply holds_bill_usage.
Qed.

(** And so does [check_payment_status]. *)
Lemma holds_check_payment_status (invoice_id : string)
    (now : DateTime.datetime) :
  holds I (check_payment_status stripe invoice_id now) anything.
Proof.
  unfold check_payment_status.
  apply holds_try; [| intros; exact Logic.I].
  eapply holds_bind; [apply holds_call_any |].
  intros inv _. eapply holds_bind.
  - instantiate (1 := anything).
    destruct (String.eqb (Stripe.status inv) "paid").
    + intros w w' r HI H. unfold update_paid in H. injection H as <- <-.
      simpl. split; [| intros; exact Logic.I].
      apply (proj2 I_stable). exact HI.
    + apply holds_ret. exact Logic.I.
  - intros _ _. apply holds_ret. exact Logic.I.
Qed.

End Operations.

Section Invariants.

Context {G : Type} (stripe : Stripe.api G).

Lemma stable_usage (l : list UsageEvent.t) (n : Z) :
  stable (fun d => usage_events d = l /\ usage_events_seq d = n)
         (fun _ => True).
Proof.
  split; intros; assumption.
Qed.

Lemma stable_ids : stable ids_ascending (fun _ => True).
Proof.
  split; intros; assumption.
Qed.

(** [generate_invoice] leaves [usage_events] as it found it. *)
Lemma generate_invoice_keeps_usage (customer_id customer_email : string)
    (days : Z) (now db_now : DateTime.datetime) (w w' : @world G)
    (r : result invoice_result) :
  generate_invoice stripe customer_id customer_email days now db_now w
  = (w', r) ->
  usage_events (fst w') = usage_events (fst w) /\
  usage_events_seq (fst w') = usage_events_seq (fst w).
Proof.
  intros H.
  refine (proj1 (holds_generate_invoice stripe _ (fun _ => True)
                   (stable_usage _ _) (fun _ _ _ _ _ => Logic.I)
                   customer_id customer_email days now db_now
                   w w' r (conj eq_refl eq_refl) H)).
Qed.

Lemma check_payment_status_keeps_usage (invoice_id : string)
    (now : DateTime.datetime) (w w' : @world G) (r : result status_result) :
  check_payment_status stripe invoice_id now w = (w', r) ->
  usage_events (fst w') = usage_events (fst w) /\
  usage_events_seq (fst w') = usage_events_seq (fst w).
Proof.
  intros H.
  refine (proj1 (holds_check_payment_status stripe _ (fun _ => True)
                   (stable_usage _ _) invoice_id now
                   w w' r (conj eq_refl eq_refl) H)).
Qed.

(** Ids ascend in every database the tracker and the engine can build. *)
Lemma reachable_ids (d : db) : reachable stripe d -> ids_ascending d.
Proof.
  induction 1 as [| d now c s q u p m d' _ IH H
                  | d g c email days now db_now d' g' r _ IH H
                  | d g invoice_id now d' g' r _ IH H].
  - apply UsageTrackerFacts.init_db_ids.
  - exact (UsageTrackerFacts.track_event_ids _ _ _ _ _ _ _ _ _ IH H).
  - exact (proj1 (holds_generate_invoice stripe _ (fun _ => True) stable_ids
                    (fun _ _ _ _ _ => Logic.I) c email days now db_now
                    (d, g) (d', g') r IH H)).
  - exact (proj1 (holds_check_payment_status stripe _ (fun _ => True)
                    stable_ids invoice_id now (d, g) (d', g') r IH H)).
Qed.

End Invariants.

End EngineFacts.

(** *** Reconciling payment status *)

Section ReconcileClaims.

Import Store BillingEngine EngineLaws EngineFacts Scenario.

(** The engine records the status [send_invoice] replies with, and writes
    "paid" over it when [invoice_retrieve] later replies "paid": with a
    gateway that replies "void" and then "paid", a local invoice that is
    void becomes paid. *)
Lemma void_invoice_becomes_paid :
  reachable contrary (fst (fst voided)) /\
  map InvoiceRow.status (invoices (fst (fst voided))) = ["void"] /\
  void_checked
  = ((set_invoices (fst (fst voided))
        (map (mark_paid "in_1" noon_21) (invoices (fst (fst voided)))) 1, tt),
     Ok (Status "in_1" "paid" 1000 1000)) /\
  map InvoiceRow.status (invoices (fst (fst void_checked))) = ["paid"].
Proof.
  split.
  - apply (reach_invoice contrary recorded tt "c1" "c1@example.com" 30
             noon_20 noon_20 _ (snd (fst voided)) (snd voided)).
    + apply (reach_track contrary _init_db morning "c1" "api_calls"
               (Py.PyInt 1000) "calls" (Py.PyFloat (Py.lit 1 2))
               Metadata.Empty).
      * apply reach_init.
      * vm_compute. reflexivity.
    + vm_compute. reflexivity.
  - repeat split; vm_compute; reflexivity.
Qed.

(** C8, amended.  The only status [check_payment_status] writes is "paid",
    and it writes it without looking at the status a row has.  A local
    invoice is "paid" after the call exactly when it was before, or when
    it carries the Stripe id that was checked and the gateway reported
    that invoice paid: PAID is terminal, VOID is not, and nothing is ever
    set to FAILED.  Every other row keeps its status, and no row changes
    its id or its Stripe id. *)
Theorem check_payment_status_writes_only_paid :
  forall (G : Type) (stripe : Stripe.api G) d g invoice_id now d' g' r,
    check_payment_status stripe invoice_id now (d, g) = ((d', g'), r) ->
    Forall2
      (fun row row' =>
         InvoiceRow.id row' = InvoiceRow.id row /\
         InvoiceRow.stripe_invoice_id row' = InvoiceRow.stripe_invoice_id row /\
         (InvoiceRow.status row' = InvoiceRow.status row \/
          InvoiceRow.status row' = "paid") /\
         (InvoiceRow.status row' = "paid" <->
          InvoiceRow.status row = "paid" \/
          (InvoiceRow.stripe_invoice_id row = invoice_id /\
           reported_paid stripe invoice_id g)))
      (invoices d) (invoices d').
Proof.
  intros G stripe d g invoice_id now d' g' r H.
  unfold check_payment_status, try_stripe, bind, call, ret in H. simpl in H.
  assert (Hsame :
            ~ reported_paid stripe invoice_id g ->
            Forall2
              (fun row row' =>
                 InvoiceRow.id row' = InvoiceRow.id row /\
                 InvoiceRow.stripe_invoice_id row'
                 = InvoiceRow.stripe_invoice_id row /\
                 (InvoiceRow.status row' = InvoiceRow.status row \/
                  InvoiceRow.status row' = "paid") /\
                 (InvoiceRow.status row' = "paid" <->
                  InvoiceRow.status row = "paid" \/
                  (InvoiceRow.stripe_invoice_id row = invoice_id /\
                   reported_paid stripe invoice_id g)))
              (invoices d) (invoices d)).
  { intros Hn. induction (invoices d) as [| row rows IH]; constructor;
      [| exact IH].
    split; [reflexivity |]. split; [reflexivity |].
    split; [left; reflexivity |].
    split; [intros Hp; left; exact Hp |].
    intros [Hp | [_ Hr]]; [exact Hp | contradiction]. }
  destruct (Stripe.invoice_retrieve stripe invoice_id g)
    as [g1 [reply | msg]] eqn:E.
  - destruct (String.eqb (Stripe.status reply) "paid") eqn:P.
    + unfold update_paid in H. simpl in H. injection H as <- _ _. simpl.
      assert (Hr : reported_paid stripe invoice_id g).
      { exists g1, reply. split; [exact E |].
        apply String.eqb_eq. exact P. }
      clear Hsame.
      induction (invoices d) as [| row rows IH]; simpl; constructor;
        [| exact IH].
      unfold mark_paid.
      destruct (String.eqb (InvoiceRow.stripe_invoice_id row) invoice_id)
        eqn:Eid; simpl.
      * apply String.eqb_eq in Eid.
        split; [reflexivity |]. split; [reflexivity |].
        split; [right; reflexivity |].
        split; [intros _; right; split; assumption | reflexivity].
      * apply String.eqb_neq in Eid.
        split; [reflexivity |]. split; [reflexivity |].
        split; [left; reflexivity |].
        split; [intros Hp; left; exact Hp |].
        intros [Hp | [Hid _]]; [exact Hp | contradiction].
    + injection H as <- _ _. apply Hsame.
      intros (g2 & reply2 & E2 & P2). rewrite E in E2.
      injection E2 as _ <-. rewrite P2 in P. discriminate P.
  - injection H as <- _ _. apply Hsame.
    intros (g2 & reply2 & E2 & _). rewrite E in E2. discriminate E2.
Qed.

Lemma check_payment_status_writes_only_paid_witness :
  map InvoiceRow.status (invoices (fst (fst two_invoices))) = ["paid"; "open"] /\
  Forall2
    (fun row row' =>
       InvoiceRow.id row' = InvoiceRow.id row /\
       InvoiceRow.stripe_invoice_id row' = InvoiceRow.stripe_invoice_id row /\
       (InvoiceRow.status row' = InvoiceRow.status row \/
        InvoiceRow.status row' = "paid") /\
       (InvoiceRow.status row' = "paid" <->
        InvoiceRow.status row = "paid" \/
        (InvoiceRow.stripe_invoice_id row = "in_0002" /\
         reported_paid SimStripe.api "in_0002"
                       (SimStripe.pay "in_0002" (snd (fst two_invoices))))))
    (invoices (fst (fst two_invoices)))
    (invoices (fst (fst second_paid))) /\
  map InvoiceRow.status (invoices (fst (fst second_paid))) = ["paid"; "paid"].
Proof.
  split; [vm_compute; reflexivity |].
  split; [| vm_compute; reflexivity].
  apply (check_payment_status_writes_only_paid
           SimStripe.state SimStripe.api
           (fst (fst two_invoices))
           (SimStripe.pay "in_0002" (snd (fst two_invoices)))
           "in_0002" (DateTime.make 2024 1 22 12 0 0)
           (fst (fst second_paid)) (snd (fst second_paid)) (snd second_paid)).
  vm_compute. reflexivity.
Defined.

End ReconcileClaims.

(** *** Invoices *)

Section InvoiceClaims.

Import Store BillingEngine AggregateFacts EngineFacts Scenario.




(** C1: the one event is read and invoiced on the 20th, and read and
    invoiced again on the 21st; it is on both committed invoices, each of
    1000 minor units. *)
Theorem event_invoiced_twice :
  exists d w1 w2 items url1 url2 due1 due2,
    one_event = Ok d /\
    UsageTracker.get_unbilled_usage d "c1" None = [the_event] /\
    generate_invoice SimStripe.api "c1" "c1@example.com" 30 noon_20 noon_20
                     (d, SimStripe.empty)
    = (w1, Ok (Invoice "in_0001" 1000 items url1 due1)) /\
    UsageTracker.get_unbilled_usage (fst w1) "c1" None = [the_event] /\
    generate_invoice SimStripe.api "c1" "c1@example.com" 30 noon_21 noon_21 w1
    = (w2, Ok (Invoice "in_0002" 1000 items url2 due2)) /\
    items = aggregate [the_event] /\
    map InvoiceRow.stripe_invoice_id (invoices (fst w2))
    = ["in_0001"; "in_0002"] /\
    map InvoiceRow.amount_cents (invoices (fst w2)) = [1000; 1000].
Proof.
  do 8 eexists.
  split; [vm_compute; reflexivity |].
  split; [vm_compute; reflexivity |].
  split; [vm_compute; reflexivity |].
  split; [vm_compute; reflexivity |].
  split; [vm_compute; reflexivity |].
  repeat split; vm_compute; reflexivity.
Qed.

End InvoiceClaims.

(** ** Calls in flight together *)

Module ConcurrentFacts.

Import Store BillingEngine EngineFacts Concurrent.

Section Calls.

Context {G : Type} (stripe : Stripe.api G).

Lemma holds_true {A : Type} (m : @M G A) :
  holds (fun _ => True) m (fun _ => True).
Proof. intros w w' r _ _. split; intros; exact Logic.I. Qed.

(** When [create_invoice] returns, it returns an invoice of the items it
    was given. *)
Lemma create_invoice_returns (customer_id customer_email : string)
    (period_start period_end db_now : DateTime.datetime) (items : line_items)
    (w w' : @world G) (x : invoice_result) :
  create_invoice stripe customer_id customer_email period_start period_end
                 db_now items w = (w', Ok x) ->
  exists id amount url due, x = Invoice id amount items url due.
Proof.
  intros H.
  assert (Hh : holds (fun _ => True)
                 (create_invoice stripe customer_id customer_email period_start
                                 period_end db_now items)
                 (fun x => exists id amount url due,
                      x = Invoice id amount items url due)).
  { unfold create_invoice.
    eapply holds_bind; [apply holds_true |]. intros c _.
    eapply holds_bind; [apply holds_true |]. intros inv _.
    eapply holds_bind; [apply holds_true |]. intros _ _.
    eapply holds_bind; [apply holds_true |]. intros inv1 _.
    eapply holds_bind; [apply holds_true |]. intros inv2 _.
    eapply holds_bind; [apply holds_true |]. intros _ _.
    apply holds_ret. do 4 eexists. reflexivity. }
  exact (proj2 (Hh w w' (Ok x) Logic.I H) x eq_refl).
Qed.

(** The usage read depends on the usage table alone. *)
Lemma get_unbilled_usage_ext (d d' : db) (customer_id : string)
    (start : option DateTime.datetime) :
  usage_events d = usage_events d' ->
  UsageTracker.get_unbilled_usage d customer_id start
  = UsageTracker.get_unbilled_usage d' customer_id start.
Proof.
  intros H. unfold UsageTracker.get_unbilled_usage. rewrite H. reflexivity.
Qed.

Lemma sub_days_raise (dt : DateTime.datetime) (n : Z) (e : exn) :
  DateTime.sub_days dt n = Raise e -> e = OverflowError.
Proof.
  unfold DateTime.sub_days.
  destruct (_ && _); intros H; [discriminate H |].
  injection H as <-. reflexivity.
Qed.

Lemma bill_usage_keeps_usage (customer_id customer_email : string)
    (now db_now : DateTime.datetime)
    (usage : DateTime.datetime * list Event.t) (w w' : @world G)
    (r : result invoice_result) :
  bill_usage stripe customer_id customer_email now db_now usage w = (w', r) ->
  usage_events (fst w') = usage_events (fst w).
Proof.
  intros H.
  exact (proj1 (proj1 (holds_bill_usage stripe _ (fun _ => True)
                         (stable_usage _ _) (fun _ _ _ _ _ => Logic.I)
                         customer_id customer_email now db_now usage
                         w w' r (conj eq_refl eq_refl) H))).
Qed.

(** One step of a call keeps the usage table and leaves the call
    settled. *)
Lemma step_settled (q : request) (d0 : db) (t t' : task) (w w' : @world G) :
  usage_events (fst w) = usage_events d0 ->
  settled stripe q d0 t ->
  step stripe q t w = (w', t') ->
  usage_events (fst w') = usage_events d0 /\ settled stripe q d0 t'.
Proof.
  intros Hu Ht H. destruct t as [| usage | events r]; simpl in H.
  - unfold read_usage, bind, lift in H.
    destruct (DateTime.sub_days (now q) (billing_period_days q))
      as [period_start | e] eqn:E; injection H as <- <-.
    + split; [exact Hu |]. simpl. split; [exact E |].
      apply get_unbilled_usage_ext. exact Hu.
    + split; [exact Hu |]. simpl. left.
      rewrite (sub_days_raise _ _ _ E). reflexivity.
  - destruct (bill_usage stripe (customer_id q) (customer_email q) (now q)
                         (db_now q) usage w) as [w1 r] eqn:E.
    injection H as <- <-.
    split; [rewrite (bill_usage_keeps_usage _ _ _ _ _ _ _ _ E); exact Hu |].
    destruct Ht as [Hp He]. destruct usage as [period_start events].
    simpl in Hp, He. unfold bill_usage in E. simpl in E |- *.
    destruct events as [| ev evs].
    + unfold ret in E. injection E as _ <-. right. reflexivity.
    + split; [exists period_start; split; [exact Hp | exact He] |].
      unfold try_stripe in E.
      destruct (create_invoice stripe (customer_id q) (customer_email q)
                               period_start (now q) (db_now q)
                               (aggregate (ev :: evs)) w)
        as [w2 [x | e]] eqn:C.
      * injection E as _ <-.
        destruct (create_invoice_returns _ _ _ _ _ _ _ _ _ C)
          as (id & amount & url & due & ->).
        reflexivity.
      * destruct e; injection E as _ <-; try (intros msg; discriminate).
        exists period_start, w, w2. exact C.
  - injection H as <- <-. split; [exact Hu | exact Ht].
Qed.

Lemma run_settled (qa qb : request) (d0 : db) (schedule : list bool) :
  forall (w w' : @world G) (ta tb ta' tb' : task),
    usage_events (fst w) = usage_events d0 ->
    settled stripe qa d0 ta ->
    settled stripe qb d0 tb ->
    run stripe qa qb schedule w ta tb = (w', ta', tb') ->
    usage_events (fst w') = usage_events d0 /\
    settled stripe qa d0 ta' /\ settled stripe qb d0 tb'.
Proof.
  induction schedule as [| turn rest IH]; intros w w' ta tb ta' tb' Hu Ha Hb H;
    simpl in H.
  - injection H as <- <- <-. repeat split; assumption.
  - destruct turn.
    + destruct (step stripe qa ta w) as [w1 ta1] eqn:E.
      destruct (step_settled _ _ _ _ _ _ Hu Ha E) as [Hu1 Ha1].
      exact (IH _ _ _ _ _ _ Hu1 Ha1 Hb H).
    + destruct (step stripe qb tb w) as [w1 tb1] eqn:E.
      destruct (step_settled _ _ _ _ _ _ Hu Hb E) as [Hu1 Hb1].
      exact (IH _ _ _ _ _ _ Hu1 Ha Hb1 H).
Qed.

(** A call run on its own, step after step, is [generate_invoice]. *)
Lemma two_steps_generate_invoice (q : request) (w : @world G) :
  let '(w1, t1) := step stripe q Waiting w in
  let '(w2, t2) := step stripe q t1 w1 in
  exists events,
    t2 = Finished events
           (snd (generate_invoice stripe (customer_id q) (customer_email q)
                                  (billing_period_days q) (now q) (db_now q) w))
    /\ w2 = fst (generate_invoice stripe (customer_id q) (customer_email q)
                                  (billing_period_days q) (now q) (db_now q) w).
Proof.
  unfold generate_invoice, bind. simpl.
  destruct (read_usage (customer_id q) (billing_period_days q) (now q) w)
    as [w1 [usage | e]]; simpl.
  - destruct (bill_usage stripe (customer_id q) (customer_email q) (now q)
                         (db_now q) usage w1) as [w2 r].
    exists (snd usage). split; reflexivity.
  - exists []. split; reflexivity.
Qed.

End Calls.

End ConcurrentFacts.

(** *** Two invoice generations at once *)

Section ConcurrencyClaims.

Import Store BillingEngine Concurrent ConcurrentFacts Scenario.

(** Two calls for the same customer and period, the second reading before
    the first has billed: both return an invoice, and the one event is on
    both. *)
Lemma interleaved_calls_invoice_the_same_event :
  one_event = Ok recorded /\
  exists w ra rb,
    interleaved
    = (w, Finished [the_event] (Ok ra), Finished [the_event] (Ok rb)) /\
    invoiced (snd (fst interleaved)) = [the_event] /\
    invoiced (snd interleaved) = [the_event] /\
    ~ exclusive (snd (fst interleaved)) (snd interleaved) /\
    map InvoiceRow.amount_cents (invoices (fst w)) = [1000; 1000].
Proof.
  split; [vm_compute; reflexivity |].
  do 3 eexists.
  split; [vm_compute; reflexivity |].
  split; [vm_compute; reflexivity |].
  split; [vm_compute; reflexivity |].
  split; [| vm_compute; reflexivity].
  intros H. apply (H the_event the_event).
  - vm_compute. left. reflexivity.
  - vm_compute. left. reflexivity.
  - reflexivity.
Qed.

(** C2, amended.  [generate_invoice] reserves nothing and knows no
    ConflictError.  However two calls are interleaved, neither changes the
    usage table, so each reads the usage of its own period as if the other
    were not there; a call that read no usage answers "No unbilled usage
    found", and a call that read usage returns the invoice of that usage
    aggregated unless the gateway fails, in which case it returns the
    gateway's message. *)
Theorem calls_read_without_reserving :
  forall (G : Type) (stripe : Stripe.api G) qa qb schedule w0 w ta tb,
    run stripe qa qb schedule w0 Waiting Waiting = (w, ta, tb) ->
    usage_events (fst w) = usage_events (fst w0) /\
    settled stripe qa (fst w0) ta /\
    settled stripe qb (fst w0) tb.
Proof.
  intros G stripe qa qb schedule w0 w ta tb H.
  exact (run_settled stripe qa qb (fst w0) schedule w0 w Waiting Waiting ta tb
                     eq_refl Logic.I Logic.I H).
Qed.

Lemma calls_read_without_reserving_witness :
  usage_events (fst (fst (fst interleaved))) = usage_events recorded /\
  settled SimStripe.api request_20 recorded (snd (fst interleaved)) /\
  settled SimStripe.api request_20 recorded (snd interleaved).
Proof.
  apply (calls_read_without_reserving SimStripe.state SimStripe.api
           request_20 request_20 [true; false; true; false]
           (recorded, SimStripe.empty)
           (fst (fst interleaved)) (snd (fst interleaved)) (snd interleaved)).
  vm_compute. reflexivity.
Defined.

End ConcurrencyClaims.

(** ** Date texts and the start-date filter *)

Module DateTextFacts.

Import Store DateTime StoreFacts.

Lemma pad_length (width : nat) (n : Z) (acc : string) :
  String.length (pad width n acc) = (width + String.length acc)%nat.
Proof.
  revert n acc. induction width as [| w IH]; intros n acc; simpl.
  - reflexivity.
  - rewrite IH. simpl. rewrite Nat.add_succ_r. reflexivity.
Qed.

(** A date text is ten characters, whatever the date. *)
Lemma date_text_length (dt : datetime) : String.length (date_text dt) = 10%nat.
Proof.
  unfold date_text. destruct (ymd (ordinal dt)) as [[y m] d].
  rewrite pad_length. cbn [append String.length].
  rewrite pad_length. cbn [append String.length].
  rewrite pad_length. reflexivity.
Qed.

(** Texts that start with prefixes of one length compare by the prefixes,
    and by what follows when the prefixes are the same. *)
Lemma compare_app (a b x y : string) :
  String.length a = String.length b ->
  String.compare (a ++ x) (b ++ y) =
  match String.compare a b with
  | Eq => String.compare x y
  | c => c
  end.
Proof.
  revert b. induction a as [| ca a IH]; intros [| cb b]; simpl;
    try discriminate; intros H.
  - reflexivity.
  - destruct (Ascii.compare ca cb); try reflexivity.
    apply IH. injection H as H. exact H.
Qed.

(** The comparison the start-date filter makes, between the ISO text of
    the start date and a stored CURRENT_TIMESTAMP text, is decided by the
    two dates alone, and a date never passes against itself. *)
Lemma iso_leb_timestamp (start t : datetime) :
  text_leb (isoformat start) (current_timestamp t)
  = text_ltb (date_text start) (date_text t).
Proof.
  unfold text_leb, text_ltb, isoformat, current_timestamp.
  rewrite compare_app by (rewrite !date_text_length; reflexivity).
  destruct (String.compare (date_text start) (date_text t)); reflexivity.
Qed.

Lemma text_ltb_irrefl (a : string) : text_ltb a a = false.
Proof. unfold text_ltb. rewrite compare_refl. reflexivity. Qed.

End DateTextFacts.

(** ** More on the tracker *)

Section TrackerExtras.

Import Store UsageTracker StoreFacts UsageTrackerFacts TrackerLaws.
Import DateTextFacts Scenario.

Lemma filter_snoc {A : Type} (f : A -> bool) (l : list A) (x : A) :
  filter f (l ++ [x]) = (filter f l ++ (if f x then [x] else []))%list.
Proof.
  rewrite filter_app. simpl. destruct (f x); reflexivity.
Qed.

Lemma track_event_rows d now customer_id service quantity unit unit_price
    metadata d' :
  track_event d now customer_id service quantity unit unit_price metadata
  = Ok d' ->
  exists row x y,
    read_back quantity x /\ read_back unit_price y /\
    usage_events d' = (usage_events d ++ [row])%list /\
    UsageEvent.customer_id row = customer_id /\
    event_of_row row =
    {| Event.id := usage_events_seq d + 1;
       Event.service := service;
       Event.quantity := x;
       Event.unit := unit;
       Event.unit_price := y;
       Event.created_at := DateTime.current_timestamp now;
       Event.line_total := Py.fmul x y |}.
Proof.
  intros H.
  destruct (track_event_ok _ _ _ _ _ _ _ _ _ H)
    as (text & x & y & _ & Rx & Ry & _ & _ & _ & _ & ->).
  exists (row d now customer_id service x unit y text), x, y.
  split; [exact Rx |]. split; [exact Ry |].
  split; [reflexivity |]. split; reflexivity.
Qed.

(** X1.  What [track_event] records is what [get_unbilled_usage] reads
    back: after a successful call, the customer's usage is the usage there
    was before together with one new event.  The new event carries the
    service and the unit given, the id after the last one handed out, the
    time of the call, the quantity and the unit price as the REAL columns
    give them back ([float(z)] for an int, a positive zero for a negative
    one, the float itself otherwise), and the product of those two floats
    as its line total. *)
Theorem recorded_event_is_read_back :
  forall d now customer_id service quantity unit unit_price metadata d',
    track_event d now customer_id service quantity unit unit_price metadata
    = Ok d' ->
    exists x y,
      read_back quantity x /\ read_back unit_price y /\
      Permutation
        ({| Event.id := usage_events_seq d + 1;
            Event.service := service;
            Event.quantity := x;
            Event.unit := unit;
            Event.unit_price := y;
            Event.created_at := DateTime.current_timestamp now;
            Event.line_total := Py.fmul x y |}
         :: get_unbilled_usage d customer_id None)
        (get_unbilled_usage d' customer_id None).
Proof.
  intros d now customer_id service quantity unit unit_price metadata d' H.
  destruct (track_event_rows _ _ _ _ _ _ _ _ _ H)
    as (row & x & y & Rx & Ry & Hrows & Hc & He).
  exists x, y. split; [exact Rx |]. split; [exact Ry |].
  unfold get_unbilled_usage. rewrite Hrows, filter_snoc.
  assert (Hsel : selected customer_id None row = true).
  { unfold selected. rewrite Hc, String.eqb_refl. reflexivity. }
  rewrite Hsel, <- He.
  eapply Permutation_trans;
    [| apply Permutation_map; apply order_by_created_at_perm].
  rewrite map_app. simpl.
  eapply Permutation_trans; [| apply Permutation_cons_append].
  apply perm_skip. apply Permutation_map. apply Permutation_sym.
  apply order_by_created_at_perm.
Qed.

Lemma recorded_event_is_read_back_witness :
  get_unbilled_usage recorded "c1" None = [the_event] /\
  exists d',
    track_event recorded noon_20 "c1" "data_gb" (Py.PyInt 3) "GB"
                (Py.PyFloat (S754_zero true)) (Metadata.Dumps job_metadata)
    = Ok d' /\
    get_unbilled_usage d' "c1" None
    = [the_event;
       {| Event.id := 2;
          Event.service := "data_gb";
          Event.quantity := Py.lit 3 0;
          Event.unit := "GB";
          Event.unit_price := S754_zero false;
          Event.created_at := "2024-01-20 12:00:00";
          Event.line_total := S754_zero false |}] /\
    exists x y,
      read_back (Py.PyInt 3) x /\
      read_back (Py.PyFloat (S754_zero true)) y /\
      Permutation
        ({| Event.id := usage_events_seq recorded + 1;
            Event.service := "data_gb";
            Event.quantity := x;
            Event.unit := "GB";
            Event.unit_price := y;
            Event.created_at := DateTime.current_timestamp noon_20;
            Event.line_total := Py.fmul x y |}
         :: get_unbilled_usage recorded "c1" None)
        (get_unbilled_usage d' "c1" None).
Proof.
  split; [vm_compute; reflexivity |].
  eexists. split; [vm_compute; reflexivity |].
  split; [vm_compute; reflexivity |].
  apply (recorded_event_is_read_back recorded noon_20 "c1" "data_gb"
           (Py.PyInt 3) "GB" (Py.PyFloat (S754_zero true))
           (Metadata.Dumps job_metadata)).
  vm_compute. reflexivity.
Defined.

(** X2.  Recording usage for one customer changes neither the usage nor
    the total of any other customer, with or without a start date. *)
Theorem other_customers_are_untouched :
  forall d now customer_id service quantity unit unit_price metadata d'
         other start,
    track_event d now customer_id service quantity unit unit_price metadata
    = Ok d' ->
    other <> customer_id ->
    get_unbilled_usage d' other start = get_unbilled_usage d other start /\
    calculate_total d' other start = calculate_total d other start.
Proof.
  intros d now customer_id service quantity unit unit_price metadata d'
         other start H Hne.
  destruct (track_event_rows _ _ _ _ _ _ _ _ _ H)
    as (row & _ & _ & _ & _ & Hrows & Hc & _).
  assert (Hu : get_unbilled_usage d' other start
               = get_unbilled_usage d other start).
  { unfold get_unbilled_usage. rewrite Hrows, filter_snoc.
    assert (Hsel : selected other start row = false).
    { unfold selected. rewrite Hc.
      assert (E : String.eqb customer_id other = false)
        by (apply String.eqb_neq; congruence).
      rewrite E. reflexivity. }
    rewrite Hsel, app_nil_r. reflexivity. }
  split; [exact Hu |]. unfold calculate_total. rewrite Hu. reflexivity.
Qed.

Lemma other_customers_are_untouched_witness :
  track_event recorded noon_20 "c2" "data_gb" (Py.PyFloat (Py.lit 25 1)) "GB"
              (Py.PyFloat (Py.lit 5 0)) Metadata.Empty
  = Ok {| usage_events :=
            (usage_events recorded ++
             [{| UsageEvent.id := 2;
                 UsageEvent.customer_id := "c2";
                 UsageEvent.service := "data_gb";
                 UsageEvent.quantity := Py.lit 25 1;
                 UsageEvent.unit := "GB";
                 UsageEvent.unit_price := Py.lit 5 0;
                 UsageEvent.metadata := None;
                 UsageEvent.created_at := "2024-01-20 12:00:00" |}])%list;
          usage_events_seq := 2; invoices := []; invoices_seq := 0 |} /\
  calculate_total recorded "c1" None = Py.PyFloat (Py.lit 10 0) /\
  (get_unbilled_usage
     {| usage_events :=
          (usage_events recorded ++
           [{| UsageEvent.id := 2;
               UsageEvent.customer_id := "c2";
               UsageEvent.service := "data_gb";
               UsageEvent.quantity := Py.lit 25 1;
               UsageEvent.unit := "GB";
               UsageEvent.unit_price := Py.lit 5 0;
               UsageEvent.metadata := None;
               UsageEvent.created_at := "2024-01-20 12:00:00" |}])%list;
        usage_events_seq := 2; invoices := []; invoices_seq := 0 |}
     "c1" None
   = get_unbilled_usage recorded "c1" None /\
   calculate_total
     {| usage_events :=
          (usage_events recorded ++
           [{| UsageEvent.id := 2;
               UsageEvent.customer_id := "c2";
               UsageEvent.service := "data_gb";
               UsageEvent.quantity := Py.lit 25 1;
               UsageEvent.unit := "GB";
               UsageEvent.unit_price := Py.lit 5 0;
               UsageEvent.metadata := None;
               UsageEvent.created_at := "2024-01-20 12:00:00" |}])%list;
        usage_events_seq := 2; invoices := []; invoices_seq := 0 |}
     "c1" None
   = calculate_total recorded "c1" None).
Proof.
  split; [vm_compute; reflexivity |].
  split; [vm_compute; reflexivity |].
  apply (other_customers_are_untouched recorded noon_20 "c2" "data_gb"
           (Py.PyFloat (Py.lit 25 1)) "GB" (Py.PyFloat (Py.lit 5 0))
           Metadata.Empty _ "c1" None).
  - vm_compute. reflexivity.
  - discriminate.
Defined.

(** X3.  Without a start date [get_unbilled_usage] returns the rows of the
    customer, every one of them and each once, turned into events, in
    created_at order. *)
Theorem usage_is_the_customers_rows_in_created_order :
  forall d customer_id,
    (exists rows,
        get_unbilled_usage d customer_id None = map event_of_row rows /\
        Permutation
          (filter (fun r => String.eqb (UsageEvent.customer_id r) customer_id)
                  (usage_events d))
          rows) /\
    in_created_order (get_unbilled_usage d customer_id None).
Proof.
  intros d customer_id. split.
  - exists (order_by_created_at
              (filter (selected customer_id None) (usage_events d))).
    split; [reflexivity |].
    replace (filter (selected customer_id None) (usage_events d))
      with (filter (fun r => String.eqb (UsageEvent.customer_id r) customer_id)
                   (usage_events d)).
    + apply order_by_created_at_perm.
    + apply filter_ext. intros r. unfold selected.
      rewrite andb_true_r. reflexivity.
  - apply get_unbilled_usage_created_order.
Qed.

(** X4.  With a start date, what decides whether an event is returned is
    the calendar date alone: the query compares the stored text, which has
    a space after the date, with the ISO text of the start date, which has
    a "T" there.  An event is returned when its date text is above that of
    the start date, and never when it was stored on the day of the start
    date itself, whatever the times of day. *)
Theorem start_date_filters_by_calendar_day :
  forall d customer_id start,
    (forall e t,
        In e (get_unbilled_usage d customer_id (Some start)) ->
        Event.created_at e = DateTime.current_timestamp t ->
        text_ltb (DateTime.date_text start) (DateTime.date_text t) = true /\
        DateTime.ordinal t <> DateTime.ordinal start) /\
    (forall row t,
        In row (usage_events d) ->
        UsageEvent.customer_id row = customer_id ->
        UsageEvent.created_at row = DateTime.current_timestamp t ->
        text_ltb (DateTime.date_text start) (DateTime.date_text t) = true ->
        In (event_of_row row) (get_unbilled_usage d customer_id (Some start))).
Proof.
  intros d customer_id start. split.
  - intros e t He Ht.
    apply get_unbilled_usage_since in He.
    destruct He as (r & _ & -> & _ & Hle). simpl in Ht.
    rewrite Ht, iso_leb_timestamp in Hle. split; [exact Hle |].
    intros Heq.
    assert (Hd : DateTime.date_text t = DateTime.date_text start)
      by (unfold DateTime.date_text; rewrite Heq; reflexivity).
    rewrite Hd, text_ltb_irrefl in Hle. discriminate Hle.
  - intros row t Hin Hc Ht Hlt.
    apply get_unbilled_usage_since. exists row.
    repeat split; try assumption.
    rewrite Ht, iso_leb_timestamp. exact Hlt.
Qed.

Lemma start_date_filters_by_calendar_day_witness :
  In the_event
     (get_unbilled_usage recorded "c1"
                         (Some (DateTime.make 2023 12 31 23 59 59))) /\
  Event.created_at the_event = DateTime.current_timestamp morning /\
  (text_ltb (DateTime.date_text (DateTime.make 2023 12 31 23 59 59))
            (DateTime.date_text morning) = true /\
   DateTime.ordinal morning
   <> DateTime.ordinal (DateTime.make 2023 12 31 23 59 59)).
Proof.
  assert (Hin : In the_event
                   (get_unbilled_usage recorded "c1"
                      (Some (DateTime.make 2023 12 31 23 59 59))))
    by (vm_compute; left; reflexivity).
  assert (Hat : Event.created_at the_event
                = DateTime.current_timestamp morning)
    by (vm_compute; reflexivity).
  split; [exact Hin |]. split; [exact Hat |].
  exact (proj1 (start_date_filters_by_calendar_day
                  recorded "c1" (DateTime.make 2023 12 31 23 59 59))
               the_event morning Hin Hat).
Defined.

End TrackerExtras.

(** ** More on the engine *)

Module EngineOutcomes.

Import Store BillingEngine EngineLaws.

Section Outcomes.

Context {G : Type} (stripe : Stripe.api G).

Lemma bind_inv {A B : Type} (m : @M G A) (k : A -> @M G B) w w' r :
  bind m k w = (w', r) ->
  (exists w1 a, m w = (w1, Ok a) /\ k a w1 = (w', r)) \/
  (exists e, m w = (w', Raise e) /\ r = Raise e).
Proof.
  unfold bind. destruct (m w) as [w1 [a | e]]; intros H.
  - left. exists w1, a. split; [reflexivity | exact H].
  - right. exists e. injection H as <- <-. split; reflexivity.
Qed.

(** A gateway call leaves the database alone and raises nothing but
    [StripeError]. *)
Lemma call_inv {A : Type} (op : G -> G * Stripe.reply A) w w' r :
  call op w = (w', r) ->
  fst w' = fst w /\ forall e, r = Raise e -> exists msg, e = StripeError msg.
Proof.
  unfold call. destruct (op (snd w)) as [g' [a | msg]]; intros H;
    injection H as <- <-; simpl; split; try reflexivity; intros e E.
  - discriminate E.
  - injection E as <-. exists msg. reflexivity.
Qed.

(** A gateway call that returns has returned what the gateway replied. *)
Lemma call_ok {A : Type} (op : G -> G * Stripe.reply A) w w' (a : A) :
  call op w = (w', Ok a) ->
  op (snd w) = (snd w', Stripe.Done a) /\ fst w' = fst w.
Proof.
  unfold call. destruct (op (snd w)) as [g' [a' | msg]]; intros H.
  - injection H as <- <-. split; reflexivity.
  - discriminate H.
Qed.

Lemma get_or_create_customer_inv (customer_email customer_id : string) w w' r :
  get_or_create_customer stripe customer_email customer_id w = (w', r) ->
  fst w' = fst w /\ forall e, r = Raise e -> exists msg, e = StripeError msg.
Proof.
  unfold get_or_create_customer. intros H.
  apply bind_inv in H. destruct H as [(w1 & cs & H1 & H2) | (e & H1 & ->)].
  - apply call_inv in H1. destruct H1 as [E1 _].
    destruct cs as [| c cs].
    + apply call_inv in H2. destruct H2 as [E2 H2].
      split; [congruence | exact H2].
    + unfold ret in H2. injection H2 as <- <-.
      split; [exact E1 | intros e E; discriminate E].
  - apply call_inv in H1. destruct H1 as [E1 H1].
    split; [exact E1 |]. intros e' E. injection E as <-.
    exact (H1 e eq_refl).
Qed.

(** Adding the line items leaves the database alone; it stops at the
    first gateway failure or at the first line total [int()] refuses. *)
Lemma add_line_items_inv (customer invoice : string) (items : line_items)
    w w' r :
  add_line_items stripe customer invoice items w = (w', r) ->
  fst w' = fst w /\
  forall e, r = Raise e ->
    (exists msg, e = StripeError msg) \/
    exists service item,
      In (service, item) items /\ amount_cents item = Raise e.
Proof.
  revert w. induction items as [| [service item] rest IH]; intros w H; simpl in H.
  - unfold ret in H. injection H as <- <-.
    split; [reflexivity | intros e E; discriminate E].
  - apply bind_inv in H. destruct H as [(w1 & a & H1 & H2) | (e & H1 & ->)].
    + unfold lift in H1. injection H1 as <- Ha.
      apply bind_inv in H2.
      destruct H2 as [(w2 & u & H2 & H3) | (e & H2 & ->)].
      * apply call_inv in H2. destruct H2 as [E2 _].
        destruct (IH _ H3) as [E3 H3'].
        split; [congruence |]. intros e E.
        destruct (H3' e E) as [Hs | (s' & i' & Hin & He)]; [left; exact Hs |].
        right. exists s', i'. split; [right; exact Hin | exact He].
      * apply call_inv in H2. destruct H2 as [E2 H2].
        split; [exact E2 |]. intros e' E. injection E as <-.
        left. exact (H2 e eq_refl).
    + unfold lift in H1. injection H1 as <- He.
      split; [reflexivity |]. intros e' E. injection E as <-.
      right. exists service, item. split; [left; reflexivity | exact He].
Qed.

(** [create_invoice] either returns the invoice the gateway replied to
    [send_invoice] with and has inserted its row, or raises and has left
    the database alone. *)
Lemma create_invoice_outcome (customer_id customer_email : string)
    (period_start period_end db_now : DateTime.datetime) (items : line_items)
    w w' r :
  create_invoice stripe customer_id customer_email period_start period_end
                 db_now items w = (w', r) ->
  match r with
  | Ok x =>
      exists created finalized invoice g0 g1,
        Stripe.finalize_invoice stripe (Stripe.id created) g0
        = (g1, Stripe.Done finalized) /\
        Stripe.send_invoice stripe (Stripe.id finalized) g1
        = (snd w', Stripe.Done invoice) /\
        x = Invoice (Stripe.id invoice) (Stripe.amount_due invoice) items
                    (Stripe.hosted_invoice_url invoice)
                    (Stripe.due_date invoice) /\
        fst w' =
        set_invoices (fst w)
          (invoices (fst w) ++
           [invoice_row (fst w) customer_id invoice period_start period_end
                        db_now])%list
          (invoices_seq (fst w) + 1)
  | Raise e =>
      fst w' = fst w /\
      ((exists msg, e = StripeError msg) \/
       exists service item,
         In (service, item) items /\ amount_cents item = Raise e)
  end.
Proof.
  unfold create_invoice. intros H.
  apply bind_inv in H. destruct H as [(w1 & c & H1 & H) | (e & H1 & ->)].
  2: { apply get_or_create_customer_inv in H1. destruct H1 as [E H1].
       split; [exact E | left; exact (H1 e eq_refl)]. }
  apply get_or_create_customer_inv in H1. destruct H1 as [E1 _].
  apply bind_inv in H. destruct H as [(w2 & inv & H2 & H) | (e & H2 & ->)].
  2: { apply call_inv in H2. destruct H2 as [E H2].
       split; [congruence | left; exact (H2 e eq_refl)]. }
  apply call_inv in H2. destruct H2 as [E2 _].
  apply bind_inv in H. destruct H as [(w3 & u & H3 & H) | (e & H3 & ->)].
  2: { apply add_line_items_inv in H3. destruct H3 as [E H3].
       split; [congruence | exact (H3 e eq_refl)]. }
  apply add_line_items_inv in H3. destruct H3 as [E3 _].
  apply bind_inv in H. destruct H as [(w4 & inv1 & H4 & H) | (e & H4 & ->)].
  2: { apply call_inv in H4. destruct H4 as [E H4].
       split; [congruence | left; exact (H4 e eq_refl)]. }
  apply call_ok in H4. destruct H4 as [F4 E4].
  apply bind_inv in H. destruct H as [(w5 & inv2 & H5 & H) | (e & H5 & ->)].
  2: { apply call_inv in H5. destruct H5 as [E H5].
       split; [congruence | left; exact (H5 e eq_refl)]. }
  apply call_ok in H5. destruct H5 as [F5 E5].
  apply bind_inv in H. destruct H as [(w6 & u' & H6 & H) | (e & H6 & ->)].
  2: { unfold record_invoice in H6. discriminate H6. }
  unfold record_invoice in H6. injection H6 as <-.
  unfold ret in H. injection H as <- <-.
  exists inv, inv1, inv2, (snd w3), (snd w4).
  split; [exact F4 |]. split; [exact F5 |]. split; [reflexivity |]. simpl.
  assert (E : fst w5 = fst w) by congruence.
  rewrite E. reflexivity.
Qed.

End Outcomes.

End EngineOutcomes.

Section EngineExtras.

Import Store BillingEngine EngineLaws EngineFacts EngineOutcomes Scenario.

Context {G : Type} (stripe : Stripe.api G).

(** The ways [generate_invoice] can go. *)
Lemma generate_invoice_outcome (customer_id customer_email : string)
    (days : Z) (now db_now : DateTime.datetime) (w w' : @world G)
    (r : result invoice_result) :
  generate_invoice stripe customer_id customer_email days now db_now w
  = (w', r) ->
  (DateTime.sub_days now days = Raise OverflowError /\
   w' = w /\ r = Raise OverflowError) \/
  exists period_start,
    DateTime.sub_days now days = Ok period_start /\
    ((UsageTracker.get_unbilled_usage (fst w) customer_id (Some period_start)
      = [] /\
      w' = w /\ r = Ok (Error "No unbilled usage found")) \/
     (UsageTracker.get_unbilled_usage (fst w) customer_id (Some period_start)
      <> [] /\
      exists r0,
        create_invoice stripe customer_id customer_email period_start now
                       db_now
                       (aggregate
                          (UsageTracker.get_unbilled_usage
                             (fst w) customer_id (Some period_start)))
                       w = (w', r0) /\
        r = match r0 with
            | Raise (StripeError msg) => Ok (Error msg)
            | _ => r0
            end)).
Proof.
  unfold generate_invoice, read_usage, bind, lift.
  destruct (DateTime.sub_days now days) as [period_start | e] eqn:E.
  - intros H. right. exists period_start. split; [reflexivity |].
    unfold bill_usage in H. simpl in H.
    destruct (UsageTracker.get_unbilled_usage (fst w) customer_id
                                              (Some period_start))
      as [| ev evs] eqn:U.
    + left. unfold ret in H. injection H as <- <-. repeat split.
    + right. split; [discriminate |]. unfold try_stripe in H.
      destruct (create_invoice stripe customer_id customer_email period_start
                               now db_now (aggregate (ev :: evs)) w)
        as [w1 r0].
      exists r0. destruct r0 as [x | e].
      * injection H as <- <-. split; reflexivity.
      * destruct e; injection H as <- <-; split; reflexivity.
  - intros H. injection H as <- <-. left.
    rewrite (ConcurrentFacts.sub_days_raise _ _ _ E). repeat split.
Qed.

(** X5.  [generate_invoice] never touches the usage table, whatever the
    gateway does and however the call ends: the usage and the total of
    every customer read the same after the call as before it.  Usage that
    has been invoiced is therefore returned again by the next read. *)
Theorem invoicing_leaves_usage_to_be_read_again :
  forall customer_id customer_email days now db_now (w w' : @world G) r,
    generate_invoice stripe customer_id customer_email days now db_now w
    = (w', r) ->
    usage_events (fst w') = usage_events (fst w) /\
    forall customer start,
      UsageTracker.get_unbilled_usage (fst w') customer start
      = UsageTracker.get_unbilled_usage (fst w) customer start /\
      UsageTracker.calculate_total (fst w') customer start
      = UsageTracker.calculate_total (fst w) customer start.
Proof.
  intros customer_id customer_email days now db_now w w' r H.
  destruct (generate_invoice_keeps_usage stripe _ _ _ _ _ _ _ _ H) as [Hu _].
  split; [exact Hu |]. intros customer start.
  assert (E : UsageTracker.get_unbilled_usage (fst w') customer start
              = UsageTracker.get_unbilled_usage (fst w) customer start)
    by (apply ConcurrentFacts.get_unbilled_usage_ext; exact Hu).
  split; [exact E |]. unfold UsageTracker.calculate_total. rewrite E.
  reflexivity.
Qed.

(** X6.  When the period holds no usage of the customer,
    [generate_invoice] answers "No unbilled usage found" and has made no
    gateway call and no change to the database. *)
Theorem nothing_to_bill_changes_nothing :
  forall customer_id customer_email days now db_now (w : @world G)
         period_start,
    DateTime.sub_days now days = Ok period_start ->
    UsageTracker.get_unbilled_usage (fst w) customer_id (Some period_start)
    = [] ->
    generate_invoice stripe customer_id customer_email days now db_now w
    = (w, Ok (Error "No unbilled usage found")).
Proof.
  intros customer_id customer_email days now db_now w period_start Hp Hu.
  unfold generate_invoice, read_usage, bind, lift. rewrite Hp.
  unfold bill_usage. simpl. rewrite Hu. reflexivity.
Qed.

(** X7.  What [generate_invoice] does to the database is all in its
    answer.  When it returns an invoice, that invoice is the gateway's
    reply to [send_invoice], called for the invoice [finalize_invoice]
    replied with, and one row has been appended to [invoices]: it has the
    next id, the customer, the id, the amount due and the status of that
    reply, the ISO texts of the period, the time of the insertion and no
    paid_at.  The answer carries the reply's id, amount due, URL and due
    date, and as line items the aggregated usage of the period.  When the
    call returns an error dict or raises, the database is as it was. *)
Theorem invoice_row_iff_invoice_returned :
  forall customer_id customer_email days now db_now (w w' : @world G) r,
    generate_invoice stripe customer_id customer_email days now db_now w
    = (w', r) ->
    match r with
    | Ok (Invoice invoice_id amount items url due) =>
        exists period_start created finalized invoice g0 g1,
          DateTime.sub_days now days = Ok period_start /\
          Stripe.finalize_invoice stripe (Stripe.id created) g0
          = (g1, Stripe.Done finalized) /\
          Stripe.send_invoice stripe (Stripe.id finalized) g1
          = (snd w', Stripe.Done invoice) /\
          invoice_id = Stripe.id invoice /\
          amount = Stripe.amount_due invoice /\
          url = Stripe.hosted_invoice_url invoice /\
          due = Stripe.due_date invoice /\
          items = aggregate (UsageTracker.get_unbilled_usage
                               (fst w) customer_id (Some period_start)) /\
          fst w' =
          {| usage_events := usage_events (fst w);
             usage_events_seq := usage_events_seq (fst w);
             invoices :=
               (invoices (fst w) ++
                [{| InvoiceRow.id := invoices_seq (fst w) + 1;
                    InvoiceRow.customer_id := customer_id;
                    InvoiceRow.stripe_invoice_id := Stripe.id invoice;
                    InvoiceRow.amount_cents := Stripe.amount_due invoice;
                    InvoiceRow.status := Stripe.status invoice;
                    InvoiceRow.period_start := DateTime.isoformat period_start;
                    InvoiceRow.period_end := DateTime.isoformat now;
                    InvoiceRow.created_at :=
                      DateTime.current_timestamp db_now;
                    InvoiceRow.paid_at := None |}])%list;
             invoices_seq := invoices_seq (fst w) + 1 |}
    | _ => fst w' = fst w
    end.
Proof.
  intros customer_id customer_email days now db_now w w' r H.
  destruct (generate_invoice_outcome _ _ _ _ _ _ _ _ H)
    as [(_ & -> & ->) | (p & Hp & [(_ & -> & ->) | (_ & r0 & Hc & ->)])];
    try reflexivity.
  apply create_invoice_outcome in Hc. destruct r0 as [x | e].
  - destruct Hc as (created & finalized & invoice & g0 & g1
                    & Hf & Hs & -> & Hw).
    exists p, created, finalized, invoice, g0, g1.
    repeat split; try reflexivity; assumption.
  - destruct Hc as [Hw _]. destruct e; exact Hw.
Qed.

(** X8.  A gateway failure never escapes [generate_invoice]: it comes
    back as an error dict.  What the call can raise is [OverflowError]
    from the period computation, or what [int()] raises on a line total
    times 100 that is infinite ([OverflowError]) or NaN ([ValueError]). *)
Theorem generate_invoice_raises_only_on_numbers :
  forall customer_id customer_email days now db_now (w w' : @world G) e,
    generate_invoice stripe customer_id customer_email days now db_now w
    = (w', Raise e) ->
    (forall msg, e <> StripeError msg) /\
    ((DateTime.sub_days now days = Raise OverflowError /\ e = OverflowError) \/
     exists period_start service item,
       DateTime.sub_days now days = Ok period_start /\
       In (service, item)
          (aggregate (UsageTracker.get_unbilled_usage
                        (fst w) customer_id (Some period_start))) /\
       amount_cents item = Raise e /\
       int_refuses (Py.fmul (LineItem.total item) (Py.lit 100 0)) e).
Proof.
  intros customer_id customer_email days now db_now w w' e H.
  assert (Hint : forall x e', Py.int_of_float x = Raise e' -> int_refuses x e').
  { intros x e' Hx. unfold int_refuses.
    destruct x as [s | s | | s m ex]; simpl in Hx; try discriminate Hx;
      injection Hx as <-; [right | left]; split; reflexivity. }
  destruct (generate_invoice_outcome _ _ _ _ _ _ _ _ H)
    as [(Hp & _ & He) | (p & Hp & [(_ & _ & He) | (_ & r0 & Hc & He)])].
  - injection He as ->. split; [intros msg; discriminate |].
    left. split; [exact Hp | reflexivity].
  - discriminate He.
  - apply create_invoice_outcome in Hc. destruct r0 as [x | e0].
    + discriminate He.
    + destruct Hc as [_ Hc].
      destruct e0; try discriminate He; injection He as ->;
        (split; [intros msg; discriminate |]); right;
        (destruct Hc as [(msg & Hm) | (service & item & Hin & Ha)];
         [discriminate Hm |]);
        exists p, service, item;
        (split; [exact Hp |]); (split; [exact Hin |]);
        (split; [exact Ha |]); apply Hint; exact Ha.
Qed.

End EngineExtras.

Section EngineExtrasWitnesses.

Import Store BillingEngine EngineLaws Scenario.

Lemma invoicing_leaves_usage_to_be_read_again_witness :
  snd invoiced_once
  = Ok (Invoice "in_0001" 1000 (aggregate [the_event])
                "https://invoice.stripe.com/i/in_0001" 1209600) /\
  usage_events (fst (fst invoiced_once)) = usage_events recorded /\
  forall customer start,
    UsageTracker.get_unbilled_usage (fst (fst invoiced_once)) customer start
    = UsageTracker.get_unbilled_usage recorded customer start /\
    UsageTracker.calculate_total (fst (fst invoiced_once)) customer start
    = UsageTracker.calculate_total recorded customer start.
Proof.
  split; [vm_compute; reflexivity |].
  apply (invoicing_leaves_usage_to_be_read_again
           SimStripe.api "c1" "c1@example.com" 30 noon_20 noon_20
           (recorded, SimStripe.empty) (fst invoiced_once)
           (snd invoiced_once)).
  vm_compute. reflexivity.
Defined.

Lemma nothing_to_bill_changes_nothing_witness :
  DateTime.sub_days noon_20 30
  = Ok (DateTime.make 2023 12 21 12 0 0) /\
  UsageTracker.get_unbilled_usage recorded "c2"
                                  (Some (DateTime.make 2023 12 21 12 0 0))
  = [] /\
  generate_invoice SimStripe.api "c2" "c2@example.com" 30 noon_20 noon_20
                   (recorded, SimStripe.empty)
  = ((recorded, SimStripe.empty), Ok (Error "No unbilled usage found")).
Proof.
  assert (Hp : DateTime.sub_days noon_20 30
               = Ok (DateTime.make 2023 12 21 12 0 0))
    by (vm_compute; reflexivity).
  assert (Hu : UsageTracker.get_unbilled_usage
                 recorded "c2" (Some (DateTime.make 2023 12 21 12 0 0)) = [])
    by (vm_compute; reflexivity).
  split; [exact Hp |]. split; [exact Hu |].
  exact (nothing_to_bill_changes_nothing
           SimStripe.api "c2" "c2@example.com" 30 noon_20 noon_20
           (recorded, SimStripe.empty) (DateTime.make 2023 12 21 12 0 0)
           Hp Hu).
Defined.

Lemma invoice_row_iff_invoice_returned_witness :
  map InvoiceRow.status (invoices (fst (fst invoiced_once))) = ["open"] /\
  exists period_start created finalized invoice g0 g1,
    DateTime.sub_days noon_20 30 = Ok period_start /\
    Stripe.finalize_invoice SimStripe.api (Stripe.id created) g0
    = (g1, Stripe.Done finalized) /\
    Stripe.send_invoice SimStripe.api (Stripe.id finalized) g1
    = (snd (fst invoiced_once), Stripe.Done invoice) /\
    "in_0001" = Stripe.id invoice /\
    1000 = Stripe.amount_due invoice /\
    "https://invoice.stripe.com/i/in_0001" = Stripe.hosted_invoice_url invoice /\
    1209600 = Stripe.due_date invoice /\
    aggregate [the_event]
    = aggregate (UsageTracker.get_unbilled_usage
                   (fst (recorded, SimStripe.empty)) "c1" (Some period_start)) /\
    fst (fst invoiced_once) =
    {| usage_events := usage_events (fst (recorded, SimStripe.empty));
       usage_events_seq := usage_events_seq (fst (recorded, SimStripe.empty));
       invoices :=
         (invoices (fst (recorded, SimStripe.empty)) ++
          [{| InvoiceRow.id :=
                invoices_seq (fst (recorded, SimStripe.empty)) + 1;
              InvoiceRow.customer_id := "c1";
              InvoiceRow.stripe_invoice_id := Stripe.id invoice;
              InvoiceRow.amount_cents := Stripe.amount_due invoice;
              InvoiceRow.status := Stripe.status invoice;
              InvoiceRow.period_start := DateTime.isoformat period_start;
              InvoiceRow.period_end := DateTime.isoformat noon_20;
              InvoiceRow.created_at := DateTime.current_timestamp noon_20;
              InvoiceRow.paid_at := None |}])%list;
       invoices_seq := invoices_seq (fst (recorded, SimStripe.empty)) + 1 |}.
Proof.
  split; [vm_compute; reflexivity |].
  apply (invoice_row_iff_invoice_returned
           SimStripe.api "c1" "c1@example.com" 30 noon_20 noon_20
           (recorded, SimStripe.empty) (fst invoiced_once)
           (Ok (Invoice "in_0001" 1000 (aggregate [the_event])
                        "https://invoice.stripe.com/i/in_0001" 1209600))).
  vm_compute. reflexivity.
Defined.

Lemma generate_invoice_raises_only_on_numbers_witness :
  snd (generate_invoice SimStripe.api "c1" "c1@example.com" 30 noon_20 noon_20
                        (infinite_usage, SimStripe.empty))
  = Raise OverflowError /\
  ((forall msg, OverflowError <> StripeError msg) /\
   ((DateTime.sub_days noon_20 30 = Raise OverflowError /\
     OverflowError = OverflowError) \/
    exists period_start service item,
      DateTime.sub_days noon_20 30 = Ok period_start /\
      In (service, item)
         (aggregate (UsageTracker.get_unbilled_usage
                       (fst (infinite_usage, SimStripe.empty)) "c1"
                       (Some period_start))) /\
      amount_cents item = Raise OverflowError /\
      int_refuses (Py.fmul (LineItem.total item) (Py.lit 100 0))
                  OverflowError)).
Proof.
  split; [vm_compute; reflexivity |].
  apply (generate_invoice_raises_only_on_numbers
           SimStripe.api "c1" "c1@example.com" 30 noon_20 noon_20
           (infinite_usage, SimStripe.empty)
           (fst (generate_invoice SimStripe.api "c1" "c1@example.com" 30
                                  noon_20 noon_20
                                  (infinite_usage, SimStripe.empty)))
           OverflowError).
  vm_compute. reflexivity.
Defined.

End EngineExtrasWitnesses.

(** ** Amounts in cents *)

Module AmountFacts.

Import EngineLaws.

Lemma ok_inj {A : Type} (a b : A) : Ok a = Ok b -> a = b.
Proof. congruence. Qed.

Lemma truncates_exact (a : Z) : truncates a (inject_Z a).
Proof.
  unfold truncates. split; intros _; split.
  - apply Qle_refl.
  - unfold Qlt. simpl. lia.
  - unfold Qlt. simpl. lia.
  - apply Qle_refl.
Qed.

(** [int()] of a float is its exact value with the fraction dropped. *)
Lemma int_of_float_truncates (x : Py.float) (a : Z) :
  Py.int_of_float x = Ok a -> truncates a (Py.value x).
Proof.
  destruct x as [s | s | | s m e]; unfold Py.int_of_float, Py.value;
    try discriminate; intros H; apply ok_inj in H; subst a.
  - apply (truncates_exact 0).
  - destruct e as [| q | p].
    + destruct s.
      * replace (- (Z.pos m * 2 ^ 0)) with (Z.neg m * 2 ^ 0) by lia.
        apply truncates_exact.
      * apply truncates_exact.
    + destruct s.
      * replace (- (Z.pos m * 2 ^ Z.pos q)) with (Z.neg m * 2 ^ Z.pos q)
          by lia.
        apply truncates_exact.
      * apply truncates_exact.
    + assert (HD : 0 < 2 ^ Z.pos p) by (apply Z.pow_pos_nonneg; lia).
      pose proof (Z.div_mod (Z.pos m) (2 ^ Z.pos p) ltac:(lia)) as Hdm.
      pose proof (Z.mod_pos_bound (Z.pos m) (2 ^ Z.pos p) HD) as Hmod.
      assert (HQ : Z.pos (2 ^ p)%positive = 2 ^ Z.pos p)
        by (apply Pos2Z.inj_pow).
      unfold truncates, Qle, Qlt.
      destruct s; cbn [Qnum Qden inject_Z Qplus Qminus Qopp Qmult];
        rewrite ?HQ; split; intros Hs; split; try nia.
Qed.

Lemma int_of_float_converts (x : Py.float) : converts x (Py.int_of_float x).
Proof.
  destruct x as [s | s | | s m e] eqn:E; unfold converts;
    try reflexivity.
  - exists 0. split; [reflexivity | apply (truncates_exact 0)].
  - destruct (Py.int_of_float (S754_finite s m e)) as [a | e'] eqn:H;
      [| discriminate H].
    exists a. split; [reflexivity |].
    apply int_of_float_truncates. exact H.
Qed.

Lemma cents_below_in (k : nat) (n : Z) :
  0 <= n < Z.of_nat k -> In n (AgentInvoice.cents_below k).
Proof.
  induction k as [| k IH]; intros H; [lia |].
  simpl. destruct (Z.eq_dec n (Z.of_nat k)) as [-> | Hne].
  - left. reflexivity.
  - right. apply IH. lia.
Qed.

End AmountFacts.

(** *** Amounts in minor units *)

Section RoundingClaims.

Import Store BillingEngine EngineLaws AggregateFacts AmountFacts Scenario.

(** Against the recording gateway, "Add line items" posts the amount of
    every entry, in order, and nothing else. *)
Lemma add_line_items_ledger (customer invoice : string) (items : line_items) :
  forall (d : db) (log posted : list Z),
    Ledger.amounts items = Ok posted ->
    add_line_items Ledger.api customer invoice items (d, log)
    = ((d, (log ++ posted)%list), Ok tt).
Proof.
  induction items as [| [service item] rest IH]; intros d log posted H;
    simpl in H.
  - injection H as <-. rewrite app_nil_r. reflexivity.
  - apply rbind_ok in H. destruct H as (a & Ha & H).
    apply rbind_ok in H. destruct H as (l & Hl & H).
    injection H as <-.
    cbn [add_line_items]. unfold bind at 1. unfold lift. rewrite Ha.
    unfold bind at 1. unfold call. cbn [snd fst].
    cbn [Stripe.invoiceitem_create Ledger.api].
    refine (eq_trans (IH d (log ++ [a])%list l Hl) _).
    rewrite <- app_assoc. reflexivity.
Qed.

Lemma amounts_converted (items : line_items) (posted : list Z) :
  Ledger.amounts items = Ok posted ->
  Forall2
    (fun entry a =>
       converts (Py.fmul (LineItem.total (snd entry)) (Py.lit 100 0)) (Ok a))
    items posted.
Proof.
  revert posted. induction items as [| [service item] rest IH];
    intros posted H; simpl in H.
  - injection H as <-. constructor.
  - apply rbind_ok in H. destruct H as (a & Ha & H).
    apply rbind_ok in H. destruct H as (l & Hl & H).
    injection H as <-. constructor; [| exact (IH l Hl)].
    simpl. rewrite <- Ha. unfold amount_cents.
    apply int_of_float_converts.
Qed.

(** Three services of 1.9 minor units each: the policy of the
    specification rounds each to 2; the engine posts 1 for each, posts no
    adjustment item, and the invoice comes to 3 where the usage comes to
    more than 5. *)
Lemma fractions_of_a_cent_are_dropped :
  exists d w items url due,
    small_charges = Ok d /\
    generate_invoice Ledger.api "c1" "c1@example.com" 30 noon_20 noon_20
                     (d, [])
    = (w, Ok (Invoice "in_1" 3 items url due)) /\
    snd w = [1; 1; 1] /\
    map fst items = ["api_calls"; "data_gb"; "compute_time"] /\
    map (RoundingPolicy.subtotal
           (UsageTracker.get_unbilled_usage d "c1" None))
        ["api_calls"; "data_gb"; "compute_time"]
    = [2; 2; 2] /\
    Qle_bool (inject_Z 5)
             (RoundingPolicy.exact_cents
                (UsageTracker.get_unbilled_usage d "c1" None) "api_calls"
              + RoundingPolicy.exact_cents
                  (UsageTracker.get_unbilled_usage d "c1" None) "data_gb"
              + RoundingPolicy.exact_cents
                  (UsageTracker.get_unbilled_usage d "c1" None)
                  "compute_time")%Q
    = true.
Proof.
  do 5 eexists.
  split; [vm_compute; reflexivity |].
  split; [vm_compute; reflexivity |].
  repeat split; vm_compute; reflexivity.
Qed.

(** C4, amended.  The engine rounds nothing and adjusts nothing.  The
    subtotal of a line item is the float sum, taken left to right from 0,
    of the float products quantity times unit price of the service's
    events; the amount posted for it is [int()] of that float times 100,
    which drops the fraction.  One amount is posted for each line item, in
    the order of the line items, and no other; the amount due the gateway
    reports, which the engine returns and records, is for a gateway that
    adds up what it is sent the sum of those amounts. *)
Theorem line_item_amounts_are_truncated :
  forall d customer_id customer_email days now db_now period_start posted,
    DateTime.sub_days now days = Ok period_start ->
    UsageTracker.get_unbilled_usage d customer_id (Some period_start) <> [] ->
    Ledger.amounts
      (aggregate
         (UsageTracker.get_unbilled_usage d customer_id (Some period_start)))
    = Ok posted ->
    (forall service item,
        get (aggregate
               (UsageTracker.get_unbilled_usage d customer_id
                                                (Some period_start)))
            service = Some item ->
        LineItem.total item
        = sum_floats
            (map (fun e => Py.fmul (Event.quantity e) (Event.unit_price e))
                 (of_service service
                    (UsageTracker.get_unbilled_usage d customer_id
                                                     (Some period_start))))) /\
    Forall2
      (fun entry a =>
         converts (Py.fmul (LineItem.total (snd entry)) (Py.lit 100 0)) (Ok a))
      (aggregate
         (UsageTracker.get_unbilled_usage d customer_id (Some period_start)))
      posted /\
    exists d',
      generate_invoice Ledger.api customer_id customer_email days now db_now
                       (d, [])
      = ((d', posted),
         Ok (Invoice "in_1" (fold_right Z.add 0 posted)
               (aggregate
                  (UsageTracker.get_unbilled_usage d customer_id
                                                   (Some period_start)))
               "https://invoice.stripe.com/i/in_1" 1209600)) /\
      map InvoiceRow.amount_cents (invoices d')
      = (map InvoiceRow.amount_cents (invoices d)
         ++ [fold_right Z.add 0 posted])%list.
Proof.
  intros d customer_id customer_email days now db_now period_start posted
         Hp Hne Ha.
  split; [| split; [exact (amounts_converted _ _ Ha) |]].
  - intros service item H.
    unfold aggregate in H. rewrite get_fold_add_event in H. cbn [get] in H.
    destruct (of_service service
                (UsageTracker.get_unbilled_usage d customer_id
                                                 (Some period_start)))
      as [| first later] eqn:E; [discriminate H |].
    injection H as <-.
    destruct (after_events_fields
                later
                (added (fresh first) (Event.quantity first)
                       (Event.line_total first)))
      as (_ & _ & _ & Ht).
    assert (Hall : forall e,
               In e (first :: later) ->
               Event.line_total e
               = Py.fmul (Event.quantity e) (Event.unit_price e)).
    { intros e He. rewrite <- E in He. unfold of_service in He.
      apply filter_In in He. destruct He as [He _].
      unfold UsageTracker.get_unbilled_usage in He.
      apply in_map_iff in He. destruct He as (r & <- & _). reflexivity. }
    rewrite <- (map_ext_in _ _ _ Hall).
    rewrite Ht. unfold sum_floats. reflexivity.
  - unfold generate_invoice, read_usage, bind at 1, lift. rewrite Hp.
    unfold bind at 1. cbn [fst snd].
    unfold bill_usage. cbn [fst snd].
    destruct (UsageTracker.get_unbilled_usage d customer_id
                                              (Some period_start))
      as [| ev evs] eqn:E; [contradiction Hne; reflexivity |].
    unfold try_stripe, create_invoice.
    unfold bind at 1. unfold get_or_create_customer.
    unfold bind at 1. unfold call at 1. cbn [fst snd].
    cbn [Stripe.customer_list Ledger.api].
    unfold call at 1. cbn [fst snd].
    cbn [Stripe.customer_create Ledger.api].
    unfold bind at 1. unfold call at 1. cbn [fst snd].
    cbn [Stripe.invoice_create Ledger.api].
    unfold bind at 1.
    rewrite (add_line_items_ledger _ _ _ d [] posted Ha). cbn [app].
    unfold bind at 1. unfold call at 1. cbn [fst snd].
    cbn [Stripe.finalize_invoice Ledger.api].
    unfold bind at 1. unfold call at 1. cbn [fst snd].
    cbn [Stripe.send_invoice Ledger.api].
    unfold bind at 1. unfold record_invoice. cbn [fst snd].
    unfold ret.
    eexists. split; [reflexivity |].
    cbn [invoices set_invoices]. rewrite map_app. reflexivity.
Qed.

Lemma line_item_amounts_are_truncated_witness :
  exists d,
    two_events = Ok d /\
    DateTime.sub_days noon_20 30 = Ok (DateTime.make 2023 12 21 12 0 0) /\
    Ledger.amounts
      (aggregate (UsageTracker.get_unbilled_usage
                    d "c1" (Some (DateTime.make 2023 12 21 12 0 0))))
    = Ok [1000; 1250] /\
    exists d',
      generate_invoice Ledger.api "c1" "c1@example.com" 30 noon_20 noon_20
                       (d, [])
      = ((d', [1000; 1250]),
         Ok (Invoice "in_1" (fold_right Z.add 0 [1000; 1250])
               (aggregate (UsageTracker.get_unbilled_usage
                             d "c1" (Some (DateTime.make 2023 12 21 12 0 0))))
               "https://invoice.stripe.com/i/in_1" 1209600)) /\
      map InvoiceRow.amount_cents (invoices d')
      = (map InvoiceRow.amount_cents (invoices d)
         ++ [fold_right Z.add 0 [1000; 1250]])%list.
Proof.
  eexists. split; [vm_compute; reflexivity |].
  split; [vm_compute; reflexivity |].
  split; [vm_compute; reflexivity |].
  eapply proj2. eapply proj2.
  eapply (line_item_amounts_are_truncated
            _ "c1" "c1@example.com" 30 noon_20 noon_20
            (DateTime.make 2023 12 21 12 0 0) [1000; 1250]).
  - vm_compute. reflexivity.
  - vm_compute. discriminate.
  - vm_compute. reflexivity.
Defined.

End RoundingClaims.

Section AmountExtras.

Import EngineLaws AmountFacts.

(** X9.  Both conversions to cents, [int(item["total"] * 100)] of the
    engine and [int(amount_usd * 100)] of the command line, raise
    [ValueError] when the float product is NaN and [OverflowError] when it
    is infinite, and otherwise return the product with its fraction
    dropped: they round toward zero, never to the nearest cent. *)
Theorem cents_are_truncated :
  (forall item,
      converts (Py.fmul (LineItem.total item) (Py.lit 100 0))
               (BillingEngine.amount_cents item)) /\
  (forall amount_usd,
      converts (Py.fmul amount_usd (Py.lit 100 0))
               (AgentInvoice.amount_cents amount_usd)).
Proof.
  split.
  - intros item. unfold BillingEngine.amount_cents.
    apply int_of_float_converts.
  - intros amount_usd. unfold AgentInvoice.amount_cents.
    apply int_of_float_converts.
Qed.

End AmountExtras.

Section CommandLineExtras.

Import AmountFacts.

(** X10.  [main] turns the dollars typed on the command line into cents
    with [int(amount_usd * 100)].  For every amount of whole cents from
    0.00 to 99.99 the result is that number of cents or one cent less; it
    is one cent less for 0.29 and for 19.99. *)
Theorem typed_amount_keeps_or_loses_a_cent :
  (forall n,
      0 <= n < 10000 ->
      exists c,
        AgentInvoice.amount_cents (Py.lit n 2) = Ok c /\
        (c = n \/ c = n - 1)) /\
  AgentInvoice.amount_cents (Py.lit 29 2) = Ok 28 /\
  AgentInvoice.amount_cents (Py.lit 1999 2) = Ok 1998.
Proof.
  split; [| split; vm_compute; reflexivity].
  assert (Hall : forallb AgentInvoice.keeps_or_loses_a_cent
                         AgentInvoice.under_100_dollars = true)
    by (vm_compute; reflexivity).
  intros n Hn. rewrite forallb_forall in Hall.
  assert (Hin : In n AgentInvoice.under_100_dollars).
  { apply cents_below_in. rewrite Z2Nat.id; lia. }
  specialize (Hall n Hin).
  unfold AgentInvoice.keeps_or_loses_a_cent in Hall.
  destruct (AgentInvoice.amount_cents (Py.lit n 2)) as [c | e];
    [| discriminate Hall].
  exists c. split; [reflexivity |].
  apply orb_true_iff in Hall. destruct Hall as [H | H];
    apply Z.eqb_eq in H; [left | right]; exact H.
Qed.

End CommandLineExtras.

Section AggregationExtras.

Import BillingEngine AggregateFacts.

(** X11.  The aggregation makes one line item for each service that
    occurs among the events, and none besides: no service has two, and
    there is no line that is not a service's.  The line item of a service
    has the unit and the unit price of the first event of that service in
    the list, and as quantity and total the sums, taken left to right
    from 0, of the quantities and line totals of all its events. *)
Theorem one_line_item_per_service :
  forall events,
    NoDup (map fst (aggregate events)) /\
    (forall service,
        In service (map fst (aggregate events)) <->
        exists e, In e events /\ Event.service e = service) /\
    (forall service,
        get (aggregate events) service = None <->
        of_service service events = []) /\
    (forall service first later,
        of_service service events = first :: later ->
        get (aggregate events) service
        = Some {| LineItem.quantity :=
                    sum_floats (map Event.quantity (first :: later));
                  LineItem.unit := Event.unit first;
                  LineItem.unit_price := Event.unit_price first;
                  LineItem.total :=
                    sum_floats (map Event.line_total (first :: later)) |}).
Proof.
  intros events.
  destruct (keys_fold_add_event events [] (NoDup_nil _)) as [Hnd Hin].
  split; [exact Hnd |]. split; [| split].
  - intros service. unfold aggregate. rewrite Hin. simpl. tauto.
  - intros service. unfold aggregate. rewrite get_fold_add_event.
    cbn [get]. destruct (of_service service events); split; intros H;
      try reflexivity; discriminate H.
  - intros service first later H. unfold aggregate.
    rewrite get_fold_add_event. cbn [get]. rewrite H. f_equal.
    destruct (after_events_fields (first :: later) (fresh first))
      as (Hu & Hp & Hq & Ht).
    destruct (after_events (fresh first) (first :: later))
      as [q u p t].
    simpl in Hu, Hp, Hq, Ht. subst. reflexivity.
Qed.

End AggregationExtras.

Section ReconcileExtras.

Import Store BillingEngine EngineFacts EngineOutcomes Scenario.

(** X12.  [check_payment_status] never raises and never touches usage.
    When the gateway call fails, or reports a status other than "paid",
    the database is left as it was.  When the gateway reports "paid",
    every local invoice with that Stripe id gets the status "paid" and the
    time of this check as its paid_at, also when it was paid already,
    and every other invoice is left as it was. *)
Theorem check_payment_status_effect :
  forall (G : Type) (stripe : Stripe.api G) invoice_id now d g d' g' r,
    check_payment_status stripe invoice_id now (d, g) = ((d', g'), r) ->
    usage_events d' = usage_events d /\
    match Stripe.invoice_retrieve stripe invoice_id g with
    | (g1, Stripe.Done reply) =>
        g' = g1 /\
        r = Ok (Status (Stripe.id reply) (Stripe.status reply)
                       (Stripe.amount_paid reply) (Stripe.amount_due reply)) /\
        if String.eqb (Stripe.status reply) "paid" then
          Forall2
            (fun row row' =>
               (InvoiceRow.stripe_invoice_id row <> invoice_id -> row' = row) /\
               (InvoiceRow.stripe_invoice_id row = invoice_id ->
                InvoiceRow.status row' = "paid" /\
                InvoiceRow.paid_at row' = Some (DateTime.isoformat now) /\
                InvoiceRow.id row' = InvoiceRow.id row /\
                InvoiceRow.customer_id row' = InvoiceRow.customer_id row /\
                InvoiceRow.amount_cents row' = InvoiceRow.amount_cents row))
            (invoices d) (invoices d')
        else d' = d
    | (g1, Stripe.Failed msg) =>
        g' = g1 /\ r = Ok (StatusError msg) /\ d' = d
    end.
Proof.
  intros G stripe invoice_id now d g d' g' r H.
  split;
    [exact (proj1 (check_payment_status_keeps_usage stripe _ _ _ _ _ H)) |].
  unfold check_payment_status, try_stripe, bind, call, ret in H. simpl in H.
  destruct (Stripe.invoice_retrieve stripe invoice_id g)
    as [g1 [reply | msg]].
  - destruct (String.eqb (Stripe.status reply) "paid").
    + unfold update_paid in H. simpl in H. injection H as <- <- <-.
      split; [reflexivity |]. split; [reflexivity |]. simpl.
      induction (invoices d) as [| row rows IH]; simpl; constructor;
        [| exact IH].
      unfold mark_paid.
      destruct (String.eqb (InvoiceRow.stripe_invoice_id row) invoice_id)
        eqn:E.
      * apply String.eqb_eq in E. split; [congruence |].
        intros _. simpl. repeat split; reflexivity.
      * apply String.eqb_neq in E. split; [reflexivity | congruence].
    + injection H as <- <- <-. repeat split; reflexivity.
  - injection H as <- <- <-. repeat split; reflexivity.
Qed.

Lemma check_payment_status_effect_witness :
  map InvoiceRow.paid_at (invoices (fst (fst paid_once)))
  = [Some "2024-01-21T12:00:00"] /\
  map InvoiceRow.paid_at
      (invoices
         (fst (fst (check_payment_status
                      SimStripe.api "in_0001"
                      (DateTime.make 2024 1 22 12 0 0) (fst paid_once)))))
  = [Some "2024-01-22T12:00:00"] /\
  usage_events
    (fst (fst (check_payment_status
                 SimStripe.api "in_0001"
                 (DateTime.make 2024 1 22 12 0 0) (fst paid_once))))
  = usage_events (fst (fst paid_once)).
Proof.
  split; [vm_compute; reflexivity |].
  split; [vm_compute; reflexivity |].
  exact (proj1
           (check_payment_status_effect
              SimStripe.state SimStripe.api "in_0001"
              (DateTime.make 2024 1 22 12 0 0)
              (fst (fst paid_once)) (snd (fst paid_once))
              (fst (fst (check_payment_status
                           SimStripe.api "in_0001"
                           (DateTime.make 2024 1 22 12 0 0) (fst paid_once))))
              (snd (fst (check_payment_status
                           SimStripe.api "in_0001"
                           (DateTime.make 2024 1 22 12 0 0) (fst paid_once))))
              (snd (check_payment_status
                      SimStripe.api "in_0001"
                      (DateTime.make 2024 1 22 12 0 0) (fst paid_once)))
              ltac:(vm_compute; reflexivity))).
Defined.

Lemma strictly_sorted_nodup (l : list UsageEvent.t) :
  StronglySorted (fun a b => UsageEvent.id a < UsageEvent.id b) l ->
  NoDup (map UsageEvent.id l).
Proof.
  induction l as [| r l IH]; simpl; intros H; [constructor |].
  inversion H as [| ? ? Hs Hr]; subst. constructor; [| exact (IH Hs)].
  intros Hin. apply in_map_iff in Hin. destruct Hin as (x & Hx & Hin).
  rewrite Forall_forall in Hr. specialize (Hr x Hin). lia.
Qed.

(** X14.  In every database the tracker and the engine can build, the
    usage events carry ids that ascend along the table, none beyond the
    counter of the table, so no two events share an id. *)
Theorem event_ids_ascend_and_differ :
  forall (G : Type) (stripe : Stripe.api G) d,
    reachable stripe d ->
    StronglySorted (fun a b => UsageEvent.id a < UsageEvent.id b)
                   (usage_events d) /\
    Forall (fun r => UsageEvent.id r <= usage_events_seq d) (usage_events d) /\
    NoDup (map UsageEvent.id (usage_events d)).
Proof.
  intros G stripe d H.
  destruct (reachable_ids stripe d H) as [Hs Hb].
  split; [exact Hs |]. split; [exact Hb |].
  exact (strictly_sorted_nodup _ Hs).
Qed.

Lemma event_ids_ascend_and_differ_witness :
  exists d,
    later_events = Ok d /\
    map UsageEvent.id (usage_events d) = [1; 2; 3] /\
    List.length (invoices d) = 1%nat /\
    reachable SimStripe.api d /\
    StronglySorted (fun a b => UsageEvent.id a < UsageEvent.id b)
                   (usage_events d) /\
    Forall (fun r => UsageEvent.id r <= usage_events_seq d) (usage_events d) /\
    NoDup (map UsageEvent.id (usage_events d)).
Proof.
  eexists. split; [vm_compute; reflexivity |].
  split; [vm_compute; reflexivity |].
  split; [vm_compute; reflexivity |].
  match goal with
  | |- reachable _ ?d /\ _ =>
      assert (Hr : reachable SimStripe.api d)
  end.
  { apply (reach_track SimStripe.api
             {| usage_events :=
                  (usage_events recorded ++
                   [{| UsageEvent.id := 2;
                       UsageEvent.customer_id := "c2";
                       UsageEvent.service := "data_gb";
                       UsageEvent.quantity := Py.lit 25 1;
                       UsageEvent.unit := "GB";
                       UsageEvent.unit_price := Py.lit 5 0;
                       UsageEvent.metadata := None;
                       UsageEvent.created_at := "2024-01-21 12:00:00" |}])%list;
                usage_events_seq := 2;
                invoices := invoices (fst (fst invoiced_once));
                invoices_seq := 1 |}
             (DateTime.make 2024 1 22 12 0 0)
             "c1" "api_calls" (Py.PyInt 500) "calls"
             (Py.PyFloat (Py.lit 2 2)) (Metadata.Dumps job_metadata)).
    - apply (reach_track SimStripe.api (fst (fst invoiced_once)) noon_21
               "c2" "data_gb" (Py.PyFloat (Py.lit 25 1)) "GB" (Py.PyInt 5)
               Metadata.Empty).
      + apply (reach_invoice SimStripe.api recorded SimStripe.empty
                 "c1" "c1@example.com" 30 noon_20 noon_20 _
                 (snd (fst invoiced_once)) (snd invoiced_once)).
        * apply (reach_track SimStripe.api _init_db morning "c1" "api_calls"
                   (Py.PyInt 1000) "calls" (Py.PyFloat (Py.lit 1 2))
                   Metadata.Empty).
          -- apply reach_init.
          -- vm_compute. reflexivity.
        * vm_compute. reflexivity.
      + vm_compute. reflexivity.
    - vm_compute. reflexivity. }
  split; [exact Hr |].
  exact (event_ids_ascend_and_differ SimStripe.state SimStripe.api _ Hr).
Defined.

End ReconcileExtras.

Section ProjectionExtras.

Import Py CostProjector CostProjectorFacts.

(** X13.  The compute projection recommends "Viable" exactly when the
    margin percent it computed, before rounding, is at least 60; the
    revenue and the margin it reports are those values rounded to two
    decimals and to one. *)
Theorem project_compute_service_viable :
  forall hours cost rate r,
    project_compute_service hours cost rate = Ok r ->
    exists revenue m,
      mul hours rate = Ok revenue /\
      compute_margin hours cost rate = Ok m /\
      monthly_revenue r = round revenue 2 /\
      margin_percent r = round m 1 /\
      (recommendation r = "Viable" <-> ge m (PyInt 60) = true).
Proof.
  intros hours cost rate r H.
  destruct (project_compute_service_ok _ _ _ _ H)
    as (revenue & m & Hrev & Hm & Hr & Hp & Hv & _).
  exists revenue, m. repeat split; try assumption; apply Hv.
Qed.

Lemma project_compute_service_viable_witness :
  project_compute_service (PyInt 100) (PyFloat (lit 2 0)) (PyFloat (lit 5 0))
  = Ok {| volume := PyInt 100;
          monthly_cost := PyFloat (lit 200 0);
          monthly_revenue := PyFloat (lit 500 0);
          monthly_profit := PyFloat (lit 300 0);
          margin_percent := PyFloat (lit 60 0);
          recommendation := "Viable" |} /\
  exists revenue m,
    mul (PyInt 100) (PyFloat (lit 5 0)) = Ok revenue /\
    compute_margin (PyInt 100) (PyFloat (lit 2 0)) (PyFloat (lit 5 0)) = Ok m /\
    PyFloat (lit 500 0) = round revenue 2 /\
    PyFloat (lit 60 0) = round m 1 /\
    ("Viable" = "Viable" <-> ge m (PyInt 60) = true).
Proof.
  split; [vm_compute; reflexivity |].
  apply (project_compute_service_viable
           (PyInt 100) (PyFloat (lit 2 0)) (PyFloat (lit 5 0))
           {| volume := PyInt 100;
              monthly_cost := PyFloat (lit 200 0);
              monthly_revenue := PyFloat (lit 500 0);
              monthly_profit := PyFloat (lit 300 0);
              margin_percent := PyFloat (lit 60 0);
              recommendation := "Viable" |}).
  vm_compute. reflexivity.
Defined.

End ProjectionExtras.

(** ** Interleaved calls and the usage they bill *)

Module InterleavingFacts.

Import Store BillingEngine Concurrent ConcurrentFacts.

Section Calls.

Context {G : Type} (stripe : Stripe.api G).

Lemma usage_of_ext (q : request) (d d' : db) :
  usage_events d = usage_events d' -> usage_of q d = usage_of q d'.
Proof.
  intros H. unfold usage_of.
  destruct (DateTime.sub_days (now q) (billing_period_days q)); [| reflexivity].
  apply get_unbilled_usage_ext. exact H.
Qed.



End Calls.

End InterleavingFacts.

Section InterleavingExtras.

Import Store BillingEngine Concurrent InterleavingFacts Scenario.



End InterleavingExtras.
